(** * A2A to Carbon AI Chat translator: a shallow embedding and its properties

    The development follows the translator class [A2AToCarbonTranslator]
    (A2A Protocol to Carbon AI Chat Translator) with its helper functions,
    and [extractCitations] of lib/a2a/index.ts.

    Conventions of the embedding.
    - A JavaScript value of type [any] or [unknown] is a [JSValue], a value
      that JSON can hold; its numbers are the integers that a double holds
      (the translator only tests numbers for truthiness, prints them and
      produces string lengths).
    - An object is the list of its own enumerable properties in enumeration
      order, with pairwise distinct keys; the translator reads properties
      under fixed names that are neither array indices nor prototype
      members. The form renderer reads and writes objects under names that
      the form chooses: these are [PlainObject]s, with their prototype.
    - Strings are sequences of ASCII characters: case mapping and the
      white-space class are the ASCII ones.
    - A function that may throw returns a [Result]; a function with no
      throwing operation returns its value.
    - [JSON.parse] belongs to the host: the translator takes it as a
      parameter, and the theorems hold for every such function. *)

From Stdlib Require Import ZArith Lia Bool Ascii String List DecimalString.
From stdpp Require Import base option list strings gmap.

Local Open Scope string_scope.
Local Open Scope list_scope.

(** ** JavaScript values *)

Module JS.

#[warnings="-register-all"]
Inductive JSValue : Type :=
| JUndefined
| JNull
| JBool (b : bool)
| JNum (n : Z)
| JStr (s : string)
| JArr (items : list JSValue)
| JObj (fields : list (string * JSValue)).

Definition JSObject : Type := list (string * JSValue).

Inductive JSError : Type :=
| TypeError (msg : string)
| SyntaxError (msg : string).

Inductive Result (A : Type) : Type :=
| Ok (a : A)
| Throw (e : JSError).

Arguments Ok {A} a.
Arguments Throw {A} e.

Definition bind {A B : Type} (m : Result A) (k : A -> Result B) : Result B :=
  match m with
  | Ok a => k a
  | Throw e => Throw e
  end.

(** [try { body } catch { handler }] *)
Definition try_catch {A : Type} (body : Result A) (handler : A) : A :=
  match body with
  | Ok a => a
  | Throw _ => handler
  end.

(** ToBoolean *)
Definition truthy (v : JSValue) : bool :=
  match v with
  | JUndefined | JNull => false
  | JBool b => b
  | JNum n => negb (Z.eqb n 0)
  | JStr s => negb (String.eqb s "")
  | JArr _ | JObj _ => true
  end.

(** [a || b] *)
Definition js_or (a b : JSValue) : JSValue := if truthy a then a else b.

(** [v === "s"] *)
Definition strict_eq_str (v : JSValue) (s : string) : bool :=
  match v with
  | JStr s' => String.eqb s' s
  | _ => false
  end.

(** [typeof v === 'object'] (true of [null] as well) *)
Definition typeof_object (v : JSValue) : bool :=
  match v with
  | JNull | JArr _ | JObj _ => true
  | _ => false
  end.

Definition nullish (v : JSValue) : bool :=
  match v with
  | JUndefined | JNull => true
  | _ => false
  end.

Fixpoint assoc (k : string) (fields : JSObject) : option JSValue :=
  match fields with
  | [] => None
  | (k', v) :: rest => if String.eqb k' k then Some v else assoc k rest
  end.

(** [o[k]] on a metadata map *)
Definition lookup_key (k : string) (fields : JSObject) : JSValue :=
  match assoc k fields with
  | Some v => v
  | None => JUndefined
  end.

(** [v?.k]: [undefined] on [null]/[undefined], the property otherwise
    (primitives and arrays have none of the names the translator reads). *)
Definition js_get (v : JSValue) (k : string) : JSValue :=
  match v with
  | JObj fields => lookup_key k fields
  | _ => JUndefined
  end.

(** [v.k]: throws on [null]/[undefined]. *)
Definition js_prop (v : JSValue) (k : string) : Result JSValue :=
  match v with
  | JUndefined | JNull =>
      Throw (TypeError ("Cannot read properties of null or undefined: " +:+ k))
  | _ => Ok (js_get v k)
  end.

(** The receiver of a string method call [v.m(...)]. *)
Definition as_string (m : string) (v : JSValue) : Result string :=
  match v with
  | JStr s => Ok s
  | _ => Throw (TypeError (m +:+ " is not a function"))
  end.

(** The receiver of an optional call [v?.m(...)]: [None] stands for the
    short-circuit to [undefined]. *)
Definition as_string_opt (m : string) (v : JSValue) : Result (option string) :=
  match v with
  | JUndefined | JNull => Ok None
  | JStr s => Ok (Some s)
  | _ => Throw (TypeError (m +:+ " is not a function"))
  end.

Definition of_option_string (o : option string) : JSValue :=
  match o with
  | Some s => JStr s
  | None => JUndefined
  end.

Definition of_option_object (o : option JSObject) : JSValue :=
  match o with
  | Some fields => JObj fields
  | None => JUndefined
  end.

Definition string_of_Z (n : Z) : string := NilZero.string_of_int (Z.to_int n).

Definition string_of_nat (n : nat) : string := string_of_Z (Z.of_nat n).

(** Number::toString for an integer, in radix 10. [nearest_double] is the
    double nearest to a positive integer, ties to even; an integer that no
    double holds is printed as the one nearest to it. *)
Definition nearest_double (z : Z) : Z :=
  let bits := (Z.log2 z + 1)%Z in
  if (bits <=? 53)%Z then z
  else
    let sh := (bits - 53)%Z in
    let q := Z.shiftr z sh in
    let r := (z - Z.shiftl q sh)%Z in
    let half := Z.shiftl 1 (sh - 1) in
    Z.shiftl (if ((half <? r)%Z || ((r =? half)%Z && Z.odd q))%bool
              then q + 1 else q)%Z sh.

(** The integer with the fewest significant digits that is read back as the
    double [x] (which has [len] digits); of two such the closer one, of two
    equally close ones the even one. [k] is the number of digits tried. *)
Fixpoint shortest_decimal (x : Z) (len k fuel : nat) : Z :=
  match fuel with
  | O => x
  | S fuel' =>
      let p := (10 ^ Z.of_nat (len - k))%Z in
      let lo := (x / p * p)%Z in
      let hi := (lo + p)%Z in
      match (nearest_double lo =? x)%Z, (nearest_double hi =? x)%Z with
      | true, true =>
          if (x - lo <? hi - x)%Z then lo
          else if (hi - x <? x - lo)%Z then hi
          else if Z.even (x / p) then lo else hi
      | true, false => lo
      | false, true => hi
      | false, false => shortest_decimal x len (S k) fuel'
      end
  end.

Fixpoint strip_zeros (s : string) : string :=
  match s with
  | EmptyString => EmptyString
  | String c rest =>
      match strip_zeros rest with
      | EmptyString =>
          if Ascii.eqb c "0" then EmptyString else String c EmptyString
      | rest' => String c rest'
      end
  end.

(** Up to 21 digits are printed as they are, longer numbers with an
    exponent; a number beyond the doubles is [Infinity]. *)
Definition positive_toString (n : Z) : string :=
  let x := nearest_double n in
  if (2 ^ 1024 <=? x)%Z then "Infinity"
  else
    let len := String.length (string_of_Z x) in
    let digits := string_of_Z (shortest_decimal x len 1 len) in
    let exponent := string_of_nat (String.length digits - 1) in
    if Nat.leb (String.length digits) 21 then digits
    else
      match strip_zeros digits with
      | EmptyString => digits
      | String d EmptyString => String d ("e+" +:+ exponent)
      | String d rest => String d ("." +:+ rest +:+ "e+" +:+ exponent)
      end.

Definition Number_toString (n : Z) : string :=
  if (n =? 0)%Z then "0"
  else if (n <? 0)%Z then "-" +:+ positive_toString (- n)
  else positive_toString n.

(** ToString, as performed by a template literal. An object is converted by
    its [toString] method: the one of [Object.prototype], unless the object
    has a property of that name of its own, which in a value that JSON can
    hold is no function, so that the conversion throws ([valueOf] cannot
    help: the one of [Object.prototype] returns the object, and one of the
    object's own is no function either). Without a [toString] of its own
    the object is printed by [Object.prototype.toString], whatever other
    properties it has. An array joins the conversions of its elements,
    [null] and [undefined] giving the empty string. *)
Fixpoint js_toString (v : JSValue) : Result string :=
  match v with
  | JUndefined => Ok "undefined"
  | JNull => Ok "null"
  | JBool true => Ok "true"
  | JBool false => Ok "false"
  | JNum n => Ok (Number_toString n)
  | JStr s => Ok s
  | JArr items =>
      (fix join (l : list JSValue) : Result string :=
         match l with
         | [] => Ok ""
         | x :: rest =>
             bind (if nullish x then Ok "" else js_toString x) (fun sx =>
             match rest with
             | [] => Ok sx
             | _ :: _ => bind (join rest) (fun sr => Ok (sx +:+ "," +:+ sr))
             end)
         end) items
  | JObj fields =>
      match assoc "toString" fields with
      | Some _ => Throw (TypeError "Cannot convert object to primitive value")
      | None => Ok "[object Object]"
      end
  end.

(** [a || b], where [b] may throw and is evaluated only if [a] is falsy. *)
Definition js_or_else (a : JSValue) (b : Result JSValue) : Result JSValue :=
  if truthy a then Ok a else b.

(** [Object.keys(v)] *)
Definition object_keys (v : JSValue) : Result (list string) :=
  match v with
  | JUndefined | JNull =>
      Throw (TypeError "Cannot convert undefined or null to object")
  | JObj fields => Ok (map fst fields)
  | JArr items => Ok (map string_of_nat (seq 0 (length items)))
  | JStr s => Ok (map string_of_nat (seq 0 (String.length s)))
  | JBool _ | JNum _ => Ok []
  end.

End JS.

Export JS.

Declare Scope js_scope.
Delimit Scope js_scope with js.
Notation "'let*' x ':=' m 'in' k" := (bind m (fun x => k))
  (at level 10, x name, m at level 100, k at level 200) : js_scope.
Local Open Scope js_scope.

(** ** String primitives *)

Module Str.

(** White space of [\s] and [trim] *)
Definition is_space (c : ascii) : bool :=
  let n := nat_of_ascii c in
  (Nat.eqb n 32 || (Nat.leb 9 n && Nat.leb n 13))%bool.

Definition lower_ascii (c : ascii) : ascii :=
  let n := nat_of_ascii c in
  if (Nat.leb 65 n && Nat.leb n 90)%bool then ascii_of_nat (n + 32) else c.

Fixpoint toLowerCase (s : string) : string :=
  match s with
  | EmptyString => EmptyString
  | String c rest => String (lower_ascii c) (toLowerCase rest)
  end.

(** [s.startsWith(p)] *)
Fixpoint startsWith (s p : string) : bool :=
  match p with
  | EmptyString => true
  | String a p' =>
      match s with
      | EmptyString => false
      | String b s' => (Ascii.eqb a b && startsWith s' p')%bool
      end
  end.

(** [s.includes(sub)] *)
Fixpoint includes (s sub : string) : bool :=
  (startsWith s sub ||
   match s with
   | EmptyString => false
   | String _ rest => includes rest sub
   end)%bool.

(** Offset of the first occurrence of [sub] in [s]. *)
Fixpoint indexOf (s sub : string) : option nat :=
  if startsWith s sub then Some 0
  else match s with
       | EmptyString => None
       | String _ rest => option_map S (indexOf rest sub)
       end.

Fixpoint drop (n : nat) (s : string) : string :=
  match n with
  | 0 => s
  | S n' => match s with
            | EmptyString => EmptyString
            | String _ rest => drop n' rest
            end
  end.

Fixpoint take (n : nat) (s : string) : string :=
  match n with
  | 0 => EmptyString
  | S n' => match s with
            | EmptyString => EmptyString
            | String c rest => String c (take n' rest)
            end
  end.

Fixpoint skip_spaces (s : string) : string :=
  match s with
  | EmptyString => EmptyString
  | String c rest => if is_space c then skip_spaces rest else s
  end.

(** The longest prefix of non-space characters: a greedy [\S*]. *)
Fixpoint nonspace_run (s : string) : string :=
  match s with
  | EmptyString => EmptyString
  | String c rest => if is_space c then EmptyString else String c (nonspace_run rest)
  end.

Fixpoint rev_string (s : string) : string :=
  match s with
  | EmptyString => EmptyString
  | String c rest => rev_string rest +:+ String c EmptyString
  end.

(** [s.trim()] *)
Definition trim (s : string) : string :=
  rev_string (skip_spaces (rev_string (skip_spaces s))).

(** Case-insensitive prefix test, for a lower-case pattern [p]
    (the [i] flag of a regular expression over ASCII letters). *)
Definition startsWith_ci (s p : string) : bool := startsWith (toLowerCase s) p.

End Str.

Import Str.

(** ** The regular expressions of the translator *)

Module Regex.

Definition fence : string := "```".

Definition strip_json_tag (s : string) : string :=
  if startsWith s "json" then drop 4 s else s.

(** [content.match(/```(?:json)?\s*([\s\S]*?)```/)]: the first capture group.
    The match starts at the first fence; the optional tag and the white
    space hold no backquote, so the lazy group ends at the first fence that
    follows them. *)
Definition match_json_block (content : string) : option string :=
  match indexOf content fence with
  | None => None
  | Some i =>
      let body := skip_spaces (strip_json_tag (drop (i + 3) content)) in
      match indexOf body fence with
      | None => None
      | Some j => Some (take j body)
      end
  end.

(** [s.replace(/```[\s\S]*?```/g, '')]: [skip] counts the characters of the
    block being removed that are still to be dropped. *)
Fixpoint strip_fences_from (s : string) (skip : nat) : string :=
  match s with
  | EmptyString => EmptyString
  | String c rest =>
      match skip with
      | S k => strip_fences_from rest k
      | 0 =>
          if startsWith s fence then
            match indexOf (drop 3 s) fence with
            | Some j => strip_fences_from rest (j + 5)
            | None => String c (strip_fences_from rest 0)
            end
          else String c (strip_fences_from rest 0)
      end
  end.

Definition strip_fences (s : string) : string := strip_fences_from s 0.

(** [\s*(\S+)] at the end of a pattern: the captured name. *)
Definition name_after (rest : string) : option string :=
  let run := nonspace_run (skip_spaces rest) in
  if String.eqb run "" then None else Some run.

(** [/(?:Calling|Tool Call:?)\s*(\S+)/i] anchored at the head of [s]; when
    nothing follows an optional colon, the colon itself is the name. *)
Definition match_call_at (s : string) : option string :=
  if startsWith_ci s "calling" then name_after (drop 7 s)
  else if startsWith_ci s "tool call" then
    let rest := drop 9 s in
    if startsWith rest ":" then
      match name_after (drop 1 rest) with
      | Some n => Some n
      | None => name_after rest
      end
    else name_after rest
  else None.

(** [title.match(/(?:Calling|Tool Call:?)\s*(\S+)/i)?.[1]] *)
Fixpoint match_tool_call_title (s : string) : option string :=
  match match_call_at s with
  | Some n => Some n
  | None =>
      match s with
      | EmptyString => None
      | String _ rest => match_tool_call_title rest
      end
  end.

(** [(\S+)\s*Result] with the group of length at most [k], longest first. *)
Fixpoint match_result_prefix (s : string) (k : nat) : option string :=
  match k with
  | 0 => None
  | S k' =>
      if startsWith_ci (skip_spaces (drop k s)) "result" then Some (take k s)
      else match_result_prefix s k'
  end.

(** [title.match(/^(\S+)\s*Result/i)?.[1]] *)
Definition match_result_title (s : string) : option string :=
  match_result_prefix s (String.length (nonspace_run s)).

End Regex.

Import Regex.

(** ** A2A protocol types *)

Record A2AFile : Type := {
  name : option string;
  mimeType : string;
  bytes : option string;
  uri : option string
}.

(** [data] is typed [Record<string, any>] and tested with [Array.isArray]:
    it is any value, [undefined] when absent. *)
Record A2APart : Type := {
  part_kind : string;
  part_text : option string;
  part_file : option A2AFile;
  part_data : JSValue;
  part_metadata : option JSObject
}.

Record A2AArtifact : Type := {
  artifactId : string;
  art_name : option string;
  art_description : option string;
  parts : list A2APart;
  art_metadata : option JSObject
}.

(** [status.message] and [history] are not read by the translator; the
    status is kept as its [state]. *)
Record A2ATask : Type := {
  task_id : string;
  task_state : string;
  artifacts : list A2AArtifact;
  history : list JSValue
}.

(** ** AgentStack extension URIs and content types *)

Module AGENTSTACK_EXTENSION_URIS.
Definition TRAJECTORY : string :=
  "https://a2a-extensions.agentstack.beeai.dev/ui/trajectory/v1".
Definition CITATION : string :=
  "https://a2a-extensions.agentstack.beeai.dev/ui/citation/v1".
Definition ERROR : string :=
  "https://a2a-extensions.agentstack.beeai.dev/ui/error/v1".
End AGENTSTACK_EXTENSION_URIS.

Module CONTENT_TYPES.
Definition THINKING : string := "thinking".
Definition RESPONSE : string := "response".
Definition TOOL_CALL : string := "tool_call".
Definition TOOL_RESULT : string := "tool_result".
Definition STATUS : string := "status".
End CONTENT_TYPES.

(** ** Carbon AI Chat types *)

Inductive ChainOfThoughtStepStatus : Type := PROCESSING | SUCCESS | ERROR.

Record ChainOfThoughtStep : Type := {
  title : JSValue;
  tool_name : JSValue;
  description : JSValue;
  request : option JSValue;
  response : option JSValue;
  status : ChainOfThoughtStepStatus
}.

Record ReasoningStep : Type := { content : JSValue }.

Inductive ReasoningStepOpenState : Type := OPEN | CLOSED.

Record ReasoningSteps : Type := {
  steps : list ReasoningStep;
  openState : ReasoningStepOpenState
}.

(** [chain_of_thought] holds the [steps] of its wrapper object. *)
Record CarbonMessage : Type := {
  response_type : string;
  text : option string;
  reasoning_steps : option ReasoningSteps;
  chain_of_thought : option (list ChainOfThoughtStep);
  user_defined : option JSObject;
  metadata : option JSObject
}.

Definition chainOfThoughtMessage (step : ChainOfThoughtStep) : CarbonMessage :=
  {| response_type := "chain_of_thought"; text := None;
     reasoning_steps := None; chain_of_thought := Some [step];
     user_defined := None; metadata := None |}.

Definition reasoningMessage (c : JSValue) (st : ReasoningStepOpenState)
  : CarbonMessage :=
  {| response_type := "reasoning_steps"; text := None;
     reasoning_steps := Some {| steps := [ {| content := c |} ]; openState := st |};
     chain_of_thought := None; user_defined := None; metadata := None |}.

Definition userDefinedMessage (rt : string) (payload : JSObject) : CarbonMessage :=
  {| response_type := rt; text := None; reasoning_steps := None;
     chain_of_thought := None; user_defined := Some payload; metadata := None |}.

Definition textMessage (t : option string) (md : option JSObject) : CarbonMessage :=
  {| response_type := "text"; text := t; reasoning_steps := None;
     chain_of_thought := None; user_defined := None; metadata := md |}.

(** [message.metadata = extensionMetadata] *)
Definition set_metadata (m : CarbonMessage) (md : JSObject) : CarbonMessage :=
  {| response_type := response_type m; text := text m;
     reasoning_steps := reasoning_steps m; chain_of_thought := chain_of_thought m;
     user_defined := user_defined m; metadata := Some md |}.

(** ** Trajectory data

    A trajectory is the object found under the extension URI, read through
    the [TrajectoryData] interface: four optional properties. *)

Definition TrajectoryData : Type := JSValue.

Definition trajectory_title (t : TrajectoryData) : JSValue := js_get t "title".
Definition trajectory_content (t : TrajectoryData) : JSValue := js_get t "content".
Definition trajectory_group_id (t : TrajectoryData) : JSValue := js_get t "group_id".
Definition trajectory_content_type (t : TrajectoryData) : JSValue :=
  js_get t "content_type".

Record ParsedContent : Type := {
  pc_type : string;
  pc_toolName : JSValue;
  pc_args : JSValue;
  pc_result : JSValue;
  pc_status : JSValue
}.

Definition parsedOfType (ty : string) : ParsedContent :=
  {| pc_type := ty; pc_toolName := JUndefined; pc_args := JUndefined;
     pc_result := JUndefined; pc_status := JUndefined |}.

(** ** Helper functions *)

Definition extractTrajectoryFromMetadata (metadata : option JSObject)
  : option TrajectoryData :=
  match metadata with
  | None => None
  | Some md =>
      let trajectoryData := lookup_key AGENTSTACK_EXTENSION_URIS.TRAJECTORY md in
      if (truthy trajectoryData && typeof_object trajectoryData)%bool
      then Some trajectoryData
      else None
  end.

Definition is_object_item (item : JSValue) : bool :=
  (typeof_object item && negb (nullish item))%bool.

Definition extractCitations (metadata : option JSObject) : list JSValue :=
  match metadata with
  | None => []
  | Some md =>
      let citationData := lookup_key AGENTSTACK_EXTENSION_URIS.CITATION md in
      if negb (truthy citationData) then []
      else
        match citationData with
        | JArr items => List.filter is_object_item items
        | JObj wrapper =>
            match lookup_key "citations" wrapper with
            | JArr items => List.filter is_object_item items
            | _ => [citationData]
            end
        | _ => []
        end
  end.

Definition inferContentTypeFromTitle (title : JSValue) : Result (option string) :=
  if negb (truthy title) then Ok None
  else
    let* t := as_string "title.toLowerCase" title in
    let lowerTitle := toLowerCase t in
    if (includes lowerTitle "calling" || includes lowerTitle "tool call")%bool
    then Ok (Some CONTENT_TYPES.TOOL_CALL)
    else if (includes lowerTitle "result" || includes lowerTitle "completed")%bool
    then Ok (Some CONTENT_TYPES.TOOL_RESULT)
    else if (includes lowerTitle "thinking" || includes lowerTitle "reasoning")%bool
    then Ok (Some CONTENT_TYPES.THINKING)
    else if (includes lowerTitle "status" || includes lowerTitle "progress")%bool
    then Ok (Some CONTENT_TYPES.STATUS)
    else Ok None.

Section Translator.

(** The host's [JSON.parse]; [None] stands for a thrown [SyntaxError]. *)
Variable JSON_parse : string -> option JSValue.

Definition json_parse (s : string) : Result JSValue :=
  match JSON_parse s with
  | Some v => Ok v
  | None => Throw (SyntaxError "Unexpected token in JSON")
  end.

(** The body of the [try] block of [parseTrajectoryContent]: [Ok (Some r)]
    is a [return r], [Ok None] falls out of the block. Reading [parsed.type]
    throws on [null]; the later reads are of the same, non-null, value. *)
Definition parseJsonBlock (captured : string) : Result (option ParsedContent) :=
  let* parsed := json_parse (trim captured) in
  let* ty := js_prop parsed "type" in
  let tool_data := js_get parsed "tool_data" in
  if (strict_eq_str ty "tool_call"
      || strict_eq_str (js_get parsed "content_type") "tool_call")%bool
  then Ok (Some {|
    pc_type := "tool_call";
    pc_toolName := js_or (js_get parsed "tool_name") (js_get tool_data "tool_name");
    pc_args := js_or (js_get parsed "args") (js_get tool_data "args");
    pc_result := JUndefined;
    pc_status := JUndefined |})
  else if (strict_eq_str ty "tool_result"
           || strict_eq_str (js_get parsed "content_type") "tool_result")%bool
  then Ok (Some {|
    pc_type := "tool_result";
    pc_toolName := js_or (js_get parsed "tool_name") (js_get tool_data "tool_name");
    pc_args := JUndefined;
    pc_result := js_or (js_get parsed "result")
                   (js_or (js_get parsed "result_preview")
                      (js_get tool_data "result_preview"));
    pc_status := js_or (js_get parsed "status")
                   (js_or (js_get tool_data "status") (JStr "success")) |})
  else Ok None.

(** The plain-text fallback of [parseTrajectoryContent]. *)
Definition keywordFallback (content : string) : ParsedContent :=
  if (includes content "**Arguments:**"
      || includes (toLowerCase content) "calling")%bool
  then parsedOfType "tool_call"
  else if (includes content "**Result:**" || includes content "**Status:**")%bool
  then parsedOfType "tool_result"
  else parsedOfType "text".

Definition parseTrajectoryContent (content : JSValue) : Result ParsedContent :=
  if negb (truthy content) then Ok (parsedOfType "text")
  else
    let* c := as_string "content.match" content in
    let fromJson :=
      match match_json_block c with
      | Some captured => try_catch (parseJsonBlock captured) None
      | None => None
      end in
    match fromJson with
    | Some r => Ok r
    | None => Ok (keywordFallback c)
    end.

(** [trajectory.content?.replace(/```[\s\S]*?```/g, '').trim() || undefined] *)
Definition descriptionOf (content : JSValue) : Result JSValue :=
  let* c := as_string_opt "content.replace" content in
  match c with
  | None => Ok JUndefined
  | Some s => Ok (js_or (JStr (trim (strip_fences s))) JUndefined)
  end.

Definition createToolCallFromTrajectory (trajectory : TrajectoryData)
  (parsedContent : ParsedContent) : Result CarbonMessage :=
  let* t := as_string_opt "title.match" (trajectory_title trajectory) in
  let toolNameMatch := t ≫= match_tool_call_title in
  let toolName :=
    js_or (pc_toolName parsedContent)
      (js_or (of_option_string toolNameMatch) (JStr "tool")) in
  let* stepTitle :=
    js_or_else (trajectory_title trajectory)
      (let* name := js_toString toolName in Ok (JStr ("Calling " +:+ name))) in
  let* d := descriptionOf (trajectory_content trajectory) in
  Ok (chainOfThoughtMessage {|
    title := stepTitle;
    tool_name := toolName;
    description := d;
    request := if truthy (pc_args parsedContent)
               then Some (pc_args parsedContent) else None;
    response := None;
    status := PROCESSING |}).

(** [a || b?.toLowerCase().includes(..) || c?.toLowerCase().includes(..)],
    reduced to its truth value. *)
Definition isErrorOf (trajectory : TrajectoryData) (parsedContent : ParsedContent)
  : Result bool :=
  if strict_eq_str (pc_status parsedContent) "error" then Ok true
  else
    let* c := as_string_opt "content.toLowerCase" (trajectory_content trajectory) in
    if match c with
       | Some s => includes (toLowerCase s) "error"
       | None => false
       end
    then Ok true
    else
      let* t := as_string_opt "title.toLowerCase" (trajectory_title trajectory) in
      Ok match t with
         | Some s => includes (toLowerCase s) "failed"
         | None => false
         end.

Definition createToolResultFromTrajectory (trajectory : TrajectoryData)
  (parsedContent : ParsedContent) : Result CarbonMessage :=
  let* t := as_string_opt "title.match" (trajectory_title trajectory) in
  let toolNameMatch := t ≫= match_result_title in
  let toolName :=
    js_or (pc_toolName parsedContent)
      (js_or (of_option_string toolNameMatch) (JStr "tool")) in
  let* isError := isErrorOf trajectory parsedContent in
  let* stepTitle :=
    js_or_else (trajectory_title trajectory)
      (let* name := js_toString toolName in Ok (JStr (name +:+ " completed"))) in
  let* d := descriptionOf (trajectory_content trajectory) in
  Ok (chainOfThoughtMessage {|
    title := stepTitle;
    tool_name := toolName;
    description := d;
    request := None;
    response := if truthy (pc_result parsedContent)
                then Some (pc_result parsedContent) else None;
    status := if isError then ERROR else SUCCESS |}).

Definition newline : string := String (ascii_of_nat 10) EmptyString.

Definition createReasoningFromTrajectory (trajectory : TrajectoryData)
  : Result CarbonMessage :=
  let c := js_or (trajectory_content trajectory)
             (js_or (trajectory_title trajectory) (JStr "")) in
  let* stepContent :=
    if truthy (trajectory_title trajectory)
    then
      let* t := js_toString (trajectory_title trajectory) in
      let* body := js_toString c in
      Ok (JStr ("**" +:+ t +:+ "**" +:+ newline +:+ newline +:+ body))
    else Ok c in
  Ok (reasoningMessage stepContent CLOSED).

Definition createStatusFromTrajectory (trajectory : TrajectoryData)
  : CarbonMessage :=
  userDefinedMessage "user_defined"
    [ ("type", JStr "status_message");
      ("message", js_or (trajectory_title trajectory) (trajectory_content trajectory));
      ("metadata", JObj [ ("group_id", trajectory_group_id trajectory) ]) ].

(** [explicitType || inferredType || parsedContent.type] *)
Definition resolveContentType (explicitType : JSValue)
  (inferredType : option string) (parsedContent : ParsedContent) : JSValue :=
  js_or explicitType
    (js_or (of_option_string inferredType) (JStr (pc_type parsedContent))).

(** The [switch (contentType)] of [translateTrajectory]. *)
Definition routeTrajectory (contentType : JSValue) (trajectory : TrajectoryData)
  (parsedContent : ParsedContent) : Result (option CarbonMessage) :=
  if strict_eq_str contentType CONTENT_TYPES.TOOL_CALL then
    let* m := createToolCallFromTrajectory trajectory parsedContent in Ok (Some m)
  else if strict_eq_str contentType CONTENT_TYPES.TOOL_RESULT then
    let* m := createToolResultFromTrajectory trajectory parsedContent in Ok (Some m)
  else if strict_eq_str contentType CONTENT_TYPES.THINKING then
    let* m := createReasoningFromTrajectory trajectory in Ok (Some m)
  else if strict_eq_str contentType CONTENT_TYPES.STATUS then
    Ok (Some (createStatusFromTrajectory trajectory))
  else if truthy (trajectory_content trajectory) then
    let* m := createReasoningFromTrajectory trajectory in Ok (Some m)
  else Ok None.

Definition translateTrajectory (trajectory : TrajectoryData)
  : Result (option CarbonMessage) :=
  if (negb (truthy (trajectory_title trajectory))
      && negb (truthy (trajectory_content trajectory)))%bool
  then Ok None
  else
    let explicitType := trajectory_content_type trajectory in
    let* inferredType := inferContentTypeFromTitle (trajectory_title trajectory) in
    let* parsedContent := parseTrajectoryContent (trajectory_content trajectory) in
    let contentType := resolveContentType explicitType inferredType parsedContent in
    routeTrajectory contentType trajectory parsedContent.

(** The local [contentType] of [translateTrajectory]. *)
Definition contentTypeOf (t : TrajectoryData) : Result JSValue :=
  let* inferredType := inferContentTypeFromTitle (trajectory_title t) in
  let* parsedContent := parseTrajectoryContent (trajectory_content t) in
  Ok (resolveContentType (trajectory_content_type t) inferredType parsedContent).

(** Attach the artifact's extension metadata to a translated message:
    [if (message && extensionMetadata) message.metadata = extensionMetadata]. *)
Definition attachMetadata (message : option CarbonMessage)
  (extensionMetadata : option JSObject) : option CarbonMessage :=
  match message, extensionMetadata with
  | Some m, Some md => Some (set_metadata m md)
  | _, _ => message
  end.

(** [part.metadata?.content_type] *)
Definition part_content_type (part : A2APart) : JSValue :=
  js_get (of_option_object (part_metadata part)) "content_type".

Definition translateMetadataPart (part : A2APart) : option CarbonMessage :=
  let contentType := part_content_type part in
  if strict_eq_str contentType CONTENT_TYPES.THINKING then
    Some (reasoningMessage
            (js_or (of_option_string (part_text part)) (JStr "")) CLOSED)
  else if strict_eq_str contentType CONTENT_TYPES.RESPONSE then
    Some (textMessage (part_text part) None)
  else if strict_eq_str contentType CONTENT_TYPES.STATUS then
    Some (userDefinedMessage "user_defined"
            [ ("type", JStr "status_message");
              ("message", of_option_string (part_text part));
              ("metadata", of_option_object (part_metadata part)) ])
  else None.

Definition translateDataPart (part : A2APart) : Result (option CarbonMessage) :=
  let data := part_data part in
  let dataType := js_get data "type" in
  if strict_eq_str dataType "tool_call" then
    let* stepTitle :=
      js_or_else (js_get data "title")
        (let* name := js_toString (js_or (js_get data "tool_name") (JStr "tool")) in
         Ok (JStr ("Calling " +:+ name))) in
    Ok (Some (chainOfThoughtMessage {|
      title := stepTitle;
      tool_name := js_get data "tool_name";
      description := js_get data "description";
      request := if truthy (js_get data "args")
                 then Some (js_get data "args") else None;
      response := None;
      status := PROCESSING |}))
  else if strict_eq_str dataType "tool_result" then
    let* stepTitle :=
      js_or_else (js_get data "title")
        (let* name := js_toString (js_or (js_get data "tool_name") (JStr "Tool")) in
         Ok (JStr (name +:+ " completed"))) in
    Ok (Some (chainOfThoughtMessage {|
      title := stepTitle;
      tool_name := js_get data "tool_name";
      description := js_get data "description";
      request := if truthy (js_get data "args")
                 then Some (js_get data "args") else None;
      response := if truthy (js_get data "result")
                  then Some (js_get data "result") else None;
      status := if truthy (js_get data "error") then ERROR else SUCCESS |}))
  else Ok None.

Definition base64ToDataUrl (base64 mimeType : string) : string :=
  "data:" +:+ mimeType +:+ ";base64," +:+ base64.

(** [part.file.uri || this.base64ToDataUrl(part.file.bytes || '', mimeType)] *)
Definition fileUrl (f : A2AFile) : JSValue :=
  js_or (of_option_string (uri f))
    (JStr (base64ToDataUrl (default "" (bytes f)) (mimeType f))).

(** [part.file.name?.includes(sub)] *)
Definition nameIncludes (f : A2AFile) (sub : string) : bool :=
  match name f with
  | Some n => includes n sub
  | None => false
  end.

Definition translateFilePart (part : A2APart) (artifact : option A2AArtifact)
  : option CarbonMessage :=
  match part_file part with
  | None => None
  | Some f =>
      if startsWith (mimeType f) "image/" then
        Some (userDefinedMessage "image"
                [ ("type", JStr "image");
                  ("url", fileUrl f);
                  ("alt", of_option_string (name f));
                  ("caption", of_option_string (artifact ≫= art_description)) ])
      else if (nameIncludes f "chart" || nameIncludes f "graph")%bool then
        Some (userDefinedMessage "user_defined"
                [ ("type", JStr "chart");
                  ("imageUrl", fileUrl f);
                  ("title", of_option_string (artifact ≫= art_name));
                  ("description", of_option_string (artifact ≫= art_description)) ])
      else
        Some (userDefinedMessage "user_defined"
                [ ("type", JStr "file_attachment");
                  ("fileName", of_option_string (name f));
                  ("mimeType", JStr (mimeType f));
                  ("downloadUrl", of_option_string (uri f));
                  ("size", match bytes f with
                           | Some b => JNum (Z.of_nat (String.length b))
                           | None => JUndefined
                           end) ])
  end.

Definition structuredData (data : JSValue) : CarbonMessage :=
  userDefinedMessage "user_defined"
    [ ("type", JStr "structured_data"); ("data", data) ].

Definition dataTable (columns : list string) (rows : JSValue) : CarbonMessage :=
  userDefinedMessage "user_defined"
    [ ("type", JStr "data_table");
      ("columns", JArr (map JStr columns));
      ("rows", rows) ].

Definition translateGenericDataPart (part : A2APart)
  : Result (option CarbonMessage) :=
  let data := part_data part in
  if negb (truthy data) then Ok None
  else
    match data with
    | JArr (first :: _) =>
        if typeof_object first then
          let* columns := object_keys first in
          Ok (Some (dataTable columns data))
        else Ok (Some (structuredData data))
    | _ => Ok (Some (structuredData data))
    end.

Definition translatePart (part : A2APart) (artifact : option A2AArtifact)
  : Result (option CarbonMessage) :=
  let extensionMetadata := artifact ≫= art_metadata in
  match extractTrajectoryFromMetadata (part_metadata part) with
  | Some partTrajectory => translateTrajectory partTrajectory
  | None =>
      if truthy (part_content_type part) then
        Ok (attachMetadata (translateMetadataPart part) extensionMetadata)
      else if (String.eqb (part_kind part) "data"
               && truthy (js_get (part_data part) "type"))%bool then
        let* dataMessage := translateDataPart part in
        Ok (attachMetadata dataMessage extensionMetadata)
      else if String.eqb (part_kind part) "text" then
        Ok (Some (textMessage (part_text part) extensionMetadata))
      else if String.eqb (part_kind part) "file" then
        Ok (attachMetadata (translateFilePart part artifact) extensionMetadata)
      else if String.eqb (part_kind part) "data" then
        let* dataMessage := translateGenericDataPart part in
        Ok (attachMetadata dataMessage extensionMetadata)
      else Ok None
  end.

(** [if (message) messages.push(message)] *)
Definition push (messages : list CarbonMessage) (message : option CarbonMessage)
  : list CarbonMessage :=
  match message with
  | Some m => messages ++ [m]
  | None => messages
  end.

(** The inner loop of [translateTask]: [for (const part of artifact.parts)]. *)
Fixpoint translateParts (ps : list A2APart) (artifact : A2AArtifact)
  (messages : list CarbonMessage) : Result (list CarbonMessage) :=
  match ps with
  | [] => Ok messages
  | part :: rest =>
      let* message := translatePart part (Some artifact) in
      translateParts rest artifact (push messages message)
  end.

(** The artifact-level trajectory step of the loop body. *)
Definition translateArtifactTrajectory (artifact : A2AArtifact)
  : Result (option CarbonMessage) :=
  match extractTrajectoryFromMetadata (art_metadata artifact) with
  | Some artifactTrajectory => translateTrajectory artifactTrajectory
  | None => Ok None
  end.

(** The outer loop of [translateTask]: [for (const artifact of task.artifacts)]. *)
Fixpoint translateArtifacts (arts : list A2AArtifact)
  (messages : list CarbonMessage) : Result (list CarbonMessage) :=
  match arts with
  | [] => Ok messages
  | artifact :: rest =>
      let* trajectoryMessage := translateArtifactTrajectory artifact in
      let* messages' :=
        translateParts (parts artifact) artifact (push messages trajectoryMessage) in
      translateArtifacts rest messages'
  end.

Definition translateTask (task : A2ATask) : Result (list CarbonMessage) :=
  translateArtifacts (artifacts task) [].

Definition translateStreamingPart (part : A2APart) (metadata : option JSObject)
  : Result (option CarbonMessage) :=
  match extractTrajectoryFromMetadata metadata with
  | Some trajectoryData => translateTrajectory trajectoryData
  | None =>
      let artifact :=
        match metadata with
        | Some md => Some {| artifactId := ""; art_name := None;
                             art_description := None; parts := [];
                             art_metadata := Some md |}
        | None => None
        end in
      translatePart part artifact
  end.

End Translator.

(** ** Static factory methods *)

Definition createToolCallMessage (toolName : string) (args : JSValue)
  (description : option string) : CarbonMessage :=
  chainOfThoughtMessage {|
    title := JStr ("Calling " +:+ toolName);
    tool_name := JStr toolName;
    description := of_option_string description;
    request := if truthy args then Some args else None;
    response := None;
    status := PROCESSING |}.

Definition createToolResultMessage (toolName : string) (result args : JSValue)
  (error : option bool) (description : option string) : CarbonMessage :=
  let failed := default false error in
  chainOfThoughtMessage {|
    title := JStr (toolName +:+ " " +:+ (if failed then "failed" else "completed"));
    tool_name := JStr toolName;
    description := of_option_string description;
    request := if truthy args then Some args else None;
    response := Some result;
    status := if failed then ERROR else SUCCESS |}.

Definition createReasoningMessage (content : string)
  (openState : option ReasoningStepOpenState) : CarbonMessage :=
  reasoningMessage (JStr content) (default CLOSED openState).

(** ** A reader for a fragment of JSON

    The theorems below hold for every [JSON_parse]. To run the translator on
    concrete inputs, [JSON_parse_fragment] reads the JSON texts whose numbers
    are integers, whose strings use the one-letter escapes only and whose
    object keys are not array indices; any other text is rejected. *)

Module JsonFragment.

Definition is_ws (c : ascii) : bool :=
  let n := nat_of_ascii c in
  (Nat.eqb n 32 || Nat.eqb n 9 || Nat.eqb n 10 || Nat.eqb n 13)%bool.

Fixpoint skip_ws (s : string) : string :=
  match s with
  | EmptyString => EmptyString
  | String c rest => if is_ws c then skip_ws rest else s
  end.

Definition is_digit (c : ascii) : bool :=
  let n := nat_of_ascii c in (Nat.leb 48 n && Nat.leb n 57)%bool.

Definition is_char (n : nat) (c : ascii) : bool := Nat.eqb (nat_of_ascii c) n.

Fixpoint read_digits (s : string) (acc : Z) : Z * string :=
  match s with
  | EmptyString => (acc, s)
  | String c rest =>
      if is_digit c
      then read_digits rest (acc * 10 + Z.of_nat (nat_of_ascii c - 48))%Z
      else (acc, s)
  end.

Definition all_digits (s : string) : bool :=
  (negb (String.eqb s "") && String.eqb (snd (read_digits s 0%Z)) "")%bool.

Definition read_unsigned (s : string) : option (Z * string) :=
  match s with
  | String c rest =>
      if is_digit c then
        let '(n, r) := read_digits s 0%Z in
        let leading_zero :=
          (is_char 48 c && match rest with
                           | String d _ => is_digit d
                           | EmptyString => false
                           end)%bool in
        let fractional :=
          match r with
          | String d _ => (is_char 46 d || is_char 101 d || is_char 69 d)%bool
          | EmptyString => false
          end in
        if (leading_zero || fractional)%bool then None else Some (n, r)
      else None
  | EmptyString => None
  end.

Definition read_number (s : string) : option (JSValue * string) :=
  match s with
  | String c rest =>
      if is_char 45 c then
        match read_unsigned rest with
        | Some (n, r) => Some (JNum (- n), r)
        | None => None
        end
      else
        match read_unsigned s with
        | Some (n, r) => Some (JNum n, r)
        | None => None
        end
  | EmptyString => None
  end.

Definition unescape (c : ascii) : option ascii :=
  let n := nat_of_ascii c in
  if (Nat.eqb n 34 || Nat.eqb n 92 || Nat.eqb n 47)%bool then Some c
  else if Nat.eqb n 98 then Some (ascii_of_nat 8)
  else if Nat.eqb n 102 then Some (ascii_of_nat 12)
  else if Nat.eqb n 110 then Some (ascii_of_nat 10)
  else if Nat.eqb n 114 then Some (ascii_of_nat 13)
  else if Nat.eqb n 116 then Some (ascii_of_nat 9)
  else None.

(** The characters of a string literal after its opening quote. *)
Fixpoint read_string_body (s : string) : option (string * string) :=
  match s with
  | EmptyString => None
  | String c rest =>
      if is_char 34 c then Some (EmptyString, rest)
      else if is_char 92 c then
        match rest with
        | String e rest' =>
            match unescape e, read_string_body rest' with
            | Some ch, Some (body, r) => Some (String ch body, r)
            | _, _ => None
            end
        | EmptyString => None
        end
      else if Nat.ltb (nat_of_ascii c) 32 then None
      else
        match read_string_body rest with
        | Some (body, r) => Some (String c body, r)
        | None => None
        end
  end.

(** A later duplicate of a key overrides the value and keeps the position. *)
Fixpoint set_field (fields : JSObject) (k : string) (v : JSValue) : JSObject :=
  match fields with
  | [] => [(k, v)]
  | (k', v') :: rest =>
      if String.eqb k' k then (k', v) :: rest else (k', v') :: set_field rest k v
  end.

Fixpoint read_value (fuel : nat) (s : string) : option (JSValue * string) :=
  match fuel with
  | 0 => None
  | S fuel' =>
      let s := skip_ws s in
      if startsWith s "null" then Some (JNull, drop 4 s)
      else if startsWith s "true" then Some (JBool true, drop 4 s)
      else if startsWith s "false" then Some (JBool false, drop 5 s)
      else
        match s with
        | EmptyString => None
        | String c rest =>
            if is_char 91 c then
              match skip_ws rest with
              | String c' rest' =>
                  if is_char 93 c' then Some (JArr [], rest')
                  else read_elements fuel' rest []
              | EmptyString => None
              end
            else if is_char 123 c then
              match skip_ws rest with
              | String c' rest' =>
                  if is_char 125 c' then Some (JObj [], rest')
                  else read_members fuel' rest []
              | EmptyString => None
              end
            else if is_char 34 c then
              match read_string_body rest with
              | Some (str, r) => Some (JStr str, r)
              | None => None
              end
            else read_number s
        end
  end
with read_elements (fuel : nat) (s : string) (acc : list JSValue)
  : option (JSValue * string) :=
  match fuel with
  | 0 => None
  | S fuel' =>
      match read_value fuel' s with
      | Some (v, r) =>
          match skip_ws r with
          | String c r' =>
              if is_char 44 c then read_elements fuel' r' (acc ++ [v])
              else if is_char 93 c then Some (JArr (acc ++ [v]), r')
              else None
          | EmptyString => None
          end
      | None => None
      end
  end
with read_members (fuel : nat) (s : string) (acc : JSObject)
  : option (JSValue * string) :=
  match fuel with
  | 0 => None
  | S fuel' =>
      match skip_ws s with
      | String q r =>
          if is_char 34 q then
            match read_string_body r with
            | Some (k, r1) =>
                if all_digits k then None
                else
                  match skip_ws r1 with
                  | String c r2 =>
                      if is_char 58 c then
                        match read_value fuel' r2 with
                        | Some (v, r3) =>
                            match skip_ws r3 with
                            | String d r4 =>
                                if is_char 44 d
                                then read_members fuel' r4 (set_field acc k v)
                                else if is_char 125 d
                                then Some (JObj (set_field acc k v), r4)
                                else None
                            | EmptyString => None
                            end
                        | None => None
                        end
                      else None
                  | EmptyString => None
                  end
            | None => None
            end
          else None
      | EmptyString => None
      end
  end.

Definition JSON_parse_fragment (s : string) : option JSValue :=
  match read_value (2 * String.length s + 2) s with
  | Some (v, r) => if String.eqb (skip_ws r) "" then Some v else None
  | None => None
  end.

(** JSON text written with single quotes in place of double quotes. *)
Fixpoint json_text (s : string) : string :=
  match s with
  | EmptyString => EmptyString
  | String c rest =>
      String (if is_char 39 c then ascii_of_nat 34 else c) (json_text rest)
  end.

End JsonFragment.

Import JsonFragment.

(** ** Streaming accumulator *)

Module Accumulator.

(** Modelled from the spec: the correlation key of the streaming accumulator
    (the chat component calls [createTranslator] and [translateStreamChunk]
    of src/lib/translator, whose code is missing from the sources): a group
    id, or a tool name with an ordinal when the chunk has no group id. *)
Definition CorrelationKey : Type := (string + string * nat)%type.

(** Modelled from the spec: a partial protocol chunk as the accumulator sees
    it (the chunk type of the missing streaming translator): its correlation
    key and the step fields it carries, absent fields being [undefined]. *)
Record Chunk : Type := {
  chunk_key : CorrelationKey;
  chunk_step : ChainOfThoughtStep
}.

(** Modelled from the spec: the deltas handed to the renderer (the streaming
    output type of the missing translator), each naming its correlation key. *)
Inductive Delta : Type :=
| Opened (k : CorrelationKey) (s : ChainOfThoughtStep)
| Updated (k : CorrelationKey) (s : ChainOfThoughtStep)
| Finalized (k : CorrelationKey) (s : ChainOfThoughtStep).

(** Modelled from the spec: the session accumulator state (the state of the
    missing streaming translator): the in-progress step of each correlation
    key, the steps that reached a terminal state, and the emission sequence. *)
Record State : Type := {
  in_progress : gmap CorrelationKey ChainOfThoughtStep;
  closed : list (CorrelationKey * ChainOfThoughtStep);
  emitted : list Delta
}.

Definition initial : State :=
  {| in_progress := ∅; closed := []; emitted := [] |}.

Definition terminal (st : ChainOfThoughtStepStatus) : bool :=
  match st with
  | PROCESSING => false
  | SUCCESS | ERROR => true
  end.

Definition with_status (s : ChainOfThoughtStep) (st : ChainOfThoughtStepStatus)
  : ChainOfThoughtStep :=
  {| title := title s; tool_name := tool_name s; description := description s;
     request := request s; response := response s; status := st |}.

Definition newer (new old : JSValue) : JSValue :=
  if nullish new then old else new.

(** Modelled from the spec: the merge of a chunk into an in-progress step
    (section 4.4 of the spec; the code is missing from the sources): non-null
    fields of the chunk replace those of the step, the description is
    replaced by the latest non-empty value, response content overwrites. *)
Definition merge (old new : ChainOfThoughtStep) : ChainOfThoughtStep :=
  {| title := newer (title new) (title old);
     tool_name := newer (tool_name new) (tool_name old);
     description := js_or (description new) (description old);
     request := match request new with Some r => Some r | None => request old end;
     response := match response new with Some r => Some r | None => response old end;
     status := status old |}.

(** Modelled from the spec: one transition of the accumulator (section 4.4;
    the missing [translateStreamChunk]). A chunk for a key with no
    in-progress step opens a step in [PROCESSING]; a chunk for an
    in-progress step is merged into it; a terminal status closes the step.
    A key whose step was closed has no in-progress step any more, so a
    later chunk for it opens a new step and leaves the closed one alone. *)
Definition feed (st : State) (c : Chunk) : State :=
  let k := chunk_key c in
  let target := status (chunk_step c) in
  match in_progress st !! k with
  | None =>
      let s := with_status (chunk_step c) PROCESSING in
      if terminal target then
        let s' := with_status s target in
        {| in_progress := in_progress st;
           closed := closed st ++ [(k, s')];
           emitted := emitted st ++ [Opened k s; Finalized k s'] |}
      else
        {| in_progress := <[k := s]> (in_progress st);
           closed := closed st;
           emitted := emitted st ++ [Opened k s] |}
  | Some old =>
      let s := merge old (chunk_step c) in
      if terminal target then
        let s' := with_status s target in
        {| in_progress := delete k (in_progress st);
           closed := closed st ++ [(k, s')];
           emitted := emitted st ++ [Finalized k s'] |}
      else
        {| in_progress := <[k := s]> (in_progress st);
           closed := closed st;
           emitted := emitted st ++ [Updated k s] |}
  end.

(** Chunks are consumed in order. *)
Definition feed_all (st : State) (cs : list Chunk) : State :=
  fold_left feed cs st.

End Accumulator.

(** ** Well-typed inputs *)

(** A value of type [string | null | undefined]. *)
Definition opt_string (v : JSValue) : bool :=
  match v with
  | JUndefined | JNull | JStr _ => true
  | _ => false
  end.

(** [v] can be printed in a template literal: its conversion to a string
    does not throw. *)
Definition printable (v : JSValue) : bool :=
  match js_toString v with
  | Ok _ => true
  | Throw _ => false
  end.

(** The tool name that the embedded JSON gives:
    [parsed.tool_name || parsed.tool_data?.tool_name]. *)
Definition json_tool_name (parsed : JSValue) : JSValue :=
  js_or (js_get parsed "tool_name")
        (js_get (js_get parsed "tool_data") "tool_name").

(** [parsed.type === k || parsed.content_type === k] *)
Definition json_tagged (parsed : JSValue) (k : string) : bool :=
  (strict_eq_str (js_get parsed "type") k
   || strict_eq_str (js_get parsed "content_type") k)%bool.

(** A trajectory that inhabits the [TrajectoryData] interface. *)
Definition well_typed_trajectory (t : TrajectoryData) : bool :=
  (opt_string (trajectory_title t) && opt_string (trajectory_content t)
   && opt_string (trajectory_group_id t)
   && opt_string (trajectory_content_type t))%bool.

(** The trajectory has a title or a content: it passes the first test of
    [translateTrajectory]. *)
Definition nonempty_trajectory (t : TrajectoryData) : bool :=
  (truthy (trajectory_title t) || truthy (trajectory_content t))%bool.

(** [v] is a string with [sub] as a substring, letter case ignored. *)
Definition contains_ci (v : JSValue) (sub : string) : bool :=
  match v with
  | JStr s => includes (toLowerCase s) sub
  | _ => false
  end.

(** [v] is a string with [sub] as a substring, letter case respected. *)
Definition contains_cs (v : JSValue) (sub : string) : bool :=
  match v with
  | JStr s => includes s sub
  | _ => false
  end.

(** ** Payload fields of a message *)

Definition populated (m : CarbonMessage) : list string :=
  (if text m is Some _ then ["text"] else [])
  ++ (if reasoning_steps m is Some _ then ["reasoning_steps"] else [])
  ++ (if chain_of_thought m is Some _ then ["chain_of_thought"] else [])
  ++ (if user_defined m is Some _ then ["user_defined"] else []).

(** The payload field of each response kind; [CarbonMessage] has no field
    of its own for images, which travel in [user_defined]. *)
Definition payloadField (rt : string) : option string :=
  if String.eqb rt "text" then Some "text"
  else if String.eqb rt "reasoning_steps" then Some "reasoning_steps"
  else if String.eqb rt "chain_of_thought" then Some "chain_of_thought"
  else if String.eqb rt "image" then Some "user_defined"
  else if String.eqb rt "user_defined" then Some "user_defined"
  else None.

Definition one_payload (m : CarbonMessage) : Prop :=
  exists f, payloadField (response_type m) = Some f /\ populated m = [f].

(** A text message without its text: no payload field at all. *)
Definition textless (m : CarbonMessage) : Prop :=
  response_type m = "text" /\ populated m = [].

(** ** The batch order, as the specification words it *)

Definition option_list {A : Type} (o : option A) : list A :=
  match o with
  | Some a => [a]
  | None => []
  end.

(** The messages among the results of the parts: a dropped part leaves none. *)
Fixpoint somes {A : Type} (l : list (option A)) : list A :=
  match l with
  | [] => []
  | Some a :: rest => a :: somes rest
  | None :: rest => somes rest
  end.

Section BatchOrder.

Variable JSON_parse : string -> option JSValue.

(** The messages of one artifact: the message of its trajectory metadata,
    if any, then the messages of its parts, in part order. *)
Definition artifact_block (a : A2AArtifact) (block : list CarbonMessage) : Prop :=
  exists (tm : option CarbonMessage) (pms : list (option CarbonMessage)),
    translateArtifactTrajectory JSON_parse a = Ok tm /\
    Forall2 (fun p pm => translatePart JSON_parse p (Some a) = Ok pm) (parts a) pms /\
    block = option_list tm ++ somes pms.

(** The messages of a task: the blocks of its artifacts, in artifact order. *)
Definition task_messages (task : A2ATask) (msgs : list CarbonMessage) : Prop :=
  exists blocks : list (list CarbonMessage),
    Forall2 artifact_block (artifacts task) blocks /\ msgs = concat blocks.

End BatchOrder.

(** The error signals of a tool result: the parsed status is [error], the
    content holds [error] or the title holds [failed], letter case ignored. *)
Definition error_signal (t : TrajectoryData) (parsed : ParsedContent) : bool :=
  (strict_eq_str (pc_status parsed) "error"
   || contains_ci (trajectory_content t) "error"
   || contains_ci (trajectory_title t) "failed")%bool.

(** The same signals with the title searched for [failed] as it is written. *)
Definition error_signal_exact_title (t : TrajectoryData) (parsed : ParsedContent)
  : bool :=
  (strict_eq_str (pc_status parsed) "error"
   || contains_ci (trajectory_content t) "error"
   || contains_cs (trajectory_title t) "failed")%bool.

(** No white space in [s]: [s] is matched whole by [\S*]. *)
Fixpoint no_space (s : string) : bool :=
  match s with
  | EmptyString => true
  | String c rest => (negb (is_space c) && no_space rest)%bool
  end.

(** The part is one whose translation is a text message: a plain text part
    or a part tagged [response]. *)
Definition text_expected (p : A2APart) : bool :=
  (String.eqb (part_kind p) "text"
   || strict_eq_str (part_content_type p) CONTENT_TYPES.RESPONSE)%bool.

(** Such a part carries its text. *)
Definition text_complete (p : A2APart) : Prop :=
  text_expected p = true -> part_text p <> None.

(** What a part may yield: a message with its one payload field, or, for
    a part that has no text, a text message with none. *)
Definition part_payload (p : A2APart) (m : CarbonMessage) : Prop :=
  (one_payload m \/ (part_text p = None /\ textless m)) /\
  (text_complete p -> one_payload m).

(** The recognized kinds of the part translators. *)
Definition metadata_kind_recognized (v : JSValue) : bool :=
  (strict_eq_str v CONTENT_TYPES.THINKING || strict_eq_str v CONTENT_TYPES.RESPONSE
   || strict_eq_str v CONTENT_TYPES.STATUS)%bool.

Definition data_kind_recognized (v : JSValue) : bool :=
  (strict_eq_str v "tool_call" || strict_eq_str v "tool_result")%bool.

Definition part_kind_recognized (k : string) : bool :=
  (String.eqb k "text" || String.eqb k "file" || String.eqb k "data")%bool.

Definition trajectory_kind_recognized (v : JSValue) : bool :=
  (strict_eq_str v CONTENT_TYPES.TOOL_CALL || strict_eq_str v CONTENT_TYPES.TOOL_RESULT
   || strict_eq_str v CONTENT_TYPES.THINKING || strict_eq_str v CONTENT_TYPES.STATUS)%bool.

(** A trajectory tagged with a kind the translator does not know. *)
Definition video_trajectory : TrajectoryData :=
  JObj [ ("content_type", JStr "video"); ("content", JStr "hello") ].

(** A data part whose payload is the array holding [null] alone. *)
Definition null_row_part : A2APart :=
  {| part_kind := "data"; part_text := None; part_file := None;
     part_data := JArr [JNull]; part_metadata := None |}.

(** The payload [[{a:1,b:2},{a:3,c:4}]]. *)
Definition two_rows : JSValue :=
  JArr [ JObj [("a", JNum 1); ("b", JNum 2)];
         JObj [("a", JNum 3); ("c", JNum 4)] ].

(** One trajectory record, and the same record inside an array. *)
Definition thinking_record : JSValue :=
  JObj [("title", JStr "Thinking"); ("content", JStr "step one")].

Definition bare_metadata : JSObject :=
  [(AGENTSTACK_EXTENSION_URIS.TRAJECTORY, thinking_record)].

Definition array_metadata : JSObject :=
  [(AGENTSTACK_EXTENSION_URIS.TRAJECTORY, JArr [thinking_record])].

(** ** Sample inputs *)

(** A trajectory tagged [tool_result] whose fenced JSON says [tool_call]. *)
Definition tagged_result_trajectory : TrajectoryData :=
  JObj [ ("content_type", JStr "tool_result");
         ("content",
          JStr (json_text
            "Ran it ```json {'type':'tool_call','tool_name':'fetch'} ``` done")) ].

Definition calling_trajectory : TrajectoryData :=
  JObj [ ("title", JStr "Calling search_web") ].

(** A tool result whose title says [FAILED] in capitals. *)
Definition failed_capitals_trajectory : TrajectoryData :=
  JObj [ ("title", JStr "Lookup FAILED"); ("content_type", JStr "tool_result") ].

Definition hello_part : A2APart :=
  {| part_kind := "text"; part_text := Some "Hello"; part_file := None;
     part_data := JUndefined; part_metadata := None |}.

(** A text part that carries no text. *)
Definition textless_part : A2APart :=
  {| part_kind := "text"; part_text := None; part_file := None;
     part_data := JUndefined; part_metadata := None |}.

Definition photo_file : A2AFile :=
  {| name := Some "chart.png"; mimeType := "image/png";
     bytes := Some "iVBORw0KGgo="; uri := None |}.

Definition photo_part : A2APart :=
  {| part_kind := "file"; part_text := None; part_file := Some photo_file;
     part_data := JUndefined; part_metadata := None |}.

Definition artifact_of (id : string) (ps : list A2APart) (md : option JSObject)
  : A2AArtifact :=
  {| artifactId := id; art_name := None; art_description := None;
     parts := ps; art_metadata := md |}.

Definition task_of (arts : list A2AArtifact) : A2ATask :=
  {| task_id := "task"; task_state := "completed"; artifacts := arts;
     history := [] |}.

(** Two artifacts: trajectory metadata and a text part, then an image. *)
Definition two_artifact_task : A2ATask :=
  task_of [ artifact_of "first" [hello_part] (Some bare_metadata);
            artifact_of "second" [photo_part] None ].

Definition textless_task : A2ATask :=
  task_of [ artifact_of "only" [textless_part] None ].

Definition thinking_message : CarbonMessage :=
  reasoningMessage
    (JStr ("**Thinking**" +:+ newline +:+ newline +:+ "step one")) CLOSED.

Definition photo_message : CarbonMessage :=
  userDefinedMessage "image"
    [ ("type", JStr "image"); ("url", fileUrl photo_file);
      ("alt", JStr "chart.png"); ("caption", JUndefined) ].

Definition citation_record : JSValue := JObj [ ("title", JStr "Doc") ].

Definition sample_key : Accumulator.CorrelationKey := inl "group-1".

Definition processing_step : ChainOfThoughtStep :=
  {| title := JStr "Calling search_web"; tool_name := JStr "search_web";
     description := JUndefined; request := None; response := None;
     status := PROCESSING |}.

Definition success_step : ChainOfThoughtStep :=
  {| title := JUndefined; tool_name := JStr "search_web";
     description := JStr "3 hits"; request := None;
     response := Some (JNum 3); status := SUCCESS |}.

Definition citation_metadata : JSObject :=
  [(AGENTSTACK_EXTENSION_URIS.CITATION, JArr [citation_record])].

(** ** Further vocabulary for the translator *)

(** A part that [translatePart] sends to its [text] case: of kind [text],
    with no trajectory and no [content_type] in its metadata. *)
Definition plain_text_part (p : A2APart) : bool :=
  (String.eqb (part_kind p) "text"
   && negb (truthy (part_content_type p))
   && match extractTrajectoryFromMetadata (part_metadata p) with
      | Some _ => false
      | None => true
      end)%bool.

(** An artifact of plain text parts with no trajectory in its metadata. *)
Definition plain_text_artifact (a : A2AArtifact) : bool :=
  (forallb plain_text_part (parts a)
   && match extractTrajectoryFromMetadata (art_metadata a) with
      | Some _ => false
      | None => true
      end)%bool.

(** The text messages of an artifact, each with the artifact's metadata. *)
Definition text_messages (a : A2AArtifact) : list CarbonMessage :=
  map (fun p => textMessage (part_text p) (art_metadata a)) (parts a).

(** The number of parts of a list of artifacts. *)
Definition part_count (arts : list A2AArtifact) : nat :=
  list_sum (map (fun a => length (parts a)) arts).

(** The message, if any, has no metadata yet. *)
Definition metadata_free (o : option CarbonMessage) : Prop :=
  forall m, o = Some m -> metadata m = None.

(** ** Contents made of white space and code blocks *)

Definition is_backquote (c : ascii) : bool := Nat.eqb (nat_of_ascii c) 96.

Fixpoint no_backquote (s : string) : bool :=
  match s with
  | EmptyString => true
  | String c rest => (negb (is_backquote c) && no_backquote rest)%bool
  end.

(** Nothing but white space. *)
Fixpoint blank (s : string) : bool :=
  match s with
  | EmptyString => true
  | String c rest => (is_space c && blank rest)%bool
  end.

(** The text made of the given blocks, each a stretch of text followed by a
    fenced body, and of a tail. *)
Definition fenced_blocks (blocks : list (string * string)) (tail : string) :
    string :=
  fold_right (fun b rest => fst b +:+ fence +:+ snd b +:+ fence +:+ rest)
             tail blocks.

(** A trajectory whose title is the number 5. *)
Definition numbered_trajectory : TrajectoryData :=
  JObj [ ("title", JNum 5); ("content", JStr "five") ].

Definition numbered_metadata : JSObject :=
  [(AGENTSTACK_EXTENSION_URIS.TRAJECTORY, numbered_trajectory)].

(** A tool call whose name is an object with a [toString] property of its
    own, in a trajectory without a title. *)
Definition unprintable_name_content : string :=
  "```json" +:+
  json_text " {'type':'tool_call','tool_name':{'toString':1}} " +:+ "```".

Definition unprintable_name_trajectory : TrajectoryData :=
  JObj [ ("content", JStr unprintable_name_content) ].

(** A tool result in the legacy shape, with its data under [tool_data]. *)
Definition legacy_result_json : string :=
  json_text "{'type':'tool_result','tool_data':{'tool_name':'fetch','status':'error'}}".

(** ** The stream reader of the chat component and of the agent hook

    [A2AChat.handleSendMessage] and [useA2AAgent.sendMessage] read the
    response body chunk by chunk, cut the text into lines and keep the
    [data.result] of each data line. What they do with a result (the
    streaming translator, the React state) is outside this model. *)

Module Sse.

Definition is_newline (c : ascii) : bool := Nat.eqb (nat_of_ascii c) 10.

(** [s.split('\n')]: never empty. *)
Fixpoint split_lines (s : string) : list string :=
  match s with
  | EmptyString => [EmptyString]
  | String c rest =>
      if is_newline c then EmptyString :: split_lines rest
      else
        match split_lines rest with
        | line :: lines => String c line :: lines
        | [] => [String c EmptyString]
        end
  end.

(** The payload text of a data line: [None] is a line that is skipped. *)
Definition dataOf (line : string) : option string :=
  let trimmedLine := trim line in
  if startsWith trimmedLine "data: " then
    let dataStr := drop 6 trimmedLine in
    if (String.eqb dataStr "" || String.eqb dataStr "[DONE]")%bool then None
    else Some dataStr
  else None.

Section Reader.

Variable JSON_parse : string -> option JSValue.

(** The body of the [try] block, up to the test [if (data.result)]. *)
Definition resultOf (dataStr : string) : Result (option JSValue) :=
  let* data := json_parse JSON_parse dataStr in
  let* result := js_prop data "result" in
  Ok (if truthy result then Some result else None).

(** The result a line hands on, if any; a thrown error is caught. *)
Definition lineResult (line : string) : option JSValue :=
  match dataOf line with
  | Some dataStr => try_catch (resultOf dataStr) None
  | None => None
  end.

Record ReaderState : Type := {
  buffer : string;
  results : list JSValue
}.

Definition start : ReaderState := {| buffer := ""; results := [] |}.

(** One turn of the [while] loop, for a chunk that was read. *)
Definition readChunk (st : ReaderState) (chunk : string) : ReaderState :=
  let text := buffer st +:+ chunk in
  let lines := split_lines text in
  {| buffer := List.last lines "";
     results := results st ++ somes (map lineResult (List.removelast lines)) |}.

(** The loop until [done]. *)
Definition readAll (chunks : list string) : ReaderState :=
  fold_left readChunk chunks start.

(** [useA2AAgent.sendMessage]: the value returned is the last result seen,
    or [null]. *)
Definition hookResult (chunks : list string) : option JSValue :=
  List.last (map Some (results (readAll chunks))) None.

End Reader.

End Sse.

(** The whole text of a body received in chunks. *)
Definition text_of (chunks : list string) : string :=
  fold_right String.append "" chunks.

Fixpoint no_newline (s : string) : bool :=
  match s with
  | EmptyString => true
  | String c rest => (negb (Sse.is_newline c) && no_newline rest)%bool
  end.

(** What the loop has done once the whole of [text] was received. *)
Definition read_text (JSON_parse : string -> option JSValue) (text : string) :
    Sse.ReaderState :=
  {| Sse.buffer := List.last (Sse.split_lines text) "";
     Sse.results :=
       somes (map (Sse.lineResult JSON_parse)
                  (List.removelast (Sse.split_lines text))) |}.

(** ** The sources list of the chat component

    [A2AChat.renderUserDefinedResponse] shows each cited address once. *)

(** [Citation] of [lib/a2a]: every field is optional. *)
Record Citation : Type := {
  cit_title : option string;
  cit_url : option string;
  cit_snippet : option string;
  cit_source : option string;
  cit_relevance : option Z
}.

(** [arr.findIndex(f)]: [None] stands for [-1]. *)
Fixpoint findIndex {A : Type} (f : A -> bool) (arr : list A) : option nat :=
  match arr with
  | [] => None
  | x :: rest => if f x then Some 0 else option_map S (findIndex f rest)
  end.

(** [arr.filter((c, i) => f(c, i))], for the elements from index [i] on. *)
Fixpoint filter_from {A : Type} (f : A -> nat -> bool) (i : nat) (l : list A) :
    list A :=
  match l with
  | [] => []
  | c :: rest =>
      if f c i then c :: filter_from f (S i) rest else filter_from f (S i) rest
  end.

Definition truthy_string (s : option string) : bool :=
  match s with
  | Some (String _ _) => true
  | _ => false
  end.

(** [(c, i, arr) => c.url && arr.findIndex((x) => x.url === c.url) === i] *)
Definition first_with_url (arr : list Citation) (c : Citation) (i : nat) : bool :=
  (truthy_string (cit_url c) &&
   bool_decide
     (findIndex (fun x => bool_decide (cit_url x = cit_url c)) arr = Some i))%bool.

Definition uniqueCitations (citations : list Citation) : list Citation :=
  filter_from (first_with_url citations) 0 citations.

(** ** Agent configurations, the provider and the resolution of the agent *)

(** [AgentConfig] of [types/agent.ts]. *)
Record AgentConfig : Type := {
  agent_id : string;
  agent_name : string;
  agent_url : string;
  agent_apiKey : option string;
  agent_description : option string;
  agent_iconUrl : option string;
  agent_extensions : option JSValue;
  agent_metadata : option (list (string * JSValue))
}.

(** [AgentRegistry]: the record of agents is kept as the list of its
    entries, in the order in which [Object.values] goes through them. *)
Record AgentRegistry : Type := {
  reg_agents : list (string * AgentConfig);
  reg_defaultAgentId : option string
}.

Module AgentProvider.

(** [AgentProviderProps] without the children; [persistSelection] and
    [storageKey] hold the value after the defaults were applied. *)
Record Props : Type := {
  agent : option AgentConfig;
  agentsProp : option (list AgentConfig);
  registry : option AgentRegistry;
  defaultAgentId : option string;
  persistSelection : bool;
  storageKey : string
}.

Definition default_storageKey : string := "a2a-chat-selected-agent".

(** What the provider sees of the browser: whether [window] is defined, and
    the content of [localStorage]. *)
Record Browser : Type := {
  has_window : bool;
  localStorage : gmap string string
}.

Definition agents (props : Props) : list AgentConfig :=
  match registry props with
  | Some r => map snd (reg_agents r)
  | None =>
      match agentsProp props with
      | Some l => l
      | None =>
          match agent props with
          | Some a => [a]
          | None => []
          end
      end
  end.

(** [agents.some((a) => a.id === agentId)] *)
Definition hasAgent (props : Props) (agentId : string) : bool :=
  existsb (fun a => String.eqb (agent_id a) agentId) (agents props).

(** [agents.find((a) => a.id === agentId)] *)
Definition getAgent (props : Props) (agentId : string) : option AgentConfig :=
  List.find (fun a => String.eqb (agent_id a) agentId) (agents props).

(** [id && agents.some((a) => a.id === id)], for an optional string. *)
Definition known (props : Props) (id : option string) : bool :=
  match id with
  | Some (String _ _ as s) => hasAgent props s
  | _ => false
  end.

Definition getInitialAgentId (props : Props) (env : Browser) : option string :=
  let saved :=
    if (persistSelection props && has_window env)%bool
    then localStorage env !! storageKey props else None in
  if known props saved then saved
  else if known props (defaultAgentId props) then defaultAgentId props
  else if known props (registry props ≫= reg_defaultAgentId)
       then registry props ≫= reg_defaultAgentId
  else option_map agent_id (head (agents props)).

(** The effect that stores the selection. *)
Definition persist (props : Props) (currentAgentId : option string)
    (env : Browser) : Browser :=
  match currentAgentId with
  | Some (String _ _ as id) =>
      if (persistSelection props && has_window env)%bool
      then {| has_window := has_window env;
              localStorage := <[storageKey props := id]> (localStorage env) |}
      else env
  | _ => env
  end.

(** [agents.find((a) => a.id === currentAgentId) ?? null] *)
Definition currentAgent (props : Props) (currentAgentId : option string) :
    option AgentConfig :=
  match currentAgentId with
  | Some id => getAgent props id
  | None => None
  end.

(** The state setter called by [selectAgent]; the warning is not modelled. *)
Definition selectAgent (props : Props) (agentId : string)
    (currentAgentId : option string) : option string :=
  if hasAgent props agentId then Some agentId else currentAgentId.

(** The provider with its browser: the state [currentAgentId] and the
    storage. The effect runs after the first rendering and whenever
    [currentAgentId] has changed. *)
Record State : Type := {
  currentAgentId : option string;
  browser : Browser
}.

Definition mount (props : Props) (env : Browser) : State :=
  let id := getInitialAgentId props env in
  {| currentAgentId := id; browser := persist props id env |}.

Definition select (props : Props) (st : State) (agentId : string) : State :=
  let id := selectAgent props agentId (currentAgentId st) in
  {| currentAgentId := id;
     browser := if decide (id = currentAgentId st) then browser st
                else persist props id (browser st) |}.

End AgentProvider.

(** [AgentContextValue]: the data of the context; [getAgent] is the search
    in [agents] that the provider installs. *)
Record AgentContextValue : Type := {
  ctx_currentAgent : option AgentConfig;
  ctx_agents : list AgentConfig
}.

Definition ctx_getAgent (ctx : AgentContextValue) (agentId : string) :
    option AgentConfig :=
  List.find (fun a => String.eqb (agent_id a) agentId) (ctx_agents ctx).

(** The properties of [A2AChat] that decide which agent it talks to. *)
Record ChatAgentProps : Type := {
  chat_agent : option AgentConfig;
  chat_agentId : option string;
  chat_agentUrl : option string;
  chat_apiKey : option string;
  chat_agentName : option string;
  chat_agentIconUrl : option string
}.

(** The [useMemo] of [A2AChat] that resolves the agent. *)
Definition resolveChatAgent (p : ChatAgentProps)
    (agentContext : option AgentContextValue) : option AgentConfig :=
  match chat_agent p with
  | Some agentProp => Some agentProp
  | None =>
      match truthy_string (chat_agentId p), agentContext with
      | true, Some ctx => ctx_getAgent ctx (default "" (chat_agentId p))
      | _, _ =>
          match (if truthy_string (chat_agentId p) then None
                 else agentContext ≫= ctx_currentAgent) with
          | Some current => Some current
          | None =>
              if truthy_string (chat_agentUrl p)
              then Some {| agent_id := "default";
                           agent_name :=
                             default "AI Assistant" (chat_agentName p);
                           agent_url := default "" (chat_agentUrl p);
                           agent_apiKey := chat_apiKey p;
                           agent_description := None;
                           agent_iconUrl := chat_agentIconUrl p;
                           agent_extensions := None;
                           agent_metadata := None |}
              else None
          end
      end
  end.

(** The agent of [useA2AAgent]:
    [agentProp ?? (agentId ? ctx?.getAgent(agentId) : ctx?.currentAgent) ?? null] *)
Definition resolveHookAgent (agentProp : option AgentConfig)
    (agentId : option string) (agentContext : option AgentContextValue) :
    option AgentConfig :=
  match agentProp with
  | Some a => Some a
  | None =>
      if truthy_string agentId
      then agentContext ≫= (fun ctx => ctx_getAgent ctx (default "" agentId))
      else agentContext ≫= ctx_currentAgent
  end.

(** The provider after it was mounted and [selectAgent] was called with
    each of [ids] in turn. *)
Definition provider_after (props : AgentProvider.Props)
    (env : AgentProvider.Browser) (ids : list string) : AgentProvider.State :=
  fold_left (AgentProvider.select props) ids (AgentProvider.mount props env).

(** The selection of a provider that was mounted with [props0] and whose
    [selectAgent] was then called, each call with the props of the
    rendering it was made in: the state [currentAgentId] is set once, at
    the mounting, and by [selectAgent] afterwards. *)
Definition selection_after (props0 : AgentProvider.Props)
    (env : AgentProvider.Browser)
    (calls : list (AgentProvider.Props * string)) : option string :=
  fold_left (fun id call => AgentProvider.selectAgent (fst call) (snd call) id)
            calls (AgentProvider.getInitialAgentId props0 env).

(** The value that a provider rendered with [props] hands to its context
    when its state is [currentAgentId]. *)
Definition contextAt (props : AgentProvider.Props)
    (currentAgentId : option string) : AgentContextValue :=
  {| ctx_currentAgent := AgentProvider.currentAgent props currentAgentId;
     ctx_agents := AgentProvider.agents props |}.

(** What holds of the provider at every moment. *)
Definition provider_ok (props : AgentProvider.Props)
    (env : AgentProvider.Browser) (st : AgentProvider.State) : Prop :=
  let id_now := AgentProvider.currentAgentId st in
  let env_now := AgentProvider.browser st in
  (forall id, id_now = Some id -> AgentProvider.hasAgent props id = true) /\
  (id_now = None <-> AgentProvider.agents props = []) /\
  AgentProvider.has_window env_now = AgentProvider.has_window env /\
  (AgentProvider.persistSelection props = false -> env_now = env) /\
  (AgentProvider.persistSelection props = true ->
   AgentProvider.has_window env = true ->
   forall id, id_now = Some id -> id <> "" ->
     AgentProvider.localStorage env_now !! AgentProvider.storageKey props
     = Some id).

Definition sample_citations : list Citation :=
  [ {| cit_title := Some "A"; cit_url := Some "https://a.example";
       cit_snippet := None; cit_source := None; cit_relevance := None |};
    {| cit_title := Some "no address"; cit_url := None;
       cit_snippet := None; cit_source := None; cit_relevance := None |};
    {| cit_title := Some "A again"; cit_url := Some "https://a.example";
       cit_snippet := None; cit_source := None; cit_relevance := Some 1%Z |} ].

Definition research_agent : AgentConfig :=
  {| agent_id := "research"; agent_name := "Research";
     agent_url := "https://research.example"; agent_apiKey := None;
     agent_description := None; agent_iconUrl := None;
     agent_extensions := None; agent_metadata := None |}.

Definition code_agent : AgentConfig :=
  {| agent_id := "code"; agent_name := "Coder";
     agent_url := "https://code.example"; agent_apiKey := None;
     agent_description := None; agent_iconUrl := None;
     agent_extensions := None; agent_metadata := None |}.

Definition sample_provider : AgentProvider.Props :=
  {| AgentProvider.agent := None;
     AgentProvider.agentsProp := Some [research_agent; code_agent];
     AgentProvider.registry := None;
     AgentProvider.defaultAgentId := Some "nobody";
     AgentProvider.persistSelection := true;
     AgentProvider.storageKey := AgentProvider.default_storageKey |}.

(** The same provider before its agents have arrived. *)
Definition empty_provider : AgentProvider.Props :=
  {| AgentProvider.agent := None;
     AgentProvider.agentsProp := Some [];
     AgentProvider.registry := None;
     AgentProvider.defaultAgentId := Some "nobody";
     AgentProvider.persistSelection := true;
     AgentProvider.storageKey := AgentProvider.default_storageKey |}.

Definition sample_browser : AgentProvider.Browser :=
  {| AgentProvider.has_window := true; AgentProvider.localStorage := ∅ |}.

Definition url_only_chat : ChatAgentProps :=
  {| chat_agent := None; chat_agentId := None;
     chat_agentUrl := Some "https://other.example"; chat_apiKey := None;
     chat_agentName := None; chat_agentIconUrl := None |}.

(** ** Plain objects used as records

    [FormRenderer] keeps its values and its errors in plain objects, written
    by [o[name] = v] and read by [o[name]] under names that come from the
    form. Such an object has the properties of its own and those of its
    prototype, which is [Object.prototype] until an assignment to
    [__proto__] replaces it. *)

Module PlainObject.

(** The property names of [Object.prototype], in a host that has the legacy
    accessors (browsers and Node.js have). *)
Definition Object_prototype_names : list string :=
  [ "constructor"; "hasOwnProperty"; "isPrototypeOf"; "propertyIsEnumerable";
    "toLocaleString"; "toString"; "valueOf"; "__proto__";
    "__defineGetter__"; "__defineSetter__"; "__lookupGetter__";
    "__lookupSetter__" ].

Definition in_Object_prototype (name : string) : bool :=
  existsb (String.eqb name) Object_prototype_names.

(** The prototype of a plain object: [Object.prototype], [null], or a value
    that JSON can hold, whose own prototype is [Object.prototype] or
    [Array.prototype]. *)
Inductive Proto : Type :=
| Object_prototype
| Null_prototype
| Object_value (fields : JSObject)
| Array_value (items : list JSValue).

Record t : Type := {
  own : gmap string JSValue;
  proto : Proto
}.

(** [{}] *)
Definition empty : t := {| own := ∅; proto := Object_prototype |}.

(** What a read gives: a value that JSON can hold, or a value of the host
    (a method of a prototype, or [Object.prototype] itself). *)
Inductive Read : Type :=
| Data (v : JSValue)
| Host.

(** The properties of an array of its own: its elements and [length]. *)
Fixpoint element_named (items : list JSValue) (i : nat) (name : string) :
    option JSValue :=
  match items with
  | [] => None
  | x :: rest =>
      if String.eqb (string_of_nat i) name then Some x
      else element_named rest (S i) name
  end.

Definition array_own (items : list JSValue) (name : string) : option JSValue :=
  if String.eqb name "length" then Some (JNum (Z.of_nat (length items)))
  else element_named items 0 name.

Section Get.

(** Whether [Array.prototype] has a property of a name: this depends on the
    edition of the language that the host implements. *)
Variable Array_prototype_has : string -> bool.

(** [o[name]]: the property of its own, otherwise the one found along the
    prototype chain; the getter of [__proto__] gives the prototype of [o]. *)
Definition get (o : t) (name : string) : Read :=
  match own o !! name with
  | Some v => Data v
  | None =>
      match proto o with
      | Null_prototype => Data JUndefined
      | Object_prototype =>
          if in_Object_prototype name then Host else Data JUndefined
      | Object_value fields =>
          match assoc name fields with
          | Some v => Data v
          | None =>
              if String.eqb name "__proto__" then Data (JObj fields)
              else if in_Object_prototype name then Host
              else Data JUndefined
          end
      | Array_value items =>
          match array_own items name with
          | Some v => Data v
          | None =>
              if String.eqb name "__proto__" then Data (JArr items)
              else if (Array_prototype_has name || in_Object_prototype name)%bool
                   then Host
              else Data JUndefined
          end
      end
  end.

End Get.

(** The setter of [__proto__]: an object or [null] becomes the prototype,
    any other value is ignored. *)
Definition set_prototype (o : t) (v : JSValue) : t :=
  match v with
  | JObj fields => {| own := own o; proto := Object_value fields |}
  | JArr items => {| own := own o; proto := Array_value items |}
  | JNull => {| own := own o; proto := Null_prototype |}
  | _ => o
  end.

Definition set_own (o : t) (name : string) (v : JSValue) : t :=
  {| own := <[name := v]> (own o); proto := proto o |}.

(** [o[name] = v]. The property becomes a property of [o] of its own,
    unless the name is found along the prototype chain as an accessor: the
    only one is [__proto__] of [Object.prototype], which is reached when
    neither [o] nor a prototype before it has a property [__proto__] of
    its own. *)
Definition assign (o : t) (name : string) (v : JSValue) : t :=
  if negb (String.eqb name "__proto__") then set_own o name v
  else
    match own o !! name with
    | Some _ => set_own o name v
    | None =>
        match proto o with
        | Null_prototype => set_own o name v
        | Object_value fields =>
            match assoc name fields with
            | Some _ => set_own o name v
            | None => set_prototype o v
            end
        | Object_prototype | Array_value _ => set_prototype o v
        end
    end.

(** [{ ...o, [name]: v }]: a new object with the properties of [o] of its
    own and the property [name], all of its own, and with
    [Object.prototype] as prototype. *)
Definition spread_with (o : t) (name : string) (v : JSValue) : t :=
  {| own := <[name := v]> (own o); proto := Object_prototype |}.

End PlainObject.

(** ** The form renderer

    The state and the checks of [FormRenderer]; the rendering of the fields
    is not modelled. Numbers are the integers, as everywhere in this
    development. *)

Module FormRenderer.

Record FormFieldValidation : Type := {
  v_min : option Z;
  v_max : option Z;
  v_minLength : option Z;
  v_maxLength : option Z;
  v_pattern : option string;
  v_patternMessage : option string
}.

(** [FormField], with the fields that the state and the checks read
    ([placeholder], [options], [helpText] and [disabled] only reach the
    rendering). An absent [defaultValue] is [undefined]. *)
Record FormField : Type := {
  field_name : string;
  field_label : string;
  field_type : string;
  field_required : option bool;
  field_defaultValue : JSValue;
  field_validation : option FormFieldValidation
}.

(** [field.defaultValue ?? (field.type === 'checkbox' ? false : '')] *)
Definition initialValue (field : FormField) : JSValue :=
  if nullish (field_defaultValue field)
  then (if String.eqb (field_type field) "checkbox" then JBool false
        else JStr "")
  else field_defaultValue field.

(** The initial state [values]: [initial[field.name] = ...] for each field. *)
Definition initialValues (fields : list FormField) : PlainObject.t :=
  fold_left (fun initial field =>
               PlainObject.assign initial (field_name field) (initialValue field))
            fields PlainObject.empty.

(** [handleChange(name, value)], on the state [values]. *)
Definition handleChange (name : string) (value : JSValue)
    (values : PlainObject.t) : PlainObject.t :=
  PlainObject.spread_with values name value.

(** [newErrors[name] = message], for an object of messages: the setter of
    [__proto__] ignores a string, every other name becomes a property. *)
Definition set_error (newErrors : gmap string string) (name message : string) :
    gmap string string :=
  if String.eqb name "__proto__" then newErrors
  else <[name := message]> newErrors.

(** What [handleSubmit] does: it shows errors, or it calls [onSubmit]. *)
Inductive Submission : Type :=
| ShowErrors (errors : gmap string string)
| Submitted (values : PlainObject.t).

Section Checks.

(** [new RegExp(pattern).test(value)]; [None] is a pattern that
    [new RegExp] rejects. *)
Variable RegExp_test : string -> string -> option bool.

(** The names that [Array.prototype] defines in the host. *)
Variable Array_prototype_has : string -> bool.

Definition regexp_test (pattern value : string) : Result bool :=
  match RegExp_test pattern value with
  | Some b => Ok b
  | None => Throw (SyntaxError "Invalid regular expression")
  end.

Definition validateField (field : FormField) (value : JSValue) :
    Result (option string) :=
  let label := field_label field in
  if (default false (field_required field) &&
      (strict_eq_str value "" || nullish value))%bool
  then Ok (Some (label +:+ " is required"))
  else
    match field_validation field with
    | None => Ok None
    | Some v =>
        match value with
        | JNum n =>
            let check_max :=
              match v_max v with
              | Some max =>
                  if (max <? n)%Z
                  then Some (label +:+ " must be at most "
                             +:+ Number_toString max)
                  else None
              | None => None
              end in
            match v_min v with
            | Some min =>
                if (n <? min)%Z
                then Ok (Some (label +:+ " must be at least "
                               +:+ Number_toString min))
                else Ok check_max
            | None => Ok check_max
            end
        | JStr s =>
            let length := Z.of_nat (String.length s) in
            let check_pattern :=
              match v_pattern v with
              | Some (String _ _ as pattern) =>
                  let* ok := regexp_test pattern s in
                  if ok then Ok None
                  else Ok (Some match v_patternMessage v with
                                | Some (String _ _ as message) => message
                                | _ => label +:+ " has an invalid format"
                                end)
              | _ => Ok None
              end in
            let check_maxLength :=
              match v_maxLength v with
              | Some maxLength =>
                  if (maxLength <? length)%Z
                  then Ok (Some (label +:+ " must be at most "
                                 +:+ Number_toString maxLength
                                 +:+ " characters"))
                  else check_pattern
              | None => check_pattern
              end in
            match v_minLength v with
            | Some minLength =>
                if (length <? minLength)%Z
                then Ok (Some (label +:+ " must be at least "
                               +:+ Number_toString minLength
                               +:+ " characters"))
                else check_maxLength
            | None => check_maxLength
            end
        | _ => Ok None
        end
    end.

(** [validateField] on what a read of [values] gives. A value of the host
    is an object or a function: it is not the empty string, [null] or
    [undefined], and neither a number nor a string, so that no check
    applies to it. *)
Definition validateRead (field : FormField) (value : PlainObject.Read) :
    Result (option string) :=
  match value with
  | PlainObject.Data v => validateField field v
  | PlainObject.Host => Ok None
  end.

(** [values[field.name]] *)
Definition valueOf (values : PlainObject.t) (name : string) : PlainObject.Read :=
  PlainObject.get Array_prototype_has values name.

(** The body of [fields.forEach] in [handleSubmit]. *)
Definition collectError (values : PlainObject.t)
    (newErrors : gmap string string) (field : FormField) :
    Result (gmap string string) :=
  let* error := validateRead field (valueOf values (field_name field)) in
  Ok match error with
     | Some (String _ _ as message) =>
         set_error newErrors (field_name field) message
     | _ => newErrors
     end.

Fixpoint collectErrors (values : PlainObject.t) (fields : list FormField)
    (newErrors : gmap string string) : Result (gmap string string) :=
  match fields with
  | [] => Ok newErrors
  | field :: rest =>
      let* newErrors' := collectError values newErrors field in
      collectErrors values rest newErrors'
  end.

Definition handleSubmit (fields : list FormField)
    (values : PlainObject.t) : Result Submission :=
  let* newErrors := collectErrors values fields ∅ in
  if Nat.ltb 0 (size newErrors) then Ok (ShowErrors newErrors)
  else Ok (Submitted values).

End Checks.

End FormRenderer.

(** The validation of a field without its bounds on numbers. *)
Definition without_bounds (v : FormRenderer.FormFieldValidation) :
    FormRenderer.FormFieldValidation :=
  {| FormRenderer.v_min := None; FormRenderer.v_max := None;
     FormRenderer.v_minLength := FormRenderer.v_minLength v;
     FormRenderer.v_maxLength := FormRenderer.v_maxLength v;
     FormRenderer.v_pattern := FormRenderer.v_pattern v;
     FormRenderer.v_patternMessage := FormRenderer.v_patternMessage v |}.

Definition with_validation (field : FormRenderer.FormField)
    (v : option FormRenderer.FormFieldValidation) : FormRenderer.FormField :=
  {| FormRenderer.field_name := FormRenderer.field_name field;
     FormRenderer.field_label := FormRenderer.field_label field;
     FormRenderer.field_type := FormRenderer.field_type field;
     FormRenderer.field_required := FormRenderer.field_required field;
     FormRenderer.field_defaultValue := FormRenderer.field_defaultValue field;
     FormRenderer.field_validation := v |}.

(** A regular-expression engine for the examples: it knows the pattern
    [^a+$] and rejects every other pattern. *)
Fixpoint all_a (s : string) : bool :=
  match s with
  | EmptyString => true
  | String c rest => (Ascii.eqb c "a" && all_a rest)%bool
  end.

Definition sample_RegExp_test (pattern value : string) : option bool :=
  if String.eqb pattern "^a+$"
  then Some (negb (String.eqb value "") && all_a value)%bool
  else None.

Definition age_field : FormRenderer.FormField :=
  {| FormRenderer.field_name := "age"; FormRenderer.field_label := "Age";
     FormRenderer.field_type := "number";
     FormRenderer.field_required := Some true;
     FormRenderer.field_defaultValue := JUndefined;
     FormRenderer.field_validation :=
       Some {| FormRenderer.v_min := Some 18%Z; FormRenderer.v_max := None;
               FormRenderer.v_minLength := None;
               FormRenderer.v_maxLength := None;
               FormRenderer.v_pattern := None;
               FormRenderer.v_patternMessage := None |} |}.

Definition terms_field : FormRenderer.FormField :=
  {| FormRenderer.field_name := "terms";
     FormRenderer.field_label := "Accept the terms";
     FormRenderer.field_type := "checkbox";
     FormRenderer.field_required := Some true;
     FormRenderer.field_defaultValue := JUndefined;
     FormRenderer.field_validation := None |}.

(** A field passes when its check gives no message, or when it is named
    [__proto__], under which no message can be stored. *)
Definition field_passes (RegExp_test : string -> string -> option bool)
    (Array_prototype_has : string -> bool) (values : PlainObject.t)
    (f : FormRenderer.FormField) : Prop :=
  exists o,
    FormRenderer.validateRead RegExp_test f
      (FormRenderer.valueOf Array_prototype_has values
         (FormRenderer.field_name f)) = Ok o /\
    (o = None \/ FormRenderer.field_name f = "__proto__").

(** Some of the names of [Array.prototype], for the examples. *)
Definition sample_Array_prototype_has (name : string) : bool :=
  existsb (String.eqb name)
    ["constructor"; "concat"; "join"; "push"; "pop"; "slice"; "map";
     "filter"; "forEach"; "indexOf"].

(** A required text field named [__proto__]. *)
Definition proto_field : FormRenderer.FormField :=
  {| FormRenderer.field_name := "__proto__";
     FormRenderer.field_label := "Prototype";
     FormRenderer.field_type := "text";
     FormRenderer.field_required := Some true;
     FormRenderer.field_defaultValue := JUndefined;
     FormRenderer.field_validation := None |}.

(** ** Form requests in the chat component

    [A2AChat] opens a form when a result of the stream asks for input, and
    answers it with one message. *)

Module ChatForm.

Definition FORM_REQUEST_URI : string :=
  "https://a2a-extensions.agentstack.beeai.dev/ui/form-request/v1".

(** [extractFormRequest(chunk)]; [None] is [null]. *)
Definition extractFormRequest (chunk : JSValue) : Result (option JSValue) :=
  let* status := js_prop chunk "status" in
  let metadata := js_get (js_get status "message") "metadata" in
  if negb (truthy metadata) then Ok None
  else
    let formData := js_get metadata FORM_REQUEST_URI in
    if negb (truthy formData) then Ok None else Ok (Some formData).

(** The states [currentFormRequest] and [pendingTaskId]. *)
Record FormState : Type := {
  currentFormRequest : option JSValue;
  pendingTaskId : JSValue
}.

Definition closed : FormState :=
  {| currentFormRequest := None; pendingTaskId := JNull |}.

(** The check for form requests in the stream loop, for a [data.result]
    that passed [if (data.result)]; an error is caught by the loop. *)
Definition onResult (result : JSValue) (st : FormState) : FormState :=
  try_catch
    (let* status := js_prop result "status" in
     if strict_eq_str (js_get status "state") "input-required" then
       let* formRequest := extractFormRequest result in
       match formRequest with
       | Some request =>
           let* taskId := js_prop result "taskId" in
           Ok {| currentFormRequest := Some request; pendingTaskId := taskId |}
       | None => Ok st
       end
     else Ok st)
    st.

(** The object that [handleFormSubmit] turns into the text of a message. *)
Definition formResponseMessage (taskId values : JSValue) : JSValue :=
  JObj [("type", JStr "form_response"); ("taskId", taskId);
        ("values", values)].

(** [handleFormSubmit(values)]: the new state, and the message handed to
    [handleSendMessage] if there is one. *)
Definition handleFormSubmit (st : FormState) (values : JSValue) :
    FormState * option JSValue :=
  if negb (truthy (pendingTaskId st)) then (st, None)
  else (closed, Some (formResponseMessage (pendingTaskId st) values)).

Definition handleFormCancel (st : FormState) : FormState := closed.

End ChatForm.

(** The place where a result carries its form request. *)
Definition form_request_of (result : JSValue) : JSValue :=
  js_get (js_get (js_get (js_get result "status") "message") "metadata")
         ChatForm.FORM_REQUEST_URI.

Definition asks_for_input (result : JSValue) : bool :=
  (strict_eq_str (js_get (js_get result "status") "state") "input-required"
   && truthy (form_request_of result))%bool.

(** A status update that asks for input with a form, and the same update
    as a task, which has an [id] and no [taskId]. *)
Definition sample_form_status (idKey : string) : JSValue :=
  JObj [(idKey, JStr "task-1");
        ("status",
         JObj [("state", JStr "input-required");
               ("message",
                JObj [("metadata",
                       JObj [(ChatForm.FORM_REQUEST_URI,
                              JObj [("id", JStr "form-1")])])])])].

(** * Properties *)

Create HintDb payload.

Ltac case_if :=
  match goal with
  | |- context [if ?b then _ else _] => destruct b eqn:?
  end.

(** ** The regular expressions on sample texts *)

Example match_json_block_tagged :
  match_json_block "see ```json {} ``` and ```x```" = Some "{} ".
Proof. reflexivity. Qed.

Example match_json_block_unclosed : match_json_block "see ```json {}" = None.
Proof. reflexivity. Qed.

Example strip_fences_all :
  strip_fences "a ```x``` b ```y``` c ``` d" = "a  b  c ``` d".
Proof. reflexivity. Qed.

Example match_tool_call_title_inside :
  match_tool_call_title "Now calling   fetch(url) again" = Some "fetch(url)".
Proof. reflexivity. Qed.

Example match_tool_call_title_colon :
  match_tool_call_title "Tool Call:" = Some ":" /\
  match_tool_call_title "Tool Call" = None.
Proof. split; reflexivity. Qed.

Example match_result_title_samples :
  match_result_title "search_web Result" = Some "search_web" /\
  match_result_title "fooResultResult" = Some "fooResult" /\
  match_result_title "a search Result" = None.
Proof. repeat split. Qed.

Section TrajectoryProperties.

Variable JSON_parse : string -> option JSValue.

Lemma infer_title_total (v : JSValue) :
  opt_string v = true -> exists r, inferContentTypeFromTitle v = Ok r.
Proof.
  intros Hv. unfold inferContentTypeFromTitle.
  destruct v; try discriminate Hv; simpl; eauto.
  repeat case_if; simpl; eauto.
Qed.

Lemma parse_content_total (v : JSValue) :
  opt_string v = true -> exists r, parseTrajectoryContent JSON_parse v = Ok r.
Proof.
  intros Hv. unfold parseTrajectoryContent.
  destruct v; try discriminate Hv; simpl; eauto.
  case_if; simpl; eauto.
  destruct (match_json_block s); [destruct (try_catch _ _)|]; eauto.
Qed.

Lemma parse_content_string (c : string) :
  c <> "" ->
  parseTrajectoryContent JSON_parse (JStr c) =
  Ok match match_json_block c with
     | Some captured =>
         match try_catch (parseJsonBlock JSON_parse captured) None with
         | Some r => r
         | None => keywordFallback c
         end
     | None => keywordFallback c
     end.
Proof.
  intros Hc. unfold parseTrajectoryContent. simpl.
  destruct (String.eqb_spec c ""); [contradiction|]. simpl.
  destruct (match_json_block c); [destruct (try_catch _ _)|]; reflexivity.
Qed.

Lemma translateTrajectory_route (t : TrajectoryData) :
  nonempty_trajectory t = true ->
  translateTrajectory JSON_parse t =
  (let* inferredType := inferContentTypeFromTitle (trajectory_title t) in
   let* parsedContent := parseTrajectoryContent JSON_parse (trajectory_content t) in
   routeTrajectory
     (resolveContentType (trajectory_content_type t) inferredType parsedContent)
     t parsedContent).
Proof.
  unfold nonempty_trajectory, translateTrajectory. intros Hne.
  destruct (truthy (trajectory_title t)), (truthy (trajectory_content t));
    try discriminate Hne; reflexivity.
Qed.

Lemma truthy_JStr (s : string) : s <> "" -> truthy (JStr s) = true.
Proof.
  intros Hs. simpl. destruct (String.eqb_spec s ""); [contradiction|reflexivity].
Qed.

Lemma strict_eq_str_refl (s : string) : strict_eq_str (JStr s) s = true.
Proof. simpl. apply String.eqb_refl. Qed.

Lemma infer_title_kinds (v : JSValue) (k : string) :
  inferContentTypeFromTitle v = Ok (Some k) ->
  k = CONTENT_TYPES.TOOL_CALL \/ k = CONTENT_TYPES.TOOL_RESULT \/
  k = CONTENT_TYPES.THINKING \/ k = CONTENT_TYPES.STATUS.
Proof.
  unfold inferContentTypeFromTitle. destruct (negb (truthy v)); [discriminate|].
  destruct (as_string _ v); simpl; [|discriminate].
  repeat case_if; intros [= <-]; auto.
Qed.

Lemma infer_title_truthy (v : JSValue) (k : string) :
  inferContentTypeFromTitle v = Ok (Some k) -> truthy (JStr k) = true.
Proof.
  intros H. apply infer_title_kinds in H.
  destruct H as [-> | [-> | [-> | ->]]]; reflexivity.
Qed.

Lemma well_typed_title (t : TrajectoryData) :
  well_typed_trajectory t = true -> opt_string (trajectory_title t) = true.
Proof.
  unfold well_typed_trajectory. intros H.
  repeat (apply andb_prop in H; destruct H as [H ?]). exact H.
Qed.

Lemma well_typed_content (t : TrajectoryData) :
  well_typed_trajectory t = true -> opt_string (trajectory_content t) = true.
Proof.
  unfold well_typed_trajectory. intros H.
  repeat (apply andb_prop in H; destruct H as [H ?]). assumption.
Qed.

(** What the embedded JSON says, when it says it: a [tool_call] discriminator
    in [type] or [content_type] makes the block a tool call, a [tool_result]
    one (with no [tool_call] one) a tool result. *)
Lemma parseJsonBlock_discriminator (captured : string) (v : JSValue) :
  JSON_parse (trim captured) = Some v ->
  nullish v = false ->
  let tagged k := (strict_eq_str (js_get v "type") k
               || strict_eq_str (js_get v "content_type") k)%bool in
  (tagged "tool_call" = true ->
   exists r, parseJsonBlock JSON_parse captured = Ok (Some r) /\ pc_type r = "tool_call") /\
  (tagged "tool_call" = false -> tagged "tool_result" = true ->
   exists r, parseJsonBlock JSON_parse captured = Ok (Some r) /\ pc_type r = "tool_result") /\
  (tagged "tool_call" = false -> tagged "tool_result" = false ->
   parseJsonBlock JSON_parse captured = Ok None).
Proof.
  intros Hp Hv. unfold parseJsonBlock, json_parse. rewrite Hp. simpl.
  assert (Hprop : forall k, js_prop v k = Ok (js_get v k)).
  { intros k. destruct v; try discriminate Hv; reflexivity. }
  rewrite Hprop. simpl. repeat split.
  - intros ->. eauto.
  - intros -> ->. eauto.
  - intros -> ->. reflexivity.
Qed.

(** C1. A trajectory fragment is classified by a fixed precedence. The
    route of [translateTrajectory] is the one of its resolved content type;
    an explicit, non-empty [content_type] is the resolved type whatever the
    title and the content say; without one, the kind inferred from the title
    is; without that, the kind found in the fenced JSON of the content is,
    whatever key words the content holds; the key words decide last. In
    particular a trajectory tagged [tool_result] is translated as a tool
    result whatever its embedded JSON says. *)
Theorem classification_precedence (t : TrajectoryData) :
  well_typed_trajectory t = true ->
  (nonempty_trajectory t = true ->
   exists parsed,
     parseTrajectoryContent JSON_parse (trajectory_content t) = Ok parsed /\
     translateTrajectory JSON_parse t =
     (let* contentType := contentTypeOf JSON_parse t in
      routeTrajectory contentType t parsed)) /\
  (forall s, trajectory_content_type t = JStr s -> s <> "" ->
   contentTypeOf JSON_parse t = Ok (JStr s)) /\
  (truthy (trajectory_content_type t) = false ->
   forall k, inferContentTypeFromTitle (trajectory_title t) = Ok (Some k) ->
   contentTypeOf JSON_parse t = Ok (JStr k)) /\
  (truthy (trajectory_content_type t) = false ->
   inferContentTypeFromTitle (trajectory_title t) = Ok None ->
   forall c captured r,
     trajectory_content t = JStr c -> c <> "" ->
     match_json_block c = Some captured ->
     parseJsonBlock JSON_parse captured = Ok (Some r) ->
     contentTypeOf JSON_parse t = Ok (JStr (pc_type r))) /\
  (truthy (trajectory_content_type t) = false ->
   inferContentTypeFromTitle (trajectory_title t) = Ok None ->
   forall c,
     trajectory_content t = JStr c -> c <> "" ->
     (forall captured, match_json_block c = Some captured ->
      try_catch (parseJsonBlock JSON_parse captured) None = None) ->
     contentTypeOf JSON_parse t = Ok (JStr (pc_type (keywordFallback c)))) /\
  (trajectory_content_type t = JStr CONTENT_TYPES.TOOL_RESULT ->
   nonempty_trajectory t = true ->
   exists parsed,
     parseTrajectoryContent JSON_parse (trajectory_content t) = Ok parsed /\
     translateTrajectory JSON_parse t =
     (let* m := createToolResultFromTrajectory t parsed in Ok (Some m))).
Proof.
  intros Hwt.
  destruct (infer_title_total _ (well_typed_title _ Hwt)) as [inferred Hinf].
  destruct (parse_content_total _ (well_typed_content _ Hwt)) as [parsed Hparse].
  repeat split.
  - intros Hne. exists parsed. split; [exact Hparse|].
    rewrite translateTrajectory_route by exact Hne.
    unfold contentTypeOf. rewrite Hinf, Hparse. reflexivity.
  - intros s Hs Hnz. unfold contentTypeOf. rewrite Hinf, Hparse. simpl.
    unfold resolveContentType, js_or. rewrite Hs, truthy_JStr by exact Hnz.
    reflexivity.
  - intros Hex k Hk. unfold contentTypeOf. rewrite Hk, Hparse. simpl.
    unfold resolveContentType, js_or. rewrite Hex. simpl of_option_string.
    rewrite (infer_title_truthy _ _ Hk). reflexivity.
  - intros Hex Hnone c captured r Hc Hnz Hm Hr. unfold contentTypeOf.
    rewrite Hnone, Hc, parse_content_string by exact Hnz. simpl.
    unfold resolveContentType, js_or. rewrite Hex, Hm, Hr. reflexivity.
  - intros Hex Hnone c Hc Hnz Hfall. unfold contentTypeOf.
    rewrite Hnone, Hc, parse_content_string by exact Hnz. simpl.
    unfold resolveContentType, js_or. rewrite Hex. simpl.
    destruct (match_json_block c) as [captured|]; [|reflexivity].
    rewrite (Hfall captured eq_refl). reflexivity.
  - intros Hex Hne. exists parsed. split; [exact Hparse|].
    rewrite translateTrajectory_route by exact Hne.
    rewrite Hinf, Hparse. simpl.
    unfold resolveContentType, js_or. rewrite Hex. reflexivity.
Qed.

Lemma strict_eq_str_iff (v : JSValue) (s : string) :
  strict_eq_str v s = true <-> v = JStr s.
Proof.
  destruct v; simpl; try (split; [discriminate|intros [=]]).
  destruct (String.eqb_spec s0 s); split; congruence.
Qed.

Lemma nonspace_run_no_space (s : string) : no_space s = true -> nonspace_run s = s.
Proof.
  induction s as [|c s IH]; simpl; [reflexivity|].
  destruct (is_space c); simpl; [discriminate|].
  intros H. rewrite IH by exact H. reflexivity.
Qed.

Lemma skip_spaces_no_space (s : string) : no_space s = true -> skip_spaces s = s.
Proof.
  destruct s as [|c s]; simpl; [reflexivity|].
  destruct (is_space c); simpl; [discriminate|reflexivity].
Qed.

Lemma name_after_space (name : string) :
  name <> "" -> no_space name = true -> name_after (" " +:+ name) = Some name.
Proof.
  intros Hnz Hns. unfold name_after.
  change (" " +:+ name) with (String " " name). simpl.
  rewrite skip_spaces_no_space, nonspace_run_no_space by exact Hns.
  destruct (String.eqb_spec name ""); [contradiction|reflexivity].
Qed.

Lemma name_after_nonempty (rest n : string) :
  name_after rest = Some n -> n <> "".
Proof.
  unfold name_after.
  destruct (String.eqb_spec (nonspace_run (skip_spaces rest)) "");
    [discriminate|congruence].
Qed.

Lemma match_call_at_nonempty (s n : string) :
  match_call_at s = Some n -> n <> "".
Proof.
  unfold match_call_at. repeat case_if; try discriminate;
    try apply name_after_nonempty.
  destruct (name_after (drop 1 _)) eqn:E.
  - intros [= <-]. exact (name_after_nonempty _ _ E).
  - apply name_after_nonempty.
Qed.

(** The captured name, a match of [\S+], is never empty. *)
Lemma match_tool_call_title_nonempty (s n : string) :
  match_tool_call_title s = Some n -> n <> "".
Proof.
  induction s as [|c s IH]; cbn [match_tool_call_title];
    destruct (match_call_at _) eqn:E; try discriminate;
    try (intros [= <-]; exact (match_call_at_nonempty _ _ E)).
  exact IH.
Qed.

Lemma match_tool_call_title_head (s n : string) :
  match_call_at s = Some n -> match_tool_call_title s = Some n.
Proof.
  intros H. destruct s; cbn [match_tool_call_title]; rewrite H; reflexivity.
Qed.

(** The two title styles the name is read from. *)
Lemma match_tool_call_title_styles (name : string) :
  name <> "" -> no_space name = true ->
  match_tool_call_title ("Calling " +:+ name) = Some name /\
  match_tool_call_title ("Tool Call: " +:+ name) = Some name.
Proof.
  intros Hnz Hns.
  pose proof (name_after_space name Hnz Hns) as Hn.
  split; apply match_tool_call_title_head; unfold match_call_at.
  - change (startsWith_ci ("Calling " +:+ name) "calling") with true.
    exact Hn.
  - change (startsWith_ci ("Tool Call: " +:+ name) "calling") with false.
    change (startsWith_ci ("Tool Call: " +:+ name) "tool call") with true.
    change (drop 9 ("Tool Call: " +:+ name)) with (": " +:+ name).
    change (startsWith (": " +:+ name) ":") with true.
    change (drop 1 (": " +:+ name)) with (" " +:+ name).
    rewrite Hn. reflexivity.
Qed.

Ltac destruct_opt_string v H :=
  let E := fresh "E" in
  destruct v eqn:E; try discriminate H.

Lemma toolName_priority (pn : JSValue) (m : option string) :
  let toolName := js_or pn (js_or (of_option_string m) (JStr "tool")) in
  (truthy pn = true -> toolName = pn) /\
  (truthy pn = false -> forall n, m = Some n -> n <> "" -> toolName = JStr n) /\
  (truthy pn = false -> m = None -> toolName = JStr "tool").
Proof.
  unfold js_or. repeat split.
  - intros ->. reflexivity.
  - intros -> n -> Hn. cbn [of_option_string]. rewrite truthy_JStr by exact Hn.
    reflexivity.
  - intros -> ->. reflexivity.
Qed.

Lemma printable_falsy (v : JSValue) : truthy v = false -> printable v = true.
Proof. destruct v as [| |[|]| | | |]; try discriminate; reflexivity. Qed.

Lemma printable_Ok (v : JSValue) :
  printable v = true -> exists s, js_toString v = Ok s.
Proof. unfold printable. destruct (js_toString v); [eauto|discriminate]. Qed.

Lemma unprintable_truthy (v : JSValue) (e : JSError) :
  js_toString v = Throw e -> truthy v = true.
Proof.
  intros H. destruct (truthy v) eqn:E; [reflexivity|].
  apply printable_falsy in E. unfold printable in E. rewrite H in E.
  discriminate.
Qed.

(** The tool name of a step: [parsedName || titleName || 'tool']. *)
Lemma toolName_printable (pn : JSValue) (m : option string) :
  printable pn = true ->
  printable (js_or pn (js_or (of_option_string m) (JStr "tool"))) = true.
Proof.
  intros Hp. unfold js_or. destruct (truthy pn); [exact Hp|].
  destruct m as [n|]; cbn [of_option_string]; [|reflexivity].
  destruct (truthy (JStr n)); reflexivity.
Qed.

(** Every step that [createToolCallFromTrajectory] returns. *)
Lemma createToolCall_inv (t : TrajectoryData) (parsed : ParsedContent)
    (m : CarbonMessage) :
  createToolCallFromTrajectory t parsed = Ok m ->
  exists step s,
    m = chainOfThoughtMessage step /\
    status step = PROCESSING /\
    as_string_opt "title.match" (trajectory_title t) = Ok s /\
    tool_name step =
    js_or (pc_toolName parsed)
      (js_or (of_option_string (s ≫= match_tool_call_title)) (JStr "tool")).
Proof.
  unfold createToolCallFromTrajectory.
  destruct (as_string_opt "title.match" (trajectory_title t)) as [s|e];
    cbn [bind]; [|discriminate].
  destruct (js_or_else _ _) as [stepTitle|e]; cbn [bind]; [|discriminate].
  destruct (descriptionOf (trajectory_content t)) as [d|e]; cbn [bind];
    [|discriminate].
  intros [= <-]. do 2 eexists. repeat split.
Qed.

Lemma createToolCall_step (t : TrajectoryData) (parsed : ParsedContent) :
  well_typed_trajectory t = true ->
  truthy (trajectory_title t) = true \/ printable (pc_toolName parsed) = true ->
  exists step s,
    createToolCallFromTrajectory t parsed = Ok (chainOfThoughtMessage step) /\
    status step = PROCESSING /\
    as_string_opt "title.match" (trajectory_title t) = Ok s /\
    tool_name step =
    js_or (pc_toolName parsed)
      (js_or (of_option_string (s ≫= match_tool_call_title)) (JStr "tool")).
Proof.
  intros Hwt Hprint.
  pose proof (well_typed_title _ Hwt) as Ht.
  pose proof (well_typed_content _ Hwt) as Hc.
  assert (Hex : exists m, createToolCallFromTrajectory t parsed = Ok m).
  { unfold createToolCallFromTrajectory, descriptionOf, js_or_else.
    destruct (truthy (trajectory_title t)) eqn:Etitle.
    - destruct_opt_string (trajectory_title t) Ht;
        destruct_opt_string (trajectory_content t) Hc;
        cbn [as_string_opt bind]; eauto.
    - destruct Hprint as [Hp | Hp]; [discriminate|].
      destruct_opt_string (trajectory_title t) Ht; cbn [as_string_opt bind];
        match goal with
        | |- context [js_toString ?v] =>
            let s := fresh "s" in
            let Hs := fresh "Hs" in
            let Hv := fresh "Hv" in
            assert (Hv : printable v = true)
              by (apply (toolName_printable _ _ Hp));
            destruct (printable_Ok _ Hv) as [s Hs]; rewrite Hs
        end;
        destruct_opt_string (trajectory_content t) Hc;
        cbn [as_string_opt bind]; eauto. }
  destruct Hex as [m Hm]. destruct (createToolCall_inv _ _ _ Hm)
    as (step & s & -> & H1 & H2 & H3).
  exists step, s. auto.
Qed.

(** With no title to show, a tool name that cannot be printed makes the
    creation of the step throw, at the template literal of the title. *)
Lemma createToolCall_throws (t : TrajectoryData) (parsed : ParsedContent)
    (e : JSError) :
  opt_string (trajectory_title t) = true ->
  truthy (trajectory_title t) = false ->
  js_toString (pc_toolName parsed) = Throw e ->
  createToolCallFromTrajectory t parsed = Throw e.
Proof.
  intros Ht Hf He. pose proof (unprintable_truthy _ _ He) as Htr.
  unfold createToolCallFromTrajectory, js_or_else, js_or. rewrite Hf, Htr.
  destruct_opt_string (trajectory_title t) Ht; cbn [as_string_opt bind];
    rewrite He; reflexivity.
Qed.

Lemma as_string_opt_Some (m : string) (v : JSValue) (s : string) :
  as_string_opt m v = Ok (Some s) <-> v = JStr s.
Proof.
  destruct v; simpl; split; intros H; try discriminate H; congruence.
Qed.

(** Once the title and the content have passed the classifiers, they are
    strings or falsy, and the reasoning step is built without an error. *)
Lemma createReasoning_total (t : TrajectoryData) (inferred : option string)
    (parsed : ParsedContent) :
  inferContentTypeFromTitle (trajectory_title t) = Ok inferred ->
  parseTrajectoryContent JSON_parse (trajectory_content t) = Ok parsed ->
  exists m, createReasoningFromTrajectory t = Ok m.
Proof.
  unfold inferContentTypeFromTitle, parseTrajectoryContent,
    createReasoningFromTrajectory, js_or.
  destruct (truthy (trajectory_title t)) eqn:Et; cbn [negb].
  - destruct (trajectory_title t) as [| |b|n|s|items|fields];
      cbn [as_string bind]; try discriminate. intros _.
    destruct (truthy (trajectory_content t)) eqn:Ec; cbn [negb].
    + destruct (trajectory_content t) as [| |b|n|c|items|fields];
        cbn [as_string bind]; try discriminate. intros _.
      cbn [js_toString bind]. eauto.
    + intros _. cbn [js_toString bind]. eauto.
  - intros _ _. cbn [bind]. eauto.
Qed.

Lemma match_json_block_nonempty (c captured : string) :
  match_json_block c = Some captured -> c <> "".
Proof. intros H ->. discriminate H. Qed.

(** What [parseTrajectoryContent] returns for a fenced block that holds a
    tool call: the name is the one the JSON gives. *)
Lemma parse_content_tool_call (c captured : string) (v : JSValue) :
  match_json_block c = Some captured ->
  JSON_parse (trim captured) = Some v ->
  nullish v = false ->
  json_tagged v "tool_call" = true ->
  exists parsed,
    parseTrajectoryContent JSON_parse (JStr c) = Ok parsed /\
    pc_type parsed = "tool_call" /\
    pc_toolName parsed = json_tool_name v.
Proof.
  intros Hm Hp Hv Htag.
  rewrite (parse_content_string c (match_json_block_nonempty _ _ Hm)), Hm.
  unfold parseJsonBlock, json_parse. rewrite Hp. cbn [bind].
  assert (Hprop : js_prop v "type" = Ok (js_get v "type"))
    by (destruct v; try discriminate Hv; reflexivity).
  rewrite Hprop. cbn [bind]. unfold json_tagged in Htag. rewrite Htag.
  cbn [try_catch]. eexists. repeat split.
Qed.

(** C5. The tool name of a tool-call step is the name parsed from the
    embedded JSON when there is one, otherwise the name read from a
    [Calling <name>] or [Tool Call: <name>] title, otherwise [tool]: every
    step returned has this name, the parsed name is the [tool_name] of the
    JSON block, and it wins over a name in the title. A step is returned
    whenever the trajectory has a title or the name can be printed; with no
    title, a name that cannot be printed makes the translation throw. A
    trajectory titled [Calling search_web], with no tag and no content,
    becomes a tool call of [search_web]. *)
Theorem tool_call_name_priority :
  (forall t parsed m,
     createToolCallFromTrajectory t parsed = Ok m ->
     exists step,
       m = chainOfThoughtMessage step /\
       status step = PROCESSING /\
       (truthy (pc_toolName parsed) = true -> tool_name step = pc_toolName parsed) /\
       (truthy (pc_toolName parsed) = false ->
        forall s n, trajectory_title t = JStr s -> match_tool_call_title s = Some n ->
        tool_name step = JStr n) /\
       (truthy (pc_toolName parsed) = false ->
        (forall s, trajectory_title t = JStr s -> match_tool_call_title s = None) ->
        tool_name step = JStr "tool")) /\
  (forall t parsed,
     well_typed_trajectory t = true ->
     truthy (trajectory_title t) = true \/ printable (pc_toolName parsed) = true ->
     exists step,
       createToolCallFromTrajectory t parsed = Ok (chainOfThoughtMessage step)) /\
  (forall t parsed e,
     well_typed_trajectory t = true ->
     truthy (trajectory_title t) = false ->
     js_toString (pc_toolName parsed) = Throw e ->
     createToolCallFromTrajectory t parsed = Throw e) /\
  (forall c captured v,
     match_json_block c = Some captured ->
     JSON_parse (trim captured) = Some v ->
     nullish v = false ->
     json_tagged v "tool_call" = true ->
     exists parsed,
       parseTrajectoryContent JSON_parse (JStr c) = Ok parsed /\
       pc_type parsed = "tool_call" /\
       pc_toolName parsed = json_tool_name v) /\
  (forall c captured v n other,
     match_json_block c = Some captured ->
     JSON_parse (trim captured) = Some v ->
     nullish v = false ->
     json_tagged v "tool_call" = true ->
     json_tool_name v = JStr n -> n <> "" ->
     exists step,
       translateTrajectory JSON_parse
         (JObj [("title", JStr ("Calling " +:+ other)); ("content", JStr c)]) =
       Ok (Some (chainOfThoughtMessage step)) /\
       tool_name step = JStr n) /\
  (forall t,
     well_typed_trajectory t = true -> nonempty_trajectory t = true ->
     contentTypeOf JSON_parse t = Ok (JStr CONTENT_TYPES.TOOL_CALL) ->
     exists parsed,
       parseTrajectoryContent JSON_parse (trajectory_content t) = Ok parsed /\
       translateTrajectory JSON_parse t =
       (let* m := createToolCallFromTrajectory t parsed in Ok (Some m))) /\
  (forall name, name <> "" -> no_space name = true ->
     match_tool_call_title ("Calling " +:+ name) = Some name /\
     match_tool_call_title ("Tool Call: " +:+ name) = Some name) /\
  translateTrajectory JSON_parse (JObj [("title", JStr "Calling search_web")]) =
  Ok (Some (chainOfThoughtMessage {|
    title := JStr "Calling search_web";
    tool_name := JStr "search_web";
    description := JUndefined;
    request := None;
    response := None;
    status := PROCESSING |})).
Proof.
  split; [|split; [|split; [|split; [|split; [|split; [|split]]]]]].
  - intros t parsed m Hm.
    destruct (createToolCall_inv t parsed m Hm) as (step & s & -> & Hst & Hs & Hn).
    exists step. split; [reflexivity|]. split; [exact Hst|]. rewrite Hn.
    destruct (toolName_priority (pc_toolName parsed) (s ≫= match_tool_call_title))
      as (H1 & H2 & H3).
    split; [exact H1|]. split.
    + intros Hf s' n Ht Hm'. rewrite Ht in Hs. injection Hs as <-.
      apply H2; [exact Hf|exact Hm'|].
      exact (match_tool_call_title_nonempty _ _ Hm').
    + intros Hf Hnone. apply H3; [exact Hf|].
      destruct s as [s'|]; [|reflexivity].
      apply as_string_opt_Some in Hs. exact (Hnone _ Hs).
  - intros t parsed Hwt Hp.
    destruct (createToolCall_step t parsed Hwt Hp) as (step & s & Hc & _).
    eauto.
  - intros t parsed e Hwt. apply createToolCall_throws.
    exact (well_typed_title _ Hwt).
  - exact parse_content_tool_call.
  - intros c captured v n other Hm Hp Hv Htag Hname Hn.
    destruct (parse_content_tool_call c captured v Hm Hp Hv Htag)
      as (parsed & Hparse & _ & Hpn).
    set (t := JObj [("title", JStr ("Calling " +:+ other)); ("content", JStr c)]).
    assert (Hwt : well_typed_trajectory t = true) by reflexivity.
    destruct (createToolCall_step t parsed Hwt (or_introl eq_refl))
      as (step & s & Hc & _ & _ & Hstep).
    exists step. split.
    + rewrite translateTrajectory_route by reflexivity.
      change (inferContentTypeFromTitle (trajectory_title t))
        with (Ok (Some CONTENT_TYPES.TOOL_CALL)).
      change (trajectory_content t) with (JStr c). rewrite Hparse.
      change ((let* m := createToolCallFromTrajectory t parsed in Ok (Some m))
              = Ok (Some (chainOfThoughtMessage step))).
      rewrite Hc. reflexivity.
    + rewrite Hstep, Hpn, Hname. unfold js_or.
      rewrite (truthy_JStr n Hn). reflexivity.
  - intros t Hwt Hne Hct.
    destruct (infer_title_total _ (well_typed_title _ Hwt)) as [inferred Hinf].
    destruct (parse_content_total _ (well_typed_content _ Hwt))
      as [parsed Hparse].
    exists parsed. split; [exact Hparse|].
    rewrite translateTrajectory_route by exact Hne.
    unfold contentTypeOf in Hct. rewrite Hinf, Hparse in *. simpl in *.
    injection Hct as ->. reflexivity.
  - exact match_tool_call_title_styles.
  - reflexivity.
Qed.

Lemma createToolResult_inv (t : TrajectoryData) (parsed : ParsedContent)
    (m : CarbonMessage) :
  createToolResultFromTrajectory t parsed = Ok m ->
  exists step b,
    m = chainOfThoughtMessage step /\
    isErrorOf t parsed = Ok b /\
    status step = (if b then ERROR else SUCCESS) /\
    opt_string (trajectory_title t) = true /\
    opt_string (trajectory_content t) = true.
Proof.
  unfold createToolResultFromTrajectory.
  destruct (as_string_opt "title.match" (trajectory_title t)) as [s|e] eqn:Et;
    cbn [bind]; [|discriminate].
  destruct (isErrorOf t parsed) as [b|e]; cbn [bind]; [|discriminate].
  destruct (js_or_else _ _) as [stepTitle|e]; cbn [bind]; [|discriminate].
  destruct (descriptionOf (trajectory_content t)) as [d|e] eqn:Ed; cbn [bind];
    [|discriminate].
  intros [= <-]. eexists. exists b. repeat split.
  - destruct (trajectory_title t); try discriminate Et; reflexivity.
  - unfold descriptionOf in Ed.
    destruct (trajectory_content t); try discriminate Ed; reflexivity.
Qed.

Lemma isErrorOf_signal (t : TrajectoryData) (parsed : ParsedContent) :
  opt_string (trajectory_title t) = true ->
  opt_string (trajectory_content t) = true ->
  isErrorOf t parsed = Ok (error_signal t parsed).
Proof.
  intros Ht Hc. unfold isErrorOf, error_signal.
  destruct (strict_eq_str (pc_status parsed) "error"); [reflexivity|].
  destruct_opt_string (trajectory_title t) Ht;
    destruct_opt_string (trajectory_content t) Hc;
    cbn [as_string_opt bind contains_ci orb];
    try reflexivity;
    destruct (includes (toLowerCase _) "error"); reflexivity.
Qed.

Lemma createToolResult_step (t : TrajectoryData) (parsed : ParsedContent) :
  well_typed_trajectory t = true ->
  truthy (trajectory_title t) = true \/ printable (pc_toolName parsed) = true ->
  exists step,
    createToolResultFromTrajectory t parsed = Ok (chainOfThoughtMessage step) /\
    status step = if error_signal t parsed then ERROR else SUCCESS.
Proof.
  intros Hwt Hprint.
  pose proof (well_typed_title _ Hwt) as Ht.
  pose proof (well_typed_content _ Hwt) as Hc.
  assert (Hex : exists m, createToolResultFromTrajectory t parsed = Ok m).
  { unfold createToolResultFromTrajectory.
    rewrite (isErrorOf_signal t parsed Ht Hc).
    unfold descriptionOf, js_or_else.
    destruct (truthy (trajectory_title t)) eqn:Etitle.
    - destruct_opt_string (trajectory_title t) Ht;
        destruct_opt_string (trajectory_content t) Hc;
        cbn [as_string_opt bind]; eauto.
    - destruct Hprint as [Hp | Hp]; [discriminate|].
      destruct_opt_string (trajectory_title t) Ht; cbn [as_string_opt bind];
        match goal with
        | |- context [js_toString ?v] =>
            let s := fresh "s" in
            let Hs := fresh "Hs" in
            let Hv := fresh "Hv" in
            assert (Hv : printable v = true)
              by (apply (toolName_printable _ _ Hp));
            destruct (printable_Ok _ Hv) as [s Hs]; rewrite Hs
        end;
        destruct_opt_string (trajectory_content t) Hc;
        cbn [as_string_opt bind]; eauto. }
  destruct Hex as [m Hm].
  destruct (createToolResult_inv _ _ _ Hm) as (step & b & -> & Hb & Hst & _).
  rewrite (isErrorOf_signal t parsed Ht Hc) in Hb. injection Hb as <-.
  exists step. auto.
Qed.

Lemma createToolResult_throws (t : TrajectoryData) (parsed : ParsedContent)
    (e : JSError) :
  well_typed_trajectory t = true ->
  truthy (trajectory_title t) = false ->
  js_toString (pc_toolName parsed) = Throw e ->
  createToolResultFromTrajectory t parsed = Throw e.
Proof.
  intros Hwt Hf He. pose proof (unprintable_truthy _ _ He) as Htr.
  pose proof (well_typed_title _ Hwt) as Ht.
  pose proof (well_typed_content _ Hwt) as Hc.
  unfold createToolResultFromTrajectory.
  rewrite (isErrorOf_signal t parsed Ht Hc).
  unfold js_or_else, js_or. rewrite Hf, Htr.
  destruct_opt_string (trajectory_title t) Ht; cbn [as_string_opt bind];
    rewrite He; reflexivity.
Qed.

(** C4, as the code has it. A tool-result step has the error status exactly
    when the parsed status is [error], or the content holds [error], or the
    title holds [failed], letter case ignored in both; it has the success
    status otherwise. This holds of every step returned; a step is returned
    whenever the trajectory has a title or the tool name can be printed, and
    with no title a name that cannot be printed makes the translation
    throw. A trajectory titled [search_web Result] whose content holds
    [error] becomes a tool result in error, with no status given. *)
Theorem tool_result_error_detection :
  (forall t parsed m,
     createToolResultFromTrajectory t parsed = Ok m ->
     exists step,
       m = chainOfThoughtMessage step /\
       (status step = ERROR <->
        pc_status parsed = JStr "error" \/
        contains_ci (trajectory_content t) "error" = true \/
        contains_ci (trajectory_title t) "failed" = true) /\
       (status step <> ERROR -> status step = SUCCESS)) /\
  (forall t parsed,
     well_typed_trajectory t = true ->
     truthy (trajectory_title t) = true \/ printable (pc_toolName parsed) = true ->
     exists step,
       createToolResultFromTrajectory t parsed = Ok (chainOfThoughtMessage step)) /\
  (forall t parsed e,
     well_typed_trajectory t = true ->
     truthy (trajectory_title t) = false ->
     js_toString (pc_toolName parsed) = Throw e ->
     createToolResultFromTrajectory t parsed = Throw e) /\
  (forall t,
     well_typed_trajectory t = true -> nonempty_trajectory t = true ->
     contentTypeOf JSON_parse t = Ok (JStr CONTENT_TYPES.TOOL_RESULT) ->
     exists parsed,
       parseTrajectoryContent JSON_parse (trajectory_content t) = Ok parsed /\
       translateTrajectory JSON_parse t =
       (let* m := createToolResultFromTrajectory t parsed in Ok (Some m))) /\
  (forall c,
     includes (toLowerCase c) "error" = true ->
     exists step,
       translateTrajectory JSON_parse
         (JObj [("title", JStr "search_web Result"); ("content", JStr c)]) =
       Ok (Some (chainOfThoughtMessage step)) /\
       status step = ERROR).
Proof.
  split; [|split; [|split; [|split]]].
  - intros t parsed m Hm.
    destruct (createToolResult_inv t parsed m Hm)
      as (step & b & -> & Hb & Hstatus & Ht & Hc).
    rewrite (isErrorOf_signal t parsed Ht Hc) in Hb. injection Hb as <-.
    exists step. split; [reflexivity|]. rewrite Hstatus. unfold error_signal.
    rewrite <- strict_eq_str_iff.
    destruct (strict_eq_str _ _), (contains_ci (trajectory_content t) _),
      (contains_ci (trajectory_title t) _); simpl;
      (split; [split; [auto; discriminate | intros [? | [? | ?]]; congruence]
              | congruence]).
  - intros t parsed Hwt Hp.
    destruct (createToolResult_step t parsed Hwt Hp) as (step & Hstep & _).
    eauto.
  - exact createToolResult_throws.
  - intros t Hwt Hne Hct.
    destruct (infer_title_total _ (well_typed_title _ Hwt)) as [inferred Hinf].
    destruct (parse_content_total _ (well_typed_content _ Hwt))
      as [parsed Hparse].
    exists parsed. split; [exact Hparse|].
    rewrite translateTrajectory_route by exact Hne.
    unfold contentTypeOf in Hct. rewrite Hinf, Hparse in *. simpl in *.
    injection Hct as ->. reflexivity.
  - intros c Herr.
    set (t := JObj [("title", JStr "search_web Result"); ("content", JStr c)]).
    assert (Hwt : well_typed_trajectory t = true) by reflexivity.
    destruct (parse_content_total _ (well_typed_content _ Hwt))
      as [parsed Hparse].
    destruct (createToolResult_step t parsed Hwt (or_introl eq_refl))
      as (step & Hstep & Hstatus).
    exists step. split.
    + rewrite translateTrajectory_route by reflexivity.
      change (inferContentTypeFromTitle (trajectory_title t))
        with (Ok (Some CONTENT_TYPES.TOOL_RESULT)).
      rewrite Hparse.
      change ((let* m := createToolResultFromTrajectory t parsed in Ok (Some m))
              = Ok (Some (chainOfThoughtMessage step))).
      rewrite Hstep. reflexivity.
    + rewrite Hstatus. unfold error_signal.
      change (trajectory_content t) with (JStr c). simpl. rewrite Herr.
      rewrite orb_true_r. reflexivity.
Qed.

End TrajectoryProperties.

(** ** The batch translator *)

Section BatchProperties.

Variable JSON_parse : string -> option JSValue.

Lemma push_app (acc : list CarbonMessage) (m : option CarbonMessage) :
  push acc m = acc ++ option_list m.
Proof. destruct m; simpl; [reflexivity|]. rewrite app_nil_r. reflexivity. Qed.

Lemma somes_cons (m : option CarbonMessage) (l : list (option CarbonMessage)) :
  somes (m :: l) = option_list m ++ somes l.
Proof. destruct m; reflexivity. Qed.

(** The loop over the parts appends their messages in part order. *)
Lemma translateParts_spec (a : A2AArtifact) (ps : list A2APart) :
  forall acc ms,
    translateParts JSON_parse ps a acc = Ok ms <->
    exists pms,
      Forall2 (fun p pm => translatePart JSON_parse p (Some a) = Ok pm) ps pms /\
      ms = acc ++ somes pms.
Proof.
  induction ps as [|p ps IH]; intros acc ms; simpl.
  - split.
    + intros [= <-]. exists []. split; [constructor|].
      simpl. rewrite app_nil_r. reflexivity.
    + intros (pms & HF & ->). inversion HF; subst. simpl.
      rewrite app_nil_r. reflexivity.
  - split.
    + destruct (translatePart JSON_parse p (Some a)) as [m|e] eqn:Hp; simpl;
        [|discriminate].
      intros H. apply IH in H. destruct H as (pms & HF & ->).
      exists (m :: pms). split; [constructor; assumption|].
      rewrite push_app, somes_cons, app_assoc. reflexivity.
    + intros (pms & HF & ->). inversion HF as [|? m ? pms' Hp HF']; subst.
      rewrite Hp. cbn [bind]. apply IH. exists pms'. split; [exact HF'|].
      rewrite push_app, somes_cons, app_assoc. reflexivity.
Qed.

(** The loop over the artifacts appends their blocks in artifact order. *)
Lemma translateArtifacts_spec (arts : list A2AArtifact) :
  forall acc ms,
    translateArtifacts JSON_parse arts acc = Ok ms <->
    exists blocks,
      Forall2 (artifact_block JSON_parse) arts blocks /\ ms = acc ++ concat blocks.
Proof.
  induction arts as [|a arts IH]; intros acc ms; simpl.
  - split.
    + intros [= <-]. exists []. split; [constructor|].
      simpl. rewrite app_nil_r. reflexivity.
    + intros (blocks & HF & ->). inversion HF; subst. simpl.
      rewrite app_nil_r. reflexivity.
  - split.
    + destruct (translateArtifactTrajectory JSON_parse a) as [tm|e] eqn:Ht; simpl;
        [|discriminate].
      destruct (translateParts JSON_parse (parts a) a (push acc tm)) as [ms'|e]
        eqn:Hps; simpl; [|discriminate].
      apply translateParts_spec in Hps. destruct Hps as (pms & HFp & ->).
      intros H. apply IH in H. destruct H as (blocks & HF & ->).
      exists ((option_list tm ++ somes pms) :: blocks). split.
      * constructor; [|exact HF]. exists tm, pms. auto.
      * simpl. rewrite push_app, !app_assoc. reflexivity.
    + intros (blocks & HF & ->).
      inversion HF as [|? block ? blocks' Hb HF']; subst.
      destruct Hb as (tm & pms & Ht & HFp & ->). rewrite Ht. cbn [bind].
      assert (Hps : translateParts JSON_parse (parts a) a (push acc tm)
                    = Ok (push acc tm ++ somes pms)).
      { apply translateParts_spec. exists pms. auto. }
      rewrite Hps. cbn [bind]. apply IH. exists blocks'. split; [exact HF'|].
      cbn [concat]. rewrite push_app, !app_assoc. reflexivity.
Qed.

Lemma translateTask_blocks (task : A2ATask) (ms : list CarbonMessage) :
  translateTask JSON_parse task = Ok ms <-> task_messages JSON_parse task ms.
Proof.
  unfold translateTask, task_messages. rewrite translateArtifacts_spec.
  reflexivity.
Qed.

(** C3. The batch translator emits the messages of a task artifact by
    artifact, in list order; within an artifact the message of the
    artifact-level trajectory metadata, when there is one, comes before the
    messages of the parts, which come in part order. A task whose first
    artifact has trajectory metadata and one text part and whose second
    artifact has one image file yields the trajectory message, the text
    message and the image message, in this order. *)
Theorem translateTask_order :
  (forall task ms,
     translateTask JSON_parse task = Ok ms <-> task_messages JSON_parse task ms) /\
  (forall trajectory tm s f id st hist,
     (truthy trajectory && typeof_object trajectory)%bool = true ->
     translateTrajectory JSON_parse trajectory = Ok (Some tm) ->
     startsWith (mimeType f) "image/" = true ->
     let md := [(AGENTSTACK_EXTENSION_URIS.TRAJECTORY, trajectory)] in
     let textPart :=
       {| part_kind := "text"; part_text := Some s; part_file := None;
          part_data := JUndefined; part_metadata := None |} in
     let imagePart :=
       {| part_kind := "file"; part_text := None; part_file := Some f;
          part_data := JUndefined; part_metadata := None |} in
     let first :=
       {| artifactId := "first"; art_name := None; art_description := None;
          parts := [textPart]; art_metadata := Some md |} in
     let second :=
       {| artifactId := "second"; art_name := None; art_description := None;
          parts := [imagePart]; art_metadata := None |} in
     translateTask JSON_parse
       {| task_id := id; task_state := st; artifacts := [first; second];
          history := hist |} =
     Ok [ tm;
          textMessage (Some s) (Some md);
          userDefinedMessage "image"
            [ ("type", JStr "image"); ("url", fileUrl f);
              ("alt", of_option_string (name f)); ("caption", JUndefined) ] ]).
Proof.
  split; [exact translateTask_blocks|].
  intros trajectory tm s f id st hist Hobj Htr Himg md textPart imagePart
    first second.
  unfold translateTask. cbn [artifacts translateArtifacts].
  assert (H1 : translateArtifactTrajectory JSON_parse first = Ok (Some tm)).
  { unfold translateArtifactTrajectory, extractTrajectoryFromMetadata.
    cbn [art_metadata first].
    change (lookup_key AGENTSTACK_EXTENSION_URIS.TRAJECTORY md) with trajectory.
    rewrite Hobj. exact Htr. }
  rewrite H1. cbn [bind push app parts first translateParts].
  change (translatePart JSON_parse textPart (Some first))
    with (Ok (A := option CarbonMessage) (Some (textMessage (Some s) (Some md)))).
  cbn [bind push app].
  change (translateArtifactTrajectory JSON_parse second)
    with (Ok (A := option CarbonMessage) None).
  cbn [bind push app parts second translateParts].
  assert (H2 : translatePart JSON_parse imagePart (Some second) =
               Ok (Some (userDefinedMessage "image"
                 [ ("type", JStr "image"); ("url", fileUrl f);
                   ("alt", of_option_string (name f)); ("caption", JUndefined) ]))).
  { unfold translatePart, translateFilePart.
    cbn [part_metadata imagePart extractTrajectoryFromMetadata part_file].
    change (truthy (part_content_type imagePart)) with false.
    cbn [part_kind part_data imagePart].
    change (String.eqb "file" "data") with false.
    change (String.eqb "file" "text") with false.
    change (String.eqb "file" "file") with true.
    cbn [andb]. rewrite Himg. reflexivity. }
  rewrite H2. reflexivity.
Qed.

End BatchProperties.

(** ** One payload field per message *)

Section PayloadProperties.

Variable JSON_parse : string -> option JSValue.

Lemma one_payload_chainOfThought (step : ChainOfThoughtStep) :
  one_payload (chainOfThoughtMessage step).
Proof. exists "chain_of_thought". split; reflexivity. Qed.

Lemma one_payload_reasoning (c : JSValue) (st : ReasoningStepOpenState) :
  one_payload (reasoningMessage c st).
Proof. exists "reasoning_steps". split; reflexivity. Qed.

Lemma one_payload_userDefined (rt : string) (payload : JSObject) :
  rt = "image" \/ rt = "user_defined" -> one_payload (userDefinedMessage rt payload).
Proof. intros [-> | ->]; exists "user_defined"; split; reflexivity. Qed.

Lemma one_payload_text (s : string) (md : option JSObject) :
  one_payload (textMessage (Some s) md).
Proof. exists "text". split; reflexivity. Qed.

Lemma textless_text (md : option JSObject) : textless (textMessage None md).
Proof. split; reflexivity. Qed.

Lemma one_payload_set_metadata (m : CarbonMessage) (md : JSObject) :
  one_payload m -> one_payload (set_metadata m md).
Proof. intros H. exact H. Qed.

Lemma textless_set_metadata (m : CarbonMessage) (md : JSObject) :
  textless m -> textless (set_metadata m md).
Proof. intros H. exact H. Qed.

Hint Resolve one_payload_chainOfThought one_payload_reasoning
  one_payload_text textless_text : payload.

Lemma createToolCall_shape (t : TrajectoryData) (parsed : ParsedContent)
  (m : CarbonMessage) :
  createToolCallFromTrajectory t parsed = Ok m ->
  exists step, m = chainOfThoughtMessage step.
Proof.
  intros H. destruct (createToolCall_inv _ _ _ H) as (step & s & -> & _).
  eauto.
Qed.

Lemma createToolResult_shape (t : TrajectoryData) (parsed : ParsedContent)
  (m : CarbonMessage) :
  createToolResultFromTrajectory t parsed = Ok m ->
  exists step, m = chainOfThoughtMessage step.
Proof.
  intros H. destruct (createToolResult_inv _ _ _ H) as (step & b & -> & _).
  eauto.
Qed.

Lemma createReasoning_shape (t : TrajectoryData) (m : CarbonMessage) :
  createReasoningFromTrajectory t = Ok m ->
  exists c, m = reasoningMessage c CLOSED.
Proof.
  unfold createReasoningFromTrajectory.
  destruct (if truthy (trajectory_title t) then _ else _) as [c|e];
    cbn [bind]; [|discriminate].
  intros [= <-]. eauto.
Qed.

Lemma translateDataPart_shape (p : A2APart) (m : CarbonMessage) :
  translateDataPart p = Ok (Some m) ->
  exists step, m = chainOfThoughtMessage step.
Proof.
  unfold translateDataPart.
  destruct (strict_eq_str _ "tool_call");
    [|destruct (strict_eq_str _ "tool_result"); [|discriminate]];
    destruct (js_or_else _ _) as [stepTitle|e]; cbn [bind];
    try discriminate; intros [= <-]; eauto.
Qed.

Lemma routeTrajectory_payload (ct : JSValue) (t : TrajectoryData)
  (parsed : ParsedContent) (m : CarbonMessage) :
  routeTrajectory ct t parsed = Ok (Some m) -> one_payload m.
Proof.
  unfold routeTrajectory. repeat case_if.
  - destruct (createToolCallFromTrajectory t parsed) as [m'|] eqn:E;
      cbn [bind]; [|discriminate].
    intros [= <-]. apply createToolCall_shape in E. destruct E as [step ->].
    auto with payload.
  - destruct (createToolResultFromTrajectory t parsed) as [m'|] eqn:E;
      cbn [bind]; [|discriminate].
    intros [= <-]. apply createToolResult_shape in E. destruct E as [step ->].
    auto with payload.
  - destruct (createReasoningFromTrajectory t) as [m'|] eqn:E;
      cbn [bind]; [|discriminate].
    intros [= <-]. apply createReasoning_shape in E. destruct E as [c ->].
    apply one_payload_reasoning.
  - intros [= <-]. apply one_payload_userDefined. auto.
  - destruct (createReasoningFromTrajectory t) as [m'|] eqn:E;
      cbn [bind]; [|discriminate].
    intros [= <-]. apply createReasoning_shape in E. destruct E as [c ->].
    apply one_payload_reasoning.
  - discriminate.
Qed.

Lemma translateTrajectory_payload (t : TrajectoryData) (m : CarbonMessage) :
  translateTrajectory JSON_parse t = Ok (Some m) -> one_payload m.
Proof.
  unfold translateTrajectory. case_if; [discriminate|].
  destruct (inferContentTypeFromTitle _); cbn [bind]; [|discriminate].
  destruct (parseTrajectoryContent _ _); cbn [bind]; [|discriminate].
  apply routeTrajectory_payload.
Qed.

Lemma part_payload_one (p : A2APart) (m : CarbonMessage) :
  one_payload m -> part_payload p m.
Proof. intros H. split; auto. Qed.

Lemma part_payload_attach (p : A2APart) (o : option CarbonMessage)
  (md : option JSObject) (m : CarbonMessage) :
  (forall m', o = Some m' -> part_payload p m') ->
  attachMetadata o md = Some m -> part_payload p m.
Proof.
  intros H. unfold attachMetadata.
  destruct o as [m'|]; [|destruct md; discriminate].
  specialize (H m' eq_refl).
  destruct md; intros [= <-]; exact H.
Qed.

Lemma translateMetadataPart_payload (p : A2APart) (m : CarbonMessage) :
  translateMetadataPart p = Some m -> part_payload p m.
Proof.
  unfold translateMetadataPart. repeat case_if; try discriminate; intros [= <-].
  - apply part_payload_one, one_payload_reasoning.
  - destruct (part_text p) as [s|] eqn:Ht.
    + apply part_payload_one, one_payload_text.
    + split; [right; split; [exact Ht|apply textless_text]|].
      intros Hc. exfalso. apply Hc; [|exact Ht].
      unfold text_expected. rewrite Heqb0. apply orb_true_r.
  - apply part_payload_one, one_payload_userDefined. auto.
Qed.

Lemma translateDataPart_payload (p : A2APart) (m : CarbonMessage) :
  translateDataPart p = Ok (Some m) -> one_payload m.
Proof.
  intros H. destruct (translateDataPart_shape _ _ H) as [step ->].
  apply one_payload_chainOfThought.
Qed.

Lemma translateFilePart_payload (p : A2APart) (a : option A2AArtifact)
  (m : CarbonMessage) :
  translateFilePart p a = Some m -> one_payload m.
Proof.
  unfold translateFilePart. destruct (part_file p); [|discriminate].
  repeat case_if; intros [= <-]; apply one_payload_userDefined; auto.
Qed.

Lemma translateGenericDataPart_payload (p : A2APart) (m : CarbonMessage) :
  translateGenericDataPart p = Ok (Some m) -> one_payload m.
Proof.
  unfold translateGenericDataPart. case_if; [discriminate|].
  destruct (part_data p) as [| | | | |[|first rest]|];
    try (intros [= <-]; apply one_payload_userDefined; auto).
  case_if; [|intros [= <-]; apply one_payload_userDefined; auto].
  destruct (object_keys first); cbn [bind]; [|discriminate].
  intros [= <-]. apply one_payload_userDefined. auto.
Qed.

Lemma translatePart_payload (p : A2APart) (a : option A2AArtifact)
  (m : CarbonMessage) :
  translatePart JSON_parse p a = Ok (Some m) -> part_payload p m.
Proof.
  unfold translatePart.
  destruct (extractTrajectoryFromMetadata (part_metadata p)).
  { intros H. apply part_payload_one. exact (translateTrajectory_payload _ _ H). }
  destruct (truthy (part_content_type p)) eqn:Hct.
  { intros [= H]. revert H. apply part_payload_attach.
    intros m'. apply translateMetadataPart_payload. }
  case_if.
  { destruct (translateDataPart p) as [dm|] eqn:Hd; cbn [bind]; [|discriminate].
    intros [= H]. revert H. apply part_payload_attach.
    intros m' ->. apply part_payload_one.
    exact (translateDataPart_payload _ _ Hd). }
  destruct (String.eqb (part_kind p) "text") eqn:Hk.
  { intros [= <-]. destruct (part_text p) as [s|] eqn:Ht.
    - apply part_payload_one, one_payload_text.
    - split; [right; split; [exact Ht|apply textless_text]|].
      intros Hc. exfalso. apply Hc; [|exact Ht].
      unfold text_expected. rewrite Hk. reflexivity. }
  case_if.
  { intros [= H]. revert H. apply part_payload_attach.
    intros m' Hm. apply part_payload_one. exact (translateFilePart_payload _ _ _ Hm). }
  case_if; [|discriminate].
  destruct (translateGenericDataPart p) as [dm|] eqn:Hd; cbn [bind]; [|discriminate].
  intros [= H]. revert H. apply part_payload_attach.
  intros m' ->. apply part_payload_one.
  exact (translateGenericDataPart_payload _ _ Hd).
Qed.

Lemma translateStreamingPart_payload (p : A2APart) (md : option JSObject)
  (m : CarbonMessage) :
  translateStreamingPart JSON_parse p md = Ok (Some m) -> part_payload p m.
Proof.
  unfold translateStreamingPart.
  destruct (extractTrajectoryFromMetadata md).
  - intros H. apply part_payload_one. exact (translateTrajectory_payload _ _ H).
  - apply translatePart_payload.
Qed.

Lemma somes_Forall (P : CarbonMessage -> Prop) (a : A2AArtifact)
  (ps : list A2APart) (pms : list (option CarbonMessage)) :
  Forall2 (fun p pm => translatePart JSON_parse p (Some a) = Ok pm) ps pms ->
  (forall p m, In p ps -> translatePart JSON_parse p (Some a) = Ok (Some m) -> P m) ->
  Forall P (somes pms).
Proof.
  induction 1 as [|p pm ps pms Hp HF IH]; intros HP; simpl; [constructor|].
  assert (Hrest : Forall P (somes pms)).
  { apply IH. intros p' m Hin. apply HP. right. exact Hin. }
  destruct pm as [m|]; [|exact Hrest].
  constructor; [|exact Hrest]. apply (HP p m); [left; reflexivity|exact Hp].
Qed.

Lemma blocks_Forall (P : CarbonMessage -> Prop) (arts : list A2AArtifact)
  (blocks : list (list CarbonMessage)) :
  Forall2 (artifact_block JSON_parse) arts blocks ->
  (forall a tm, In a arts ->
     translateArtifactTrajectory JSON_parse a = Ok (Some tm) -> P tm) ->
  (forall a p m, In a arts -> In p (parts a) ->
     translatePart JSON_parse p (Some a) = Ok (Some m) -> P m) ->
  Forall P (concat blocks).
Proof.
  induction 1 as [|a block arts blocks Hb HF IH]; intros Ht Hp; simpl;
    [constructor|].
  apply Forall_app. split.
  - destruct Hb as (tm & pms & Htm & HFp & ->). apply Forall_app. split.
    + destruct tm as [m|]; constructor; [|constructor].
      apply (Ht a m); [left; reflexivity|exact Htm].
    + apply (somes_Forall P a (parts a) pms HFp).
      intros p m Hin. apply Hp; [left; reflexivity|exact Hin].
  - apply IH.
    + intros a' tm Hin. apply Ht. right. exact Hin.
    + intros a' p m Hin. apply Hp. right. exact Hin.
Qed.

Lemma translateArtifactTrajectory_payload (a : A2AArtifact) (m : CarbonMessage) :
  translateArtifactTrajectory JSON_parse a = Ok (Some m) -> one_payload m.
Proof.
  unfold translateArtifactTrajectory.
  destruct (extractTrajectoryFromMetadata _); [|discriminate].
  apply translateTrajectory_payload.
Qed.

(** C2, as the code has it. A message populates no payload field but the
    one of its response kind ([user_defined] for the [image] kind). Every
    message of a trajectory and of the static factories populates it; so
    does every message of a part, of a streamed part and of a task, except
    that a text part (or a part tagged [response]) without text yields a
    text message with no payload field at all. *)
Theorem payload_matches_response_type :
  (forall t m, translateTrajectory JSON_parse t = Ok (Some m) -> one_payload m) /\
  (forall p a m, translatePart JSON_parse p a = Ok (Some m) -> part_payload p m) /\
  (forall p md m,
     translateStreamingPart JSON_parse p md = Ok (Some m) -> part_payload p m) /\
  (forall task ms,
     translateTask JSON_parse task = Ok ms ->
     Forall (fun m => one_payload m \/ textless m) ms /\
     ((forall a p, In a (artifacts task) -> In p (parts a) -> text_complete p) ->
      Forall one_payload ms)) /\
  (forall toolName args description,
     one_payload (createToolCallMessage toolName args description)) /\
  (forall toolName result args error description,
     one_payload (createToolResultMessage toolName result args error description)) /\
  (forall content openState,
     one_payload (createReasoningMessage content openState)).
Proof.
  split; [exact translateTrajectory_payload|].
  split; [exact translatePart_payload|].
  split; [exact translateStreamingPart_payload|].
  split;
    [|split; [|split]]; intros;
    [|apply one_payload_chainOfThought|apply one_payload_chainOfThought
     |apply one_payload_reasoning].
  rename H into Hms. apply translateTask_blocks in Hms.
  destruct Hms as (blocks & HF & ->). split.
  - apply (blocks_Forall _ _ _ HF).
    + intros a tm _ Htm. left. exact (translateArtifactTrajectory_payload _ _ Htm).
    + intros a p m _ _ Hm. apply translatePart_payload in Hm.
      destruct Hm as [[H | [_ H]] _]; auto.
  - intros Hcomplete. apply (blocks_Forall _ _ _ HF).
    + intros a tm _ Htm. exact (translateArtifactTrajectory_payload _ _ Htm).
    + intros a p m Ha Hp Hm. apply translatePart_payload in Hm.
      destruct Hm as [_ H]. apply H. exact (Hcomplete a p Ha Hp).
Qed.

End PayloadProperties.

(** ** The part translators *)

Section PartProperties.

Variable JSON_parse : string -> option JSValue.

(** A non-empty array whose first element is an object or an array is a
    table: its columns are the keys of that element alone, its rows are the
    payload itself. *)
Lemma translateGenericDataPart_table (part : A2APart) (first : JSValue)
  (rest : list JSValue) :
  part_data part = JArr (first :: rest) ->
  is_object_item first = true ->
  exists columns,
    object_keys first = Ok columns /\
    (forall fields, first = JObj fields -> columns = map fst fields) /\
    translateGenericDataPart part =
    Ok (Some (dataTable columns (JArr (first :: rest)))).
Proof.
  intros Hd Hobj. unfold translateGenericDataPart. rewrite Hd. cbn [truthy negb].
  destruct first; try discriminate Hobj; cbn [typeof_object object_keys bind];
    eexists; (split; [reflexivity|]); (split; [|reflexivity]);
    intros fields' [=]; subst; reflexivity.
Qed.

(** Any other object or array is passed through as structured data,
    unless it is an array that starts with [null]. *)
Lemma translateGenericDataPart_structured (part : A2APart) :
  typeof_object (part_data part) = true ->
  nullish (part_data part) = false ->
  (forall first rest, part_data part = JArr (first :: rest) ->
     typeof_object first = false) ->
  translateGenericDataPart part = Ok (Some (structuredData (part_data part))).
Proof.
  intros Hobj Hnn Hfirst. unfold translateGenericDataPart.
  destruct (part_data part) as [| | | | |[|first rest]|] eqn:Hd;
    try discriminate; try reflexivity.
  cbn [truthy negb]. rewrite (Hfirst first rest eq_refl). reflexivity.
Qed.

Example translateGenericDataPart_two_rows :
  translateGenericDataPart
    {| part_kind := "data"; part_text := None; part_file := None;
       part_data := two_rows; part_metadata := None |} =
  Ok (Some (dataTable ["a"; "b"] two_rows)).
Proof. reflexivity. Qed.

(** C6, where the code departs from it. An array payload whose first
    element is [null] is neither tabulated nor passed through: the test
    [typeof data[0] === 'object'] holds of [null], [Object.keys(null)]
    throws, and the error leaves [translateTask]. *)
Theorem data_table_null_first_row :
  translateGenericDataPart null_row_part =
  Throw (TypeError "Cannot convert undefined or null to object") /\
  (forall a id st hist,
     parts a = [null_row_part] -> art_metadata a = None ->
     translateTask JSON_parse
       {| task_id := id; task_state := st; artifacts := [a]; history := hist |} =
     Throw (TypeError "Cannot convert undefined or null to object")).
Proof.
  split; [reflexivity|].
  intros a id st hist Hp Hm. unfold translateTask.
  cbn [artifacts translateArtifacts]. unfold translateArtifactTrajectory.
  rewrite Hm, Hp. reflexivity.
Qed.

(** C7. A file part whose MIME type starts with [image/] becomes an image
    message, whatever its name; otherwise a name that holds [chart] or
    [graph], as written, makes it a chart message; otherwise it becomes a
    file attachment whose size is the length of the base64 payload, or is
    absent when there is no payload. [translatePart] hands a plain file part
    to this translation. *)
Theorem file_part_kinds :
  (forall part artifact f,
     part_file part = Some f ->
     (startsWith (mimeType f) "image/" = true ->
      translateFilePart part artifact =
      Some (userDefinedMessage "image"
              [ ("type", JStr "image"); ("url", fileUrl f);
                ("alt", of_option_string (name f));
                ("caption", of_option_string (artifact ≫= art_description)) ])) /\
     (startsWith (mimeType f) "image/" = false ->
      (nameIncludes f "chart" || nameIncludes f "graph")%bool = true ->
      translateFilePart part artifact =
      Some (userDefinedMessage "user_defined"
              [ ("type", JStr "chart"); ("imageUrl", fileUrl f);
                ("title", of_option_string (artifact ≫= art_name));
                ("description", of_option_string (artifact ≫= art_description)) ])) /\
     (startsWith (mimeType f) "image/" = false ->
      (nameIncludes f "chart" || nameIncludes f "graph")%bool = false ->
      translateFilePart part artifact =
      Some (userDefinedMessage "user_defined"
              [ ("type", JStr "file_attachment");
                ("fileName", of_option_string (name f));
                ("mimeType", JStr (mimeType f));
                ("downloadUrl", of_option_string (uri f));
                ("size", match bytes f with
                         | Some b => JNum (Z.of_nat (String.length b))
                         | None => JUndefined
                         end) ]))) /\
  (forall part artifact,
     part_metadata part = None -> part_kind part = "file" ->
     translatePart JSON_parse part artifact =
     Ok (attachMetadata (translateFilePart part artifact)
           (artifact ≫= art_metadata))) /\
  (forall n, nameIncludes {| name := Some n; mimeType := "application/pdf";
                             bytes := None; uri := None |} "chart"
             = includes n "chart") /\
  includes "Sales Chart.pdf" "chart" = false.
Proof.
  split; [|split; [|split; [|reflexivity]]].
  - intros part artifact f Hf. unfold translateFilePart. rewrite Hf.
    repeat split.
    + intros ->. reflexivity.
    + intros -> ->. reflexivity.
    + intros -> ->. reflexivity.
  - intros part artifact Hm Hk. unfold translatePart, part_content_type.
    rewrite Hm, Hk. reflexivity.
  - intros n. reflexivity.
Qed.

(** C9, as the code has it. A part of no recognized kind is dropped, not
    refused: the translators return [null] for a part whose metadata
    [content_type] is none of [thinking], [response], [status], for a data
    part whose [type] is neither [tool_call] nor [tool_result], and for a
    part of a kind other than [text], [file], [data]. A trajectory with
    neither title nor content yields no message, from [translateTrajectory],
    from a streamed part and from the batch translator. A trajectory whose
    resolved content type is not recognized is dropped when it has no
    content, and becomes a reasoning step when it has one. None of these
    throws. *)
Theorem unknown_fragments_dropped :
  (forall part,
     metadata_kind_recognized (part_content_type part) = false ->
     translateMetadataPart part = None) /\
  (forall part,
     data_kind_recognized (js_get (part_data part) "type") = false ->
     translateDataPart part = Ok None) /\
  (forall part artifact,
     extractTrajectoryFromMetadata (part_metadata part) = None ->
     truthy (part_content_type part) = true ->
     metadata_kind_recognized (part_content_type part) = false ->
     translatePart JSON_parse part artifact = Ok None) /\
  (forall part artifact,
     extractTrajectoryFromMetadata (part_metadata part) = None ->
     truthy (part_content_type part) = false ->
     part_kind part = "data" ->
     truthy (js_get (part_data part) "type") = true ->
     data_kind_recognized (js_get (part_data part) "type") = false ->
     translatePart JSON_parse part artifact = Ok None) /\
  (forall part artifact,
     extractTrajectoryFromMetadata (part_metadata part) = None ->
     truthy (part_content_type part) = false ->
     part_kind_recognized (part_kind part) = false ->
     translatePart JSON_parse part artifact = Ok None) /\
  (forall t,
     nonempty_trajectory t = false -> translateTrajectory JSON_parse t = Ok None) /\
  (forall t part md,
     extractTrajectoryFromMetadata md = Some t ->
     nonempty_trajectory t = false ->
     translateStreamingPart JSON_parse part md = Ok None) /\
  (forall t a id st hist,
     extractTrajectoryFromMetadata (art_metadata a) = Some t ->
     nonempty_trajectory t = false ->
     parts a = [] ->
     translateTask JSON_parse
       {| task_id := id; task_state := st; artifacts := [a]; history := hist |} =
     Ok []) /\
  (forall t contentType,
     nonempty_trajectory t = true ->
     contentTypeOf JSON_parse t = Ok contentType ->
     trajectory_kind_recognized contentType = false ->
     exists m,
       createReasoningFromTrajectory t = Ok m /\
       translateTrajectory JSON_parse t =
       Ok (if truthy (trajectory_content t) then Some m else None)).
Proof.
  assert (Hempty : forall t, nonempty_trajectory t = false ->
                             translateTrajectory JSON_parse t = Ok None).
  { intros t. unfold nonempty_trajectory, translateTrajectory.
    destruct (truthy (trajectory_title t)), (truthy (trajectory_content t));
      try discriminate; reflexivity. }
  assert (Hmeta : forall part,
     metadata_kind_recognized (part_content_type part) = false ->
     translateMetadataPart part = None).
  { intros part. unfold metadata_kind_recognized, translateMetadataPart.
    destruct (strict_eq_str _ CONTENT_TYPES.THINKING),
      (strict_eq_str _ CONTENT_TYPES.RESPONSE),
      (strict_eq_str _ CONTENT_TYPES.STATUS); try discriminate; reflexivity. }
  assert (Hdata : forall part,
     data_kind_recognized (js_get (part_data part) "type") = false ->
     translateDataPart part = Ok None).
  { intros part. unfold data_kind_recognized, translateDataPart.
    destruct (strict_eq_str _ "tool_call"), (strict_eq_str _ "tool_result");
      try discriminate; reflexivity. }
  repeat split.
  - exact Hmeta.
  - exact Hdata.
  - intros part artifact Hx Ht Hr. unfold translatePart.
    rewrite Hx, Ht, (Hmeta part Hr). reflexivity.
  - intros part artifact Hx Ht Hk Hty Hr. unfold translatePart.
    rewrite Hx, Ht, Hk, Hty, (Hdata part Hr). reflexivity.
  - intros part artifact Hx Ht Hk. unfold translatePart, part_kind_recognized in *.
    rewrite Hx, Ht.
    destruct (String.eqb (part_kind part) "text"),
      (String.eqb (part_kind part) "file"),
      (String.eqb (part_kind part) "data"); try discriminate; reflexivity.
  - exact Hempty.
  - intros t part md Hx Hne. unfold translateStreamingPart.
    rewrite Hx. exact (Hempty t Hne).
  - intros t a id st hist Hx Hne Hp. unfold translateTask.
    cbn [artifacts translateArtifacts]. unfold translateArtifactTrajectory.
    rewrite Hx, (Hempty t Hne), Hp. reflexivity.
  - intros t contentType Hne Hct Hr.
    rewrite (translateTrajectory_route JSON_parse t Hne).
    unfold contentTypeOf in Hct.
    destruct (inferContentTypeFromTitle _) as [inferred|] eqn:Hinf;
      cbn [bind] in *; [|discriminate].
    destruct (parseTrajectoryContent _ _) as [parsed|] eqn:Hparse;
      cbn [bind] in *; [|discriminate].
    destruct (createReasoning_total JSON_parse t inferred parsed Hinf Hparse)
      as [m Hm].
    exists m. split; [exact Hm|].
    injection Hct as ->. unfold routeTrajectory.
    unfold trajectory_kind_recognized in Hr.
    destruct (strict_eq_str contentType CONTENT_TYPES.TOOL_CALL),
      (strict_eq_str contentType CONTENT_TYPES.TOOL_RESULT),
      (strict_eq_str contentType CONTENT_TYPES.THINKING),
      (strict_eq_str contentType CONTENT_TYPES.STATUS); try discriminate Hr.
    rewrite Hm. destruct (truthy (trajectory_content t)); reflexivity.
Qed.

End PartProperties.

(** ** The metadata extractors *)

Lemma filter_object_items (items : list JSValue) :
  Forall (fun i => is_object_item i = true) items ->
  List.filter is_object_item items = items.
Proof.
  induction 1 as [|i items Hi _ IH]; simpl; [reflexivity|].
  rewrite Hi, IH. reflexivity.
Qed.

Lemma filter_object_items_Forall (items : list JSValue) :
  Forall (fun i => is_object_item i = true) (List.filter is_object_item items).
Proof.
  induction items as [|i items IH]; simpl; [constructor|].
  destruct (is_object_item i) eqn:Hi; [constructor; assumption|exact IH].
Qed.

Lemma lookup_key_absent (k : string) (md : JSObject) :
  assoc k md = None -> lookup_key k md = JUndefined.
Proof. unfold lookup_key. intros ->. reflexivity. Qed.

(** C8, as the code has it. The citation extractor takes a bare object, an
    array, or a wrapper whose [citations] is an array, and returns in each
    case a list of objects: the object alone, or the objects of the array.
    The trajectory extractor returns the value found under its URI as it
    is, whenever that value is an object or an array, and unwraps nothing.
    Both return an empty result (the empty list, [null]) when the map or the
    key is absent, and when the value is neither an object nor an array;
    neither has an operation that can throw. *)
Theorem extension_extractors :
  extractCitations None = [] /\
  (forall md, assoc AGENTSTACK_EXTENSION_URIS.CITATION md = None ->
     extractCitations (Some md) = []) /\
  (forall md o,
     lookup_key AGENTSTACK_EXTENSION_URIS.CITATION md = JObj o ->
     (forall items, lookup_key "citations" o <> JArr items) ->
     extractCitations (Some md) = [JObj o]) /\
  (forall md items,
     lookup_key AGENTSTACK_EXTENSION_URIS.CITATION md = JArr items ->
     extractCitations (Some md) = List.filter is_object_item items) /\
  (forall md o items,
     lookup_key AGENTSTACK_EXTENSION_URIS.CITATION md = JObj o ->
     lookup_key "citations" o = JArr items ->
     extractCitations (Some md) = List.filter is_object_item items) /\
  (forall items, Forall (fun i => is_object_item i = true) items ->
     List.filter is_object_item items = items) /\
  (forall md, Forall (fun c => is_object_item c = true) (extractCitations md)) /\
  (forall md,
     is_object_item (lookup_key AGENTSTACK_EXTENSION_URIS.CITATION md) = false ->
     extractCitations (Some md) = []) /\
  extractTrajectoryFromMetadata None = None /\
  (forall md, assoc AGENTSTACK_EXTENSION_URIS.TRAJECTORY md = None ->
     extractTrajectoryFromMetadata (Some md) = None) /\
  (forall md,
     is_object_item (lookup_key AGENTSTACK_EXTENSION_URIS.TRAJECTORY md) = true ->
     extractTrajectoryFromMetadata (Some md) =
     Some (lookup_key AGENTSTACK_EXTENSION_URIS.TRAJECTORY md)) /\
  (forall md,
     is_object_item (lookup_key AGENTSTACK_EXTENSION_URIS.TRAJECTORY md) = false ->
     extractTrajectoryFromMetadata (Some md) = None).
Proof.
  split; [reflexivity|].
  split; [intros md H; unfold extractCitations;
          rewrite (lookup_key_absent _ _ H); reflexivity|].
  split.
  { intros md o Ho Hw. unfold extractCitations. rewrite Ho. cbn [truthy negb].
    destruct (lookup_key "citations" o) eqn:E; try reflexivity.
    exfalso. exact (Hw _ eq_refl). }
  split; [intros md items H; unfold extractCitations; rewrite H; reflexivity|].
  split; [intros md o items Ho Hw; unfold extractCitations; rewrite Ho;
          cbn [truthy negb]; rewrite Hw; reflexivity|].
  split; [exact filter_object_items|].
  split.
  { intros [md|]; [|constructor]. unfold extractCitations.
    destruct (lookup_key AGENTSTACK_EXTENSION_URIS.CITATION md)
      as [| | | | |items|o]; cbn [truthy negb]; try case_if; try constructor.
    - apply filter_object_items_Forall.
    - destruct (lookup_key "citations" o);
        try (constructor; [reflexivity|constructor]).
      apply filter_object_items_Forall. }
  split.
  { intros md H. unfold extractCitations.
    destruct (lookup_key AGENTSTACK_EXTENSION_URIS.CITATION md)
      as [| |b|n|s|items|o]; try discriminate H; try reflexivity;
      cbn [truthy negb]; case_if; reflexivity. }
  split; [reflexivity|].
  split; [intros md H; unfold extractTrajectoryFromMetadata;
          rewrite (lookup_key_absent _ _ H); reflexivity|].
  split; intros md H; unfold extractTrajectoryFromMetadata;
    destruct (lookup_key AGENTSTACK_EXTENSION_URIS.TRAJECTORY md);
    try discriminate H; cbn [typeof_object]; rewrite ?andb_false_r;
    reflexivity.
Qed.

(** ** The streaming accumulator *)

Section AccumulatorProperties.

Import Accumulator.

Lemma with_status_id (s : ChainOfThoughtStep) :
  with_status s (status s) = s.
Proof. destruct s. reflexivity. Qed.

Lemma feed_appends (st : State) (c : Chunk) :
  (exists later, closed (feed st c) = closed st ++ later) /\
  (exists later, emitted (feed st c) = emitted st ++ later).
Proof.
  unfold feed. destruct (in_progress st !! chunk_key c);
    destruct (terminal (status (chunk_step c))); cbn [closed emitted];
    split; eauto; exists []; rewrite app_nil_r; reflexivity.
Qed.

Lemma feed_all_appends (cs : list Chunk) :
  forall st,
    (exists later, closed (feed_all st cs) = closed st ++ later) /\
    (exists later, emitted (feed_all st cs) = emitted st ++ later).
Proof.
  induction cs as [|c cs IH]; intros st; cbn [feed_all fold_left].
  - split; exists []; rewrite app_nil_r; reflexivity.
  - destruct (IH (feed st c)) as [[l1 H1] [l2 H2]].
    destruct (feed_appends st c) as [[l3 H3] [l4 H4]].
    unfold feed_all in *. rewrite H1, H2, H3, H4, <- !app_assoc. eauto.
Qed.

Lemma feed_opens (k : CorrelationKey) (s1 : ChainOfThoughtStep) :
  status s1 = PROCESSING ->
  feed initial {| chunk_key := k; chunk_step := s1 |} =
  {| in_progress := <[k := s1]> ∅; closed := []; emitted := [Opened k s1] |}.
Proof.
  intros H1. unfold feed.
  cbn [chunk_key chunk_step initial in_progress closed emitted].
  rewrite lookup_empty, H1. cbn [terminal app].
  rewrite <- H1, with_status_id. reflexivity.
Qed.

Lemma feed_closes (k : CorrelationKey) (s1 s2 : ChainOfThoughtStep) :
  status s2 = SUCCESS ->
  feed {| in_progress := <[k := s1]> ∅; closed := []; emitted := [Opened k s1] |}
       {| chunk_key := k; chunk_step := s2 |} =
  {| in_progress := ∅;
     closed := [ (k, with_status (merge s1 s2) SUCCESS) ];
     emitted := [ Opened k s1; Finalized k (with_status (merge s1 s2) SUCCESS) ] |}.
Proof.
  intros H2. unfold feed.
  cbn [chunk_key chunk_step in_progress closed emitted].
  rewrite lookup_insert_eq, H2. cbn [terminal app].
  rewrite delete_insert_eq, delete_empty. reflexivity.
Qed.

(** C10. On the accumulator of the specification: two chunks with one
    correlation key, the first in progress and the second successful, yield
    one opened delta followed by one finalized delta, and one step; a step
    that has reached a terminal state is never changed by later chunks, and
    its key has no in-progress step any more, so that a further chunk for
    the key opens a new step. *)
Theorem accumulator_open_then_finalize :
  (forall k s1 s2,
     status s1 = PROCESSING -> status s2 = SUCCESS ->
     let st :=
       feed_all initial
         [ {| chunk_key := k; chunk_step := s1 |};
           {| chunk_key := k; chunk_step := s2 |} ] in
     emitted st = [ Opened k s1; Finalized k (with_status (merge s1 s2) SUCCESS) ] /\
     closed st = [ (k, with_status (merge s1 s2) SUCCESS) ] /\
     in_progress st = ∅) /\
  (forall st cs, exists later, closed (feed_all st cs) = closed st ++ later) /\
  (forall st cs, exists later, emitted (feed_all st cs) = emitted st ++ later) /\
  (forall st c,
     terminal (status (chunk_step c)) = true ->
     in_progress (feed st c) !! chunk_key c = None) /\
  (forall st c,
     in_progress st !! chunk_key c = None ->
     exists later,
       emitted (feed st c) =
       emitted st ++ Opened (chunk_key c) (with_status (chunk_step c) PROCESSING)
                       :: later).
Proof.
  split; [|split; [|split; [|split]]].
  - intros k s1 s2 H1 H2 st.
    assert (Hst : st = {| in_progress := ∅;
                          closed := [ (k, with_status (merge s1 s2) SUCCESS) ];
                          emitted := [ Opened k s1;
                                       Finalized k (with_status (merge s1 s2) SUCCESS) ] |}).
    { subst st. cbn [feed_all fold_left].
      rewrite (feed_opens k s1 H1), (feed_closes k s1 s2 H2). reflexivity. }
    rewrite Hst. auto.
  - intros st cs. apply feed_all_appends.
  - intros st cs. apply feed_all_appends.
  - intros st c Ht. unfold feed.
    destruct (in_progress st !! chunk_key c) eqn:E; rewrite Ht;
      cbn [in_progress]; [apply lookup_delete_eq|exact E].
  - intros st c E. unfold feed. rewrite E.
    destruct (terminal (status (chunk_step c))); cbn [emitted]; eauto.
Qed.

End AccumulatorProperties.

(** * The properties on sample inputs *)

Lemma classification_precedence_witness :
  well_typed_trajectory tagged_result_trajectory = true /\
  contentTypeOf JSON_parse_fragment tagged_result_trajectory =
  Ok (JStr "tool_result").
Proof.
  split; [reflexivity|].
  exact (proj1 (proj2 (classification_precedence JSON_parse_fragment
                         tagged_result_trajectory eq_refl))
           "tool_result" eq_refl ltac:(discriminate)).
Defined.

(** The tagged trajectory holds a tool call in its JSON and is translated
    as a tool result all the same. *)
Example tagged_result_translation :
  (exists r, parseTrajectoryContent JSON_parse_fragment
               (trajectory_content tagged_result_trajectory) = Ok r
             /\ pc_type r = "tool_call") /\
  translateTrajectory JSON_parse_fragment tagged_result_trajectory =
  Ok (Some (chainOfThoughtMessage {|
    title := JStr "fetch completed";
    tool_name := JStr "fetch";
    description := JStr "Ran it  done";
    request := None;
    response := None;
    status := SUCCESS |})).
Proof. split; [eexists; split; reflexivity|reflexivity]. Qed.

(** C2 as stated fails on a text part without text: its message has the
    text kind and no payload field. *)
Lemma text_part_without_text :
  translateTask JSON_parse_fragment textless_task = Ok [textMessage None None] /\
  populated (textMessage None None) = [] /\
  ~ one_payload (textMessage None None).
Proof.
  split; [reflexivity|]. split; [reflexivity|].
  intros (f & _ & H). discriminate H.
Qed.

Lemma payload_matches_response_type_witness :
  translateTask JSON_parse_fragment two_artifact_task =
  Ok [ thinking_message; textMessage (Some "Hello") (Some bare_metadata);
       photo_message ] /\
  Forall one_payload
    [ thinking_message; textMessage (Some "Hello") (Some bare_metadata);
      photo_message ].
Proof.
  split; [reflexivity|].
  refine (proj2 (proj1 (proj2 (proj2 (proj2
            (payload_matches_response_type JSON_parse_fragment))))
            two_artifact_task _ eq_refl) _).
  intros a p [<- | [<- | []]] [<- | []] H; [discriminate|discriminate H].
Defined.

Lemma translateTask_order_witness :
  translateTask JSON_parse_fragment two_artifact_task =
  Ok [ thinking_message; textMessage (Some "Hello") (Some bare_metadata);
       photo_message ].
Proof.
  exact (proj2 (translateTask_order JSON_parse_fragment)
           thinking_record thinking_message "Hello" photo_file
           "task" "completed" [] eq_refl eq_refl eq_refl).
Defined.

(** C4 as stated fails on a title that says [FAILED] in capitals: the step
    is in error although the parsed status is not [error], the content
    holds no [error] and the title does not hold [failed] as written. *)
Lemma title_failed_in_capitals :
  translateTrajectory JSON_parse_fragment failed_capitals_trajectory =
  Ok (Some (chainOfThoughtMessage {|
    title := JStr "Lookup FAILED";
    tool_name := JStr "tool";
    description := JUndefined;
    request := None;
    response := None;
    status := ERROR |})) /\
  parseTrajectoryContent JSON_parse_fragment
    (trajectory_content failed_capitals_trajectory) = Ok (parsedOfType "text") /\
  error_signal_exact_title failed_capitals_trajectory (parsedOfType "text") = false.
Proof. repeat split. Qed.

Lemma tool_result_error_detection_witness :
  exists step,
    translateTrajectory JSON_parse_fragment
      (JObj [("title", JStr "search_web Result");
             ("content", JStr "Network Error: timeout")]) =
    Ok (Some (chainOfThoughtMessage step)) /\
    status step = ERROR.
Proof.
  exact (proj2 (proj2 (proj2 (proj2
           (tool_result_error_detection JSON_parse_fragment))))
           "Network Error: timeout" eq_refl).
Defined.

Lemma tool_call_name_priority_witness :
  well_typed_trajectory calling_trajectory = true /\
  exists step,
    createToolCallFromTrajectory calling_trajectory (parsedOfType "text") =
    Ok (chainOfThoughtMessage step) /\
    tool_name step = JStr "search_web".
Proof.
  split; [reflexivity|].
  destruct (proj1 (proj2 (tool_call_name_priority JSON_parse_fragment))
              calling_trajectory (parsedOfType "text") eq_refl
              (or_introl eq_refl))
    as (step & Hc).
  destruct (proj1 (tool_call_name_priority JSON_parse_fragment)
              calling_trajectory (parsedOfType "text") _ Hc)
    as (step' & Heq & _ & _ & Hn & _).
  exists step'. split; [rewrite Hc, Heq; reflexivity|].
  exact (Hn eq_refl "Calling search_web" "search_web" eq_refl eq_refl).
Defined.

Lemma data_table_null_first_row_witness :
  translateTask JSON_parse_fragment
    (task_of [artifact_of "only" [null_row_part] None]) =
  Throw (TypeError "Cannot convert undefined or null to object").
Proof.
  exact (proj2 (data_table_null_first_row JSON_parse_fragment)
           (artifact_of "only" [null_row_part] None) "task" "completed" []
           eq_refl eq_refl).
Defined.

Lemma file_part_kinds_witness :
  part_file photo_part = Some photo_file /\
  startsWith (mimeType photo_file) "image/" = true /\
  translateFilePart photo_part None = Some photo_message.
Proof.
  split; [reflexivity|]. split; [reflexivity|].
  exact (proj1 (proj1 (file_part_kinds JSON_parse_fragment)
                  photo_part None photo_file eq_refl) eq_refl).
Defined.

(** C8 as stated fails on the trajectory extension: a record inside an
    array is handed on as the array, which has no title and no content and
    is dropped, where the bare record is translated. *)
Lemma trajectory_array_not_normalized :
  extractTrajectoryFromMetadata (Some bare_metadata) = Some thinking_record /\
  extractTrajectoryFromMetadata (Some array_metadata) =
  Some (JArr [thinking_record]) /\
  translateTrajectory JSON_parse_fragment thinking_record =
  Ok (Some thinking_message) /\
  translateTrajectory JSON_parse_fragment (JArr [thinking_record]) = Ok None.
Proof. repeat split. Qed.

Lemma extension_extractors_witness :
  extractCitations
    (Some [(AGENTSTACK_EXTENSION_URIS.CITATION, JArr [citation_record])]) =
  [citation_record] /\
  extractCitations
    (Some [(AGENTSTACK_EXTENSION_URIS.CITATION,
            JObj [("citations", JArr [citation_record])])]) =
  [citation_record] /\
  extractCitations
    (Some [(AGENTSTACK_EXTENSION_URIS.CITATION, citation_record)]) =
  [citation_record] /\
  extractCitations
    (Some [(AGENTSTACK_EXTENSION_URIS.CITATION, JStr "see the references")]) =
  [].
Proof.
  pose proof extension_extractors
    as (_ & _ & Hbare & Harray & Hwrapper & _ & _ & Hother & _).
  split;
    [exact (Harray [(AGENTSTACK_EXTENSION_URIS.CITATION, JArr [citation_record])]
              [citation_record] eq_refl)|].
  split;
    [exact (Hwrapper
              [(AGENTSTACK_EXTENSION_URIS.CITATION,
                JObj [("citations", JArr [citation_record])])]
              [("citations", JArr [citation_record])] [citation_record]
              eq_refl eq_refl)|].
  split;
    [|exact (Hother [(AGENTSTACK_EXTENSION_URIS.CITATION,
                      JStr "see the references")] eq_refl)].
  apply (Hbare [(AGENTSTACK_EXTENSION_URIS.CITATION, citation_record)]
           [("title", JStr "Doc")] eq_refl).
  intros items H. discriminate H.
Defined.

(** C9 as stated fails on a trajectory whose tag is not recognized and
    which has a content: it is not dropped, it becomes a reasoning step. *)
Lemma unrecognized_tag_with_content :
  contentTypeOf JSON_parse_fragment video_trajectory = Ok (JStr "video") /\
  trajectory_kind_recognized (JStr "video") = false /\
  translateTrajectory JSON_parse_fragment video_trajectory =
  Ok (Some (reasoningMessage (JStr "hello") CLOSED)).
Proof. repeat split. Qed.

Lemma unknown_fragments_dropped_witness :
  nonempty_trajectory (JObj [("group_id", JStr "g1")]) = false /\
  translateTrajectory JSON_parse_fragment (JObj [("group_id", JStr "g1")]) = Ok None.
Proof.
  split; [reflexivity|].
  exact (proj1 (proj2 (proj2 (proj2 (proj2 (proj2
           (unknown_fragments_dropped JSON_parse_fragment))))))
           (JObj [("group_id", JStr "g1")]) eq_refl).
Defined.

Lemma accumulator_open_then_finalize_witness :
  Accumulator.emitted
    (Accumulator.feed_all Accumulator.initial
       [ {| Accumulator.chunk_key := sample_key;
            Accumulator.chunk_step := processing_step |};
         {| Accumulator.chunk_key := sample_key;
            Accumulator.chunk_step := success_step |} ]) =
  [ Accumulator.Opened sample_key processing_step;
    Accumulator.Finalized sample_key
      (Accumulator.with_status (Accumulator.merge processing_step success_step)
         SUCCESS) ].
Proof.
  exact (proj1 (proj1 accumulator_open_then_finalize sample_key processing_step
                  success_step eq_refl eq_refl)).
Defined.

(** * Further properties of the translator *)

Section TranslatorExtras.

Variable JSON_parse : string -> option JSValue.

Lemma translatePart_plain_text (p : A2APart) (a : option A2AArtifact) :
  plain_text_part p = true ->
  translatePart JSON_parse p a =
  Ok (Some (textMessage (part_text p) (a ≫= art_metadata))).
Proof.
  unfold plain_text_part, translatePart. intros H.
  apply andb_prop in H. destruct H as [H Hx].
  apply andb_prop in H. destruct H as [Hk Hc].
  destruct (extractTrajectoryFromMetadata (part_metadata p)); [discriminate|].
  apply negb_true_iff in Hc. rewrite Hc.
  apply String.eqb_eq in Hk. rewrite Hk. reflexivity.
Qed.

Lemma translateParts_plain_text (a : A2AArtifact) (ps : list A2APart) :
  forallb plain_text_part ps = true ->
  forall acc,
    translateParts JSON_parse ps a acc =
    Ok (acc ++ map (fun p => textMessage (part_text p) (art_metadata a)) ps).
Proof.
  induction ps as [|p ps IH]; intros H acc; cbn [translateParts map].
  - rewrite app_nil_r. reflexivity.
  - cbn [forallb] in H. apply andb_prop in H. destruct H as [Hp Hps].
    rewrite (translatePart_plain_text p (Some a) Hp). cbn [bind push].
    rewrite (IH Hps). rewrite <- app_assoc. reflexivity.
Qed.

(** X1. A task made of plain text parts is translated to exactly the texts
    of its parts, one text message per part, in artifact and part order;
    each message carries the text of its part unchanged and the metadata of
    its artifact. *)
Theorem translateTask_plain_text (task : A2ATask) :
  forallb plain_text_artifact (artifacts task) = true ->
  translateTask JSON_parse task =
  Ok (concat (map text_messages (artifacts task))).
Proof.
  unfold translateTask.
  assert (H : forall arts acc,
     forallb plain_text_artifact arts = true ->
     translateArtifacts JSON_parse arts acc =
     Ok (acc ++ concat (map text_messages arts))).
  { induction arts as [|a arts IH]; intros acc Hall;
      cbn [translateArtifacts map concat].
    - rewrite app_nil_r. reflexivity.
    - cbn [forallb] in Hall. apply andb_prop in Hall. destruct Hall as [Ha Hrest].
      unfold plain_text_artifact in Ha. apply andb_prop in Ha.
      destruct Ha as [Hps Hx]. unfold translateArtifactTrajectory.
      destruct (extractTrajectoryFromMetadata (art_metadata a)); [discriminate|].
      cbn [bind push]. rewrite (translateParts_plain_text a (parts a) Hps).
      cbn [bind]. rewrite (IH _ Hrest). unfold text_messages at 2.
      rewrite <- app_assoc. reflexivity. }
  intros Hall. exact (H _ [] Hall).
Qed.

Lemma createToolCall_metadata (t : TrajectoryData) (parsed : ParsedContent)
  (m : CarbonMessage) :
  createToolCallFromTrajectory t parsed = Ok m -> metadata m = None.
Proof.
  intros H. destruct (createToolCall_inv _ _ _ H) as (step & s & -> & _).
  reflexivity.
Qed.

Lemma createToolResult_metadata (t : TrajectoryData) (parsed : ParsedContent)
  (m : CarbonMessage) :
  createToolResultFromTrajectory t parsed = Ok m -> metadata m = None.
Proof.
  intros H. destruct (createToolResult_inv _ _ _ H) as (step & b & -> & _).
  reflexivity.
Qed.

Lemma translateTrajectory_metadata (t : TrajectoryData) (m : CarbonMessage) :
  translateTrajectory JSON_parse t = Ok (Some m) -> metadata m = None.
Proof.
  unfold translateTrajectory. case_if; [discriminate|].
  destruct (inferContentTypeFromTitle _); cbn [bind]; [|discriminate].
  destruct (parseTrajectoryContent _ _); cbn [bind]; [|discriminate].
  unfold routeTrajectory. repeat case_if.
  - destruct (createToolCallFromTrajectory _ _) eqn:E; cbn [bind]; [|discriminate].
    intros [= <-]. exact (createToolCall_metadata _ _ _ E).
  - destruct (createToolResultFromTrajectory _ _) eqn:E; cbn [bind];
      [|discriminate].
    intros [= <-]. exact (createToolResult_metadata _ _ _ E).
  - destruct (createReasoningFromTrajectory _) eqn:E; cbn [bind];
      [|discriminate].
    intros [= <-]. destruct (createReasoning_shape _ _ E) as [c ->].
    reflexivity.
  - intros [= <-]. reflexivity.
  - destruct (createReasoningFromTrajectory _) eqn:E; cbn [bind];
      [|discriminate].
    intros [= <-]. destruct (createReasoning_shape _ _ E) as [c ->].
    reflexivity.
  - discriminate.
Qed.

Lemma attachMetadata_metadata (o : option CarbonMessage) (ext : option JSObject)
  (m : CarbonMessage) :
  metadata_free o -> attachMetadata o ext = Some m -> metadata m = ext.
Proof.
  intros Hfree. unfold attachMetadata.
  destruct o as [m'|]; [|destruct ext; discriminate].
  specialize (Hfree m' eq_refl).
  destruct ext; intros [= <-]; [reflexivity|exact Hfree].
Qed.

Lemma translateMetadataPart_free (p : A2APart) :
  metadata_free (translateMetadataPart p).
Proof.
  unfold translateMetadataPart. intros m.
  repeat case_if; try discriminate; intros [= <-]; reflexivity.
Qed.

Lemma translateDataPart_free (p : A2APart) (o : option CarbonMessage) :
  translateDataPart p = Ok o -> metadata_free o.
Proof.
  intros H m ->. destruct (translateDataPart_shape _ _ H) as [step ->].
  reflexivity.
Qed.

Lemma translateFilePart_free (p : A2APart) (a : option A2AArtifact) :
  metadata_free (translateFilePart p a).
Proof.
  unfold translateFilePart. intros m. destruct (part_file p); [|discriminate].
  repeat case_if; intros [= <-]; reflexivity.
Qed.

Lemma translateGenericDataPart_free (p : A2APart) (o : option CarbonMessage) :
  translateGenericDataPart p = Ok o -> metadata_free o.
Proof.
  unfold translateGenericDataPart. case_if; [intros [= <-] m; discriminate|].
  destruct (part_data p) as [| | | | |[|first rest]|];
    try (intros [= <-] m [= <-]; reflexivity).
  case_if; [|intros [= <-] m [= <-]; reflexivity].
  destruct (object_keys first); cbn [bind]; [|discriminate].
  intros [= <-] m [= <-]. reflexivity.
Qed.

Lemma translatePart_metadata_plain (p : A2APart) (a : option A2AArtifact)
  (m : CarbonMessage) :
  extractTrajectoryFromMetadata (part_metadata p) = None ->
  translatePart JSON_parse p a = Ok (Some m) ->
  metadata m = a ≫= art_metadata.
Proof.
  unfold translatePart. intros ->.
  case_if.
  { intros [= H]. revert H. apply attachMetadata_metadata,
      translateMetadataPart_free. }
  case_if.
  { destruct (translateDataPart p) as [dm|] eqn:Hd; cbn [bind]; [|discriminate].
    intros [= H]. revert H. apply attachMetadata_metadata.
    exact (translateDataPart_free _ _ Hd). }
  case_if; [intros [= <-]; reflexivity|].
  case_if.
  { intros [= H]. revert H. apply attachMetadata_metadata,
      translateFilePart_free. }
  case_if; [|discriminate].
  destruct (translateGenericDataPart p) as [dm|] eqn:Hd; cbn [bind]; [|discriminate].
  intros [= H]. revert H. apply attachMetadata_metadata.
  exact (translateGenericDataPart_free _ _ Hd).
Qed.

(** X2. The metadata of a translated part: a message read from a trajectory
    in the part's own metadata carries no metadata; every other message of a
    part carries exactly the metadata of its artifact (none without an
    artifact or without artifact metadata). *)
Theorem translatePart_metadata (p : A2APart) (a : option A2AArtifact)
  (m : CarbonMessage) :
  translatePart JSON_parse p a = Ok (Some m) ->
  metadata m =
  match extractTrajectoryFromMetadata (part_metadata p) with
  | Some _ => None
  | None => a ≫= art_metadata
  end.
Proof.
  destruct (extractTrajectoryFromMetadata (part_metadata p)) as [t|] eqn:Hx.
  - unfold translatePart. rewrite Hx. apply translateTrajectory_metadata.
  - apply translatePart_metadata_plain. exact Hx.
Qed.

Lemma translatePart_artifact (p : A2APart) (a1 a2 : option A2AArtifact) :
  a1 ≫= art_metadata = a2 ≫= art_metadata ->
  a1 ≫= art_name = a2 ≫= art_name ->
  a1 ≫= art_description = a2 ≫= art_description ->
  translatePart JSON_parse p a1 = translatePart JSON_parse p a2.
Proof.
  intros Hm Hn Hd. unfold translatePart, translateFilePart.
  rewrite Hm, Hn, Hd. reflexivity.
Qed.

(** X3. The streaming and the batch translator on the same part. A part
    streamed with metadata that hold no trajectory gives the message that
    the batch translator gives for a task made of that part in an artifact
    with these metadata and with no name and no description. When the
    metadata hold a trajectory the two differ: the batch translator gives
    the message of the trajectory and then the one of the part, the
    streaming translator the message of the trajectory only, so that the
    part is lost. *)
Theorem streaming_and_batch (p : A2APart) (md : option JSObject) (i : string) :
  (extractTrajectoryFromMetadata md = None ->
   translateTask JSON_parse (task_of [artifact_of i [p] md]) =
   (let* m := translateStreamingPart JSON_parse p md in Ok (option_list m))) /\
  (forall t,
     extractTrajectoryFromMetadata md = Some t ->
     translateTask JSON_parse (task_of [artifact_of i [p] md]) =
     (let* mt := translateStreamingPart JSON_parse p md in
      let* mp := translatePart JSON_parse p (Some (artifact_of i [p] md)) in
      Ok (option_list mt ++ option_list mp))) /\
  (forall t mt mp,
     extractTrajectoryFromMetadata md = Some t ->
     translateTrajectory JSON_parse t = Ok (Some mt) ->
     translatePart JSON_parse p (Some (artifact_of i [p] md)) = Ok (Some mp) ->
     translateStreamingPart JSON_parse p md = Ok (Some mt) /\
     translateTask JSON_parse (task_of [artifact_of i [p] md]) = Ok [mt; mp]).
Proof.
  assert (Htask : translateTask JSON_parse (task_of [artifact_of i [p] md]) =
     (let* mt := translateArtifactTrajectory JSON_parse (artifact_of i [p] md) in
      let* mp := translatePart JSON_parse p (Some (artifact_of i [p] md)) in
      Ok (option_list mt ++ option_list mp))).
  { unfold translateTask, task_of.
    cbn [artifacts translateArtifacts translateParts parts artifact_of].
    destruct (translateArtifactTrajectory JSON_parse _) as [mt|e]; cbn [bind];
      [|reflexivity].
    destruct (translatePart JSON_parse p _) as [mp|e]; cbn [bind];
      [|reflexivity].
    rewrite !push_app. reflexivity. }
  split; [|split].
  - intros Hx. rewrite Htask. unfold translateArtifactTrajectory,
      translateStreamingPart. cbn [art_metadata artifact_of]. rewrite Hx.
    cbn [bind].
    rewrite (translatePart_artifact p (Some (artifact_of i [p] md))
               (match md with
                | Some md0 => Some {| artifactId := ""; art_name := None;
                                      art_description := None; parts := [];
                                      art_metadata := Some md0 |}
                | None => None
                end)); [reflexivity| | |]; destruct md; reflexivity.
  - intros t Hx. rewrite Htask. unfold translateArtifactTrajectory,
      translateStreamingPart. cbn [art_metadata artifact_of]. rewrite Hx.
    reflexivity.
  - intros t mt mp Hx Ht Hp. split.
    + unfold translateStreamingPart. rewrite Hx. exact Ht.
    + rewrite Htask. unfold translateArtifactTrajectory.
      cbn [art_metadata artifact_of]. rewrite Hx, Ht. cbn [bind].
      rewrite Hp. reflexivity.
Qed.

Lemma somes_length (l : list (option CarbonMessage)) :
  length (somes l) <= length l.
Proof.
  induction l as [|[m|] l IH]; simpl; lia.
Qed.

(** X4. The batch translator yields at most one message per artifact (its
    trajectory) and one per part: a task never gives more messages than it
    has artifacts and parts. *)
Theorem translateTask_length (task : A2ATask) (ms : list CarbonMessage) :
  translateTask JSON_parse task = Ok ms ->
  length ms <= length (artifacts task) + part_count (artifacts task).
Proof.
  intros H. apply translateTask_blocks in H.
  destruct H as (blocks & HF & ->). unfold part_count.
  induction HF as [|a block arts blocks Hb HF IH]; simpl; [lia|].
  destruct Hb as (tm & pms & _ & HFp & ->).
  rewrite !length_app. apply Forall2_length in HFp.
  pose proof (somes_length pms).
  assert (length (option_list tm) <= 1) by (destruct tm; simpl; lia).
  lia.
Qed.

Lemma translateParts_acc (a : A2AArtifact) (ps : list A2APart) :
  forall acc,
    translateParts JSON_parse ps a acc =
    (let* ms := translateParts JSON_parse ps a [] in Ok (acc ++ ms)).
Proof.
  induction ps as [|p ps IH]; intros acc; cbn [translateParts bind].
  - rewrite app_nil_r. reflexivity.
  - destruct (translatePart JSON_parse p (Some a)) as [m|e]; cbn [bind];
      [|reflexivity].
    rewrite (IH (push acc m)), (IH (push [] m)).
    destruct (translateParts JSON_parse ps a []) as [ms|e]; cbn [bind];
      [|reflexivity].
    rewrite !push_app. cbn [app]. rewrite <- ?app_assoc. reflexivity.
Qed.

Lemma translateArtifacts_acc (arts : list A2AArtifact) :
  forall acc,
    translateArtifacts JSON_parse arts acc =
    (let* ms := translateArtifacts JSON_parse arts [] in Ok (acc ++ ms)).
Proof.
  induction arts as [|a arts IH]; intros acc; cbn [translateArtifacts bind].
  - rewrite app_nil_r. reflexivity.
  - destruct (translateArtifactTrajectory JSON_parse a) as [tm|e]; cbn [bind];
      [|reflexivity].
    rewrite (translateParts_acc a (parts a) (push acc tm)),
      (translateParts_acc a (parts a) (push [] tm)).
    destruct (translateParts JSON_parse (parts a) a []) as [pm|e]; cbn [bind];
      [|reflexivity].
    rewrite (IH (push acc tm ++ pm)), (IH (push [] tm ++ pm)).
    destruct (translateArtifacts JSON_parse arts []) as [ms|e]; cbn [bind];
      [|reflexivity].
    rewrite !push_app. cbn [app]. rewrite <- ?app_assoc. reflexivity.
Qed.

Lemma translateArtifacts_app (arts1 arts2 : list A2AArtifact) :
  forall acc,
    translateArtifacts JSON_parse (arts1 ++ arts2) acc =
    (let* ms := translateArtifacts JSON_parse arts1 acc in
     translateArtifacts JSON_parse arts2 ms).
Proof.
  induction arts1 as [|a arts1 IH]; intros acc; cbn [translateArtifacts bind app].
  - reflexivity.
  - destruct (translateArtifactTrajectory JSON_parse a) as [tm|e]; cbn [bind];
      [|reflexivity].
    destruct (translateParts JSON_parse (parts a) a (push acc tm)) as [pm|e];
      cbn [bind]; [|reflexivity].
    apply IH.
Qed.

(** X5. Translating a task is translating its artifacts one group after
    the other: the messages of a list of artifacts followed by another are
    the messages of the first followed by those of the second, and the
    first error met, in artifact order, is the error of the whole. *)
Theorem translateTask_app (arts1 arts2 : list A2AArtifact)
  (id1 id2 id st1 st2 st : string) (h1 h2 h : list JSValue) :
  translateTask JSON_parse
    {| task_id := id; task_state := st; artifacts := arts1 ++ arts2;
       history := h |} =
  (let* ms1 := translateTask JSON_parse
                 {| task_id := id1; task_state := st1; artifacts := arts1;
                    history := h1 |} in
   let* ms2 := translateTask JSON_parse
                 {| task_id := id2; task_state := st2; artifacts := arts2;
                    history := h2 |} in
   Ok (ms1 ++ ms2)).
Proof.
  unfold translateTask. cbn [artifacts].
  rewrite translateArtifacts_app.
  destruct (translateArtifacts JSON_parse arts1 []) as [ms1|e]; cbn [bind];
    [|reflexivity].
  apply translateArtifacts_acc.
Qed.

Ltac destruct_typed v H := destruct v eqn:?; try discriminate H.

(** X6. Errors of the trajectory translation. A trajectory whose fields
    are strings or absent is translated without an error when it has a
    title, or when the tool name read from its content can be printed. With
    no title, no tag and a tool call in the fenced JSON whose [tool_name]
    cannot be printed, the translation throws the error of the conversion.
    A title that is a number, a boolean other than [false], an array or an
    object makes the translation throw a [TypeError]; and an artifact whose
    trajectory throws makes [translateTask] throw that error and return no
    message at all, even for the artifacts translated before it. *)
Theorem translateTrajectory_errors :
  (forall t, well_typed_trajectory t = true ->
     truthy (trajectory_title t) = true \/
     (forall parsed,
        parseTrajectoryContent JSON_parse (trajectory_content t) = Ok parsed ->
        printable (pc_toolName parsed) = true) ->
     exists r, translateTrajectory JSON_parse t = Ok r) /\
  (forall t c captured v e,
     well_typed_trajectory t = true ->
     truthy (trajectory_title t) = false ->
     truthy (trajectory_content_type t) = false ->
     trajectory_content t = JStr c ->
     match_json_block c = Some captured ->
     JSON_parse (trim captured) = Some v ->
     nullish v = false ->
     json_tagged v "tool_call" = true ->
     js_toString (json_tool_name v) = Throw e ->
     translateTrajectory JSON_parse t = Throw e) /\
  (forall t,
     truthy (trajectory_title t) = true ->
     (forall s, trajectory_title t <> JStr s) ->
     translateTrajectory JSON_parse t =
     Throw (TypeError "title.toLowerCase is not a function")) /\
  (forall arts1 a arts2 ms1 e id st h,
     translateArtifacts JSON_parse arts1 [] = Ok ms1 ->
     translateArtifactTrajectory JSON_parse a = Throw e ->
     translateTask JSON_parse
       {| task_id := id; task_state := st; artifacts := arts1 ++ a :: arts2;
          history := h |} = Throw e).
Proof.
  split; [|split; [|split]].
  - intros t Hwt Hprint.
    destruct (nonempty_trajectory t) eqn:Hne.
    + rewrite (translateTrajectory_route JSON_parse t Hne).
      destruct (infer_title_total _ (well_typed_title _ Hwt))
        as [inferred Hinf].
      destruct (parse_content_total JSON_parse _ (well_typed_content _ Hwt))
        as [parsed Hparse].
      destruct (createReasoning_total JSON_parse t inferred parsed Hinf Hparse)
        as [mr Hmr].
      assert (Hp : truthy (trajectory_title t) = true \/
                   printable (pc_toolName parsed) = true).
      { destruct Hprint as [H | H]; [left; exact H|right; exact (H _ Hparse)]. }
      rewrite Hinf, Hparse. cbn [bind]. unfold routeTrajectory.
      destruct (createToolCall_step t parsed Hwt Hp) as (step & _ & -> & _).
      destruct (createToolResult_step t parsed Hwt Hp) as (step' & -> & _).
      rewrite Hmr. cbn [bind]. repeat case_if; eauto.
    + unfold nonempty_trajectory in Hne. unfold translateTrajectory.
      destruct (truthy (trajectory_title t)), (truthy (trajectory_content t));
        try discriminate Hne. eauto.
  - intros t c captured v e Hwt Htitle Htag Hc Hm Hp Hv Hcall He.
    pose proof (match_json_block_nonempty _ _ Hm) as Hnz.
    assert (Hne : nonempty_trajectory t = true).
    { unfold nonempty_trajectory. rewrite Hc, (truthy_JStr c Hnz).
      apply orb_true_r. }
    rewrite (translateTrajectory_route JSON_parse t Hne).
    assert (Hinf : inferContentTypeFromTitle (trajectory_title t) = Ok None).
    { unfold inferContentTypeFromTitle. rewrite Htitle. reflexivity. }
    destruct (parse_content_tool_call JSON_parse c captured v Hm Hp Hv Hcall)
      as (parsed & Hparse & Hty & Hname).
    rewrite Hinf, Hc, Hparse. cbn [bind].
    unfold resolveContentType, js_or. rewrite Htag, Hty.
    cbn [of_option_string truthy]. unfold routeTrajectory.
    change (strict_eq_str (JStr "tool_call") CONTENT_TYPES.TOOL_CALL) with true.
    cbv iota. rewrite <- Hname in He.
    rewrite (createToolCall_throws t parsed e (well_typed_title _ Hwt) Htitle He).
    reflexivity.
  - intros t Ht Hns. unfold translateTrajectory, inferContentTypeFromTitle.
    rewrite Ht. cbn [negb andb].
    destruct (trajectory_title t) eqn:E; try discriminate Ht; try reflexivity.
    exfalso. exact (Hns _ eq_refl).
  - intros arts1 a arts2 ms1 e id st h H1 Ha. unfold translateTask.
    cbn [artifacts]. rewrite translateArtifacts_app, H1. cbn [bind translateArtifacts].
    rewrite Ha. reflexivity.
Qed.

Lemma toLowerCase_nil (s : string) : toLowerCase s = "" <-> s = "".
Proof. destruct s; simpl; split; congruence. Qed.

Lemma lower_ascii_idem (c : ascii) : lower_ascii (lower_ascii c) = lower_ascii c.
Proof. destruct c as [[] [] [] [] [] [] [] []]; reflexivity. Qed.

Lemma toLowerCase_idem (s : string) : toLowerCase (toLowerCase s) = toLowerCase s.
Proof.
  induction s as [|c s IH]; simpl; [reflexivity|].
  rewrite lower_ascii_idem, IH. reflexivity.
Qed.

Lemma infer_title_lower (s s' : string) :
  toLowerCase s = toLowerCase s' ->
  inferContentTypeFromTitle (JStr s) = inferContentTypeFromTitle (JStr s').
Proof.
  intros H. unfold inferContentTypeFromTitle. cbn [truthy as_string bind].
  rewrite <- H.
  destruct (String.eqb_spec s ""), (String.eqb_spec s' ""); try reflexivity.
  - subst s. symmetry in H. apply (proj1 (toLowerCase_nil s')) in H.
    contradiction.
  - subst s'. apply (proj1 (toLowerCase_nil s)) in H. contradiction.
Qed.

(** X7. The kind read from a title does not depend on letter case: two
    titles with the same lower-case form are classified alike, and a title
    is classified like its lower-case form. The call words come first: a
    title that holds [calling] or [tool call] is a tool call even when it
    also holds [result]. *)
Theorem inferContentTypeFromTitle_case :
  (forall s s', toLowerCase s = toLowerCase s' ->
     inferContentTypeFromTitle (JStr s) = inferContentTypeFromTitle (JStr s')) /\
  (forall s,
     inferContentTypeFromTitle (JStr (toLowerCase s)) =
     inferContentTypeFromTitle (JStr s)) /\
  (forall s,
     (includes (toLowerCase s) "calling"
      || includes (toLowerCase s) "tool call")%bool = true ->
     inferContentTypeFromTitle (JStr s) = Ok (Some CONTENT_TYPES.TOOL_CALL)).
Proof.
  split; [exact infer_title_lower|]. split.
  - intros s. apply infer_title_lower, toLowerCase_idem.
  - intros s H. unfold inferContentTypeFromTitle. cbn [truthy as_string bind].
    destruct (String.eqb_spec s ""); [subst s; discriminate H|].
    cbn [negb]. rewrite H. reflexivity.
Qed.

Lemma parseJsonBlock_types (captured : string) (r : ParsedContent) :
  parseJsonBlock JSON_parse captured = Ok (Some r) ->
  pc_type r = "tool_call" \/ pc_type r = "tool_result".
Proof.
  unfold parseJsonBlock.
  destruct (json_parse JSON_parse _); cbn [bind]; [|discriminate].
  destruct (js_prop _ _); cbn [bind]; [|discriminate].
  repeat case_if; try discriminate; intros [= <-]; auto.
Qed.

Lemma keywordFallback_types (c : string) :
  pc_type (keywordFallback c) = "tool_call" \/
  pc_type (keywordFallback c) = "tool_result" \/
  pc_type (keywordFallback c) = "text".
Proof. unfold keywordFallback. repeat case_if; auto. Qed.

(** X8. Reading the content of a trajectory never fails on a string,
    whatever [JSON.parse] does: the result is a tool call, a tool result or
    text. When the content has no fenced block, or [JSON.parse] rejects the
    block, or the block parses to [null], the result is the one of the key
    words alone. *)
Theorem parseTrajectoryContent_robust (c : string) :
  exists r,
    parseTrajectoryContent JSON_parse (JStr c) = Ok r /\
    (pc_type r = "tool_call" \/ pc_type r = "tool_result" \/ pc_type r = "text") /\
    (match_json_block c = None -> r = keywordFallback c) /\
    (forall captured,
       match_json_block c = Some captured ->
       JSON_parse (trim captured) = None \/ JSON_parse (trim captured) = Some JNull ->
       r = keywordFallback c).
Proof.
  destruct (String.eqb_spec c "") as [->|Hc].
  { exists (parsedOfType "text"). repeat split; auto; discriminate. }
  rewrite (parse_content_string JSON_parse c Hc). eexists. split; [reflexivity|].
  destruct (match_json_block c) as [captured|].
  - split; [|split; [discriminate|]].
    + destruct (parseJsonBlock JSON_parse captured) as [[r|]|e] eqn:E;
        cbn [try_catch]; try apply keywordFallback_types.
      destruct (parseJsonBlock_types _ _ E); auto.
    + intros captured' [= <-] H. unfold parseJsonBlock, json_parse.
      destruct H as [-> | ->]; reflexivity.
  - split; [apply keywordFallback_types|]. split; [reflexivity|discriminate].
Qed.

(** X9. A tool result found in the fenced JSON always has a status: the
    flat [status] when it is given, otherwise the one of the legacy
    [tool_data] object, otherwise [success]. Its tool name is the flat
    [tool_name], otherwise the one of [tool_data]; its result is the flat
    [result], otherwise the flat [result_preview], otherwise the
    [result_preview] of [tool_data]; it has no arguments. *)
Theorem parseJsonBlock_tool_result (captured : string) (v : JSValue) :
  JSON_parse (trim captured) = Some v ->
  nullish v = false ->
  strict_eq_str (js_get v "type") "tool_call" = false ->
  strict_eq_str (js_get v "content_type") "tool_call" = false ->
  (strict_eq_str (js_get v "type") "tool_result"
   || strict_eq_str (js_get v "content_type") "tool_result")%bool = true ->
  exists r,
    parseJsonBlock JSON_parse captured = Ok (Some r) /\
    pc_type r = "tool_result" /\
    truthy (pc_status r) = true /\
    (truthy (js_get v "status") = true -> pc_status r = js_get v "status") /\
    (truthy (js_get v "status") = false ->
     truthy (js_get (js_get v "tool_data") "status") = true ->
     pc_status r = js_get (js_get v "tool_data") "status") /\
    (truthy (js_get v "status") = false ->
     truthy (js_get (js_get v "tool_data") "status") = false ->
     pc_status r = JStr "success") /\
    (truthy (js_get v "tool_name") = true -> pc_toolName r = js_get v "tool_name") /\
    (truthy (js_get v "tool_name") = false ->
     pc_toolName r = js_get (js_get v "tool_data") "tool_name") /\
    (truthy (js_get v "result") = true -> pc_result r = js_get v "result") /\
    (truthy (js_get v "result") = false ->
     truthy (js_get v "result_preview") = true ->
     pc_result r = js_get v "result_preview") /\
    (truthy (js_get v "result") = false ->
     truthy (js_get v "result_preview") = false ->
     pc_result r = js_get (js_get v "tool_data") "result_preview") /\
    pc_args r = JUndefined.
Proof.
  intros Hp Hv H1 H2 H3. unfold parseJsonBlock, json_parse. rewrite Hp.
  cbn [bind].
  assert (Hprop : js_prop v "type" = Ok (js_get v "type")).
  { destruct v; try discriminate Hv; reflexivity. }
  rewrite Hprop. cbn [bind]. rewrite H1, H2. cbn [orb]. rewrite H3.
  eexists. split; [reflexivity|].
  cbn [pc_type pc_status pc_toolName pc_result pc_args].
  unfold js_or.
  destruct (truthy (js_get v "status")) eqn:Es,
    (truthy (js_get (js_get v "tool_data") "status")) eqn:En,
    (truthy (js_get v "tool_name")) eqn:Et,
    (truthy (js_get v "result")) eqn:Er,
    (truthy (js_get v "result_preview")) eqn:Ev;
    repeat split; intros; try discriminate; auto.
Qed.

Lemma app_String (c : ascii) (s t : string) :
  String c s +:+ t = String c (s +:+ t).
Proof. reflexivity. Qed.

Lemma app_empty_l (t : string) : "" +:+ t = t.
Proof. reflexivity. Qed.

Lemma app_empty_r (s : string) : s +:+ "" = s.
Proof.
  induction s as [|c s IH]; [reflexivity|]. rewrite app_String, IH. reflexivity.
Qed.

Lemma app_string_assoc (s t u : string) : (s +:+ t) +:+ u = s +:+ (t +:+ u).
Proof.
  induction s as [|c s IH]; [reflexivity|]. rewrite !app_String, IH. reflexivity.
Qed.

Lemma rev_string_app (s t : string) :
  rev_string (s +:+ t) = rev_string t +:+ rev_string s.
Proof.
  induction s as [|c s IH].
  - rewrite app_empty_l. cbn [rev_string]. rewrite app_empty_r. reflexivity.
  - rewrite app_String. cbn [rev_string]. rewrite IH, app_string_assoc.
    reflexivity.
Qed.

Lemma rev_string_involutive (s : string) : rev_string (rev_string s) = s.
Proof.
  induction s as [|c s IH]; [reflexivity|]. cbn [rev_string].
  rewrite rev_string_app, IH. reflexivity.
Qed.

Lemma skip_spaces_idem (s : string) : skip_spaces (skip_spaces s) = skip_spaces s.
Proof.
  induction s as [|c s IH]; [reflexivity|]. cbn [skip_spaces].
  destruct (is_space c) eqn:E; [exact IH|]. cbn [skip_spaces]. rewrite E.
  reflexivity.
Qed.

Lemma skip_spaces_head (s : string) (c : ascii) (rest : string) :
  skip_spaces s = String c rest -> is_space c = false.
Proof.
  induction s as [|c' s IH]; cbn [skip_spaces]; [discriminate|].
  destruct (is_space c') eqn:E; [exact IH|]. intros [= <- _]. exact E.
Qed.

Lemma skip_spaces_snoc (u : string) (c : ascii) :
  is_space c = false ->
  exists v, skip_spaces (u +:+ String c "") = v +:+ String c "".
Proof.
  intros Hc. induction u as [|c' u IH].
  - exists "". rewrite !app_empty_l. cbn [skip_spaces]. rewrite Hc. reflexivity.
  - rewrite app_String. cbn [skip_spaces]. destruct (is_space c'); [exact IH|].
    exists (String c' u). reflexivity.
Qed.

(** A trimmed string has no white space at either end. *)
Lemma trim_ends (s : string) :
  skip_spaces (trim s) = trim s /\
  skip_spaces (rev_string (trim s)) = rev_string (trim s).
Proof.
  unfold trim. split.
  - destruct (skip_spaces s) as [|c t] eqn:E; [reflexivity|].
    pose proof (skip_spaces_head _ _ _ E) as Hc. cbn [rev_string].
    destruct (skip_spaces_snoc (rev_string t) c Hc) as [v ->].
    rewrite rev_string_app. cbn [rev_string]. rewrite app_empty_l, app_String.
    cbn [skip_spaces]. rewrite Hc. reflexivity.
  - rewrite rev_string_involutive. apply skip_spaces_idem.
Qed.

Lemma indexOf_None (s sub : string) :
  indexOf s sub = None ->
  startsWith s sub = false /\
  forall c rest, s = String c rest -> indexOf rest sub = None.
Proof.
  destruct s as [|c s]; cbn [indexOf]; destruct (startsWith _ sub);
    try discriminate; intros H; (split; [reflexivity|]).
  - intros c rest [=].
  - intros c' rest [= <- <-]. destruct (indexOf s sub); [discriminate|reflexivity].
Qed.

(** A text with no code fence loses nothing. *)
Lemma strip_fences_none (s : string) :
  indexOf s fence = None -> strip_fences s = s.
Proof.
  unfold strip_fences. induction s as [|c s IH]; [reflexivity|].
  intros H. destruct (indexOf_None _ _ H) as [Hs Hrest].
  cbn [strip_fences_from]. rewrite Hs, (IH (Hrest c s eq_refl)). reflexivity.
Qed.

Lemma descriptionOf_string (c : string) :
  descriptionOf (JStr c) =
  Ok (if String.eqb (trim (strip_fences c)) "" then JUndefined
      else JStr (trim (strip_fences c))).
Proof.
  unfold descriptionOf, js_or. cbn [as_string_opt bind truthy].
  destruct (String.eqb _ ""); reflexivity.
Qed.

Lemma description_shape (content d : JSValue) :
  descriptionOf content = Ok d ->
  d = JUndefined \/
  exists s, d = JStr s /\ s <> "" /\ skip_spaces s = s /\
            skip_spaces (rev_string s) = rev_string s.
Proof.
  destruct content; try (intros [= <-]; auto; fail); try discriminate.
  rewrite descriptionOf_string.
  destruct (String.eqb_spec (trim (strip_fences s)) ""); intros [= <-]; auto.
  right. eexists. split; [reflexivity|]. split; [assumption|]. apply trim_ends.
Qed.

Lemma createToolCall_description (t : TrajectoryData) (parsed : ParsedContent)
    (step : ChainOfThoughtStep) :
  createToolCallFromTrajectory t parsed = Ok (chainOfThoughtMessage step) ->
  descriptionOf (trajectory_content t) = Ok (description step).
Proof.
  unfold createToolCallFromTrajectory.
  destruct (as_string_opt _ _); cbn [bind]; [|discriminate].
  destruct (js_or_else _ _); cbn [bind]; [|discriminate].
  destruct (descriptionOf _); cbn [bind]; [|discriminate].
  unfold chainOfThoughtMessage. intros [= <-]. reflexivity.
Qed.

Lemma createToolResult_description (t : TrajectoryData)
    (parsed : ParsedContent) (step : ChainOfThoughtStep) :
  createToolResultFromTrajectory t parsed = Ok (chainOfThoughtMessage step) ->
  descriptionOf (trajectory_content t) = Ok (description step).
Proof.
  unfold createToolResultFromTrajectory.
  destruct (as_string_opt _ _); cbn [bind]; [|discriminate].
  destruct (isErrorOf _ _); cbn [bind]; [|discriminate].
  destruct (js_or_else _ _); cbn [bind]; [|discriminate].
  destruct (descriptionOf _); cbn [bind]; [|discriminate].
  unfold chainOfThoughtMessage. intros [= <-]. reflexivity.
Qed.

Lemma blank_no_backquote (s : string) : blank s = true -> no_backquote s = true.
Proof.
  induction s as [|c s IH]; [reflexivity|]. cbn [blank no_backquote].
  intros H. apply andb_prop in H as [Hc Hs]. rewrite (IH Hs), andb_true_r.
  destruct c as [[] [] [] [] [] [] [] []]; try discriminate Hc; reflexivity.
Qed.

Lemma blank_skip_spaces (s : string) : blank s = true -> skip_spaces s = "".
Proof.
  induction s as [|c s IH]; [reflexivity|]. cbn [blank skip_spaces].
  intros H. apply andb_prop in H as [-> Hs]. exact (IH Hs).
Qed.

Lemma blank_app (s t : string) :
  blank s = true -> blank t = true -> blank (s +:+ t) = true.
Proof.
  intros Hs Ht. induction s as [|c s IH]; [exact Ht|].
  rewrite app_String. cbn [blank] in *. apply andb_prop in Hs as [-> Hs].
  exact (IH Hs).
Qed.

Lemma blank_trim (s : string) : blank s = true -> trim s = "".
Proof. intros H. unfold trim. rewrite (blank_skip_spaces s H). reflexivity. Qed.

Lemma startsWith_fence_head (c : ascii) (s : string) :
  is_backquote c = false -> startsWith (String c s) fence = false.
Proof.
  intros Hc. cbn [startsWith fence].
  destruct c as [[] [] [] [] [] [] [] []]; try discriminate Hc; reflexivity.
Qed.

Lemma startsWith_prefix (p d : string) : startsWith (p +:+ d) p = true.
Proof.
  induction p as [|a p IH]; [rewrite app_empty_l; destruct d; reflexivity|].
  rewrite app_String. cbn [startsWith]. rewrite Ascii.eqb_refl. exact IH.
Qed.

(** The first fence after a text without backquotes is the one that
    follows it. *)
Lemma indexOf_fence_after (body rest : string) :
  no_backquote body = true ->
  indexOf (body +:+ fence +:+ rest) fence = Some (String.length body).
Proof.
  induction body as [|c body IH]; intros H.
  - rewrite app_empty_l.
    pose proof (startsWith_prefix fence rest) as Hs.
    destruct (fence +:+ rest); cbn [indexOf]; rewrite Hs; reflexivity.
  - cbn [no_backquote] in H. apply andb_prop in H as [Hc Hb].
    apply negb_true_iff in Hc. rewrite app_String. cbn [indexOf].
    rewrite (startsWith_fence_head _ _ Hc), (IH Hb). reflexivity.
Qed.

Lemma length_app_string (s t : string) :
  String.length (s +:+ t) = String.length s + String.length t.
Proof.
  induction s as [|c s IH]; [reflexivity|]. rewrite app_String.
  cbn [String.length]. rewrite IH. reflexivity.
Qed.

Lemma strip_fences_from_skip (u rest : string) :
  strip_fences_from (u +:+ rest) (String.length u) = strip_fences_from rest 0.
Proof.
  induction u as [|c u IH].
  - rewrite app_empty_l. reflexivity.
  - rewrite app_String. cbn [String.length strip_fences_from]. exact IH.
Qed.

(** A code block is removed with its two fences, and the text before it,
    which holds no backquote, is kept. *)
Lemma strip_fences_block (pre body rest : string) :
  no_backquote pre = true -> no_backquote body = true ->
  strip_fences (pre +:+ fence +:+ body +:+ fence +:+ rest) =
  pre +:+ strip_fences rest.
Proof.
  intros Hpre Hbody. unfold strip_fences. induction pre as [|c pre IH].
  - rewrite !app_empty_l.
    set (X := body +:+ fence +:+ rest).
    change (fence +:+ X) with (String "`" (String "`" (String "`" X))).
    cbn [strip_fences_from].
    change (startsWith (String "`" (String "`" (String "`" X))) fence)
      with (startsWith (fence +:+ X) fence).
    rewrite startsWith_prefix.
    change (drop 3 (String "`" (String "`" (String "`" X)))) with X.
    unfold X. rewrite (indexOf_fence_after body rest Hbody).
    replace (String.length body + 5)
      with (String.length ("``" +:+ body +:+ fence)).
    + change (String "`" (String "`" (body +:+ fence +:+ rest)))
        with (("``" +:+ body) +:+ fence +:+ rest).
      rewrite <- !app_string_assoc. rewrite (app_string_assoc "``" body fence).
      apply strip_fences_from_skip.
    + change ("``" +:+ body +:+ fence) with (String "`" (String "`" (body +:+ fence))).
      cbn [String.length]. rewrite length_app_string. cbn [String.length fence].
      lia.
  - cbn [no_backquote] in Hpre. apply andb_prop in Hpre as [Hc Hp].
    apply negb_true_iff in Hc. rewrite !app_String.
    cbn [strip_fences_from].
    rewrite <- (app_String c pre), (app_String c pre).
    rewrite (startsWith_fence_head c _ Hc), (IH Hp). reflexivity.
Qed.

Lemma strip_fences_blank (s : string) : blank s = true -> strip_fences s = s.
Proof.
  intros H. apply blank_no_backquote in H. unfold strip_fences.
  induction s as [|c s IH]; [reflexivity|].
  cbn [no_backquote] in H. apply andb_prop in H as [Hc Hs].
  apply negb_true_iff in Hc. cbn [strip_fences_from].
  rewrite (startsWith_fence_head c s Hc), (IH Hs). reflexivity.
Qed.

(** White space and code blocks leave white space. *)
Lemma strip_fences_blocks (blocks : list (string * string)) (tail : string) :
  Forall (fun b => blank (fst b) = true /\ no_backquote (snd b) = true) blocks ->
  blank tail = true ->
  blank (strip_fences (fenced_blocks blocks tail)) = true.
Proof.
  intros HF Htail. induction HF as [|[ws body] blocks [Hws Hbody] _ IH];
    cbn [fenced_blocks fold_right].
  - rewrite (strip_fences_blank tail Htail). exact Htail.
  - cbn [fst snd] in *. fold (fenced_blocks blocks tail).
    rewrite (strip_fences_block ws body _ (blank_no_backquote _ Hws) Hbody).
    apply blank_app; assumption.
Qed.

(** X10. The description of a tool-call or tool-result step is absent or
    is a non-empty string with no white space at either end. It is absent
    when the trajectory has no content, and when the content is nothing but
    white space and code blocks (blocks that hold no backquote); it is the
    trimmed content when the content has no code fence. *)
Theorem step_description :
  (forall t parsed step,
     createToolCallFromTrajectory t parsed = Ok (chainOfThoughtMessage step) \/
     createToolResultFromTrajectory t parsed = Ok (chainOfThoughtMessage step) ->
     description step = JUndefined \/
     exists s, description step = JStr s /\ s <> "" /\ skip_spaces s = s /\
               skip_spaces (rev_string s) = rev_string s) /\
  (forall t parsed step c,
     createToolCallFromTrajectory t parsed = Ok (chainOfThoughtMessage step) \/
     createToolResultFromTrajectory t parsed = Ok (chainOfThoughtMessage step) ->
     trajectory_content t = JStr c ->
     indexOf c fence = None ->
     description step = if String.eqb (trim c) "" then JUndefined
                        else JStr (trim c)) /\
  (forall t parsed step,
     createToolCallFromTrajectory t parsed = Ok (chainOfThoughtMessage step) \/
     createToolResultFromTrajectory t parsed = Ok (chainOfThoughtMessage step) ->
     nullish (trajectory_content t) = true ->
     description step = JUndefined) /\
  (forall t parsed step blocks tail,
     createToolCallFromTrajectory t parsed = Ok (chainOfThoughtMessage step) \/
     createToolResultFromTrajectory t parsed = Ok (chainOfThoughtMessage step) ->
     trajectory_content t = JStr (fenced_blocks blocks tail) ->
     Forall (fun b => blank (fst b) = true /\ no_backquote (snd b) = true)
            blocks ->
     blank tail = true ->
     description step = JUndefined).
Proof.
  assert (Hd : forall t parsed step,
     createToolCallFromTrajectory t parsed = Ok (chainOfThoughtMessage step) \/
     createToolResultFromTrajectory t parsed = Ok (chainOfThoughtMessage step) ->
     descriptionOf (trajectory_content t) = Ok (description step)).
  { intros t parsed step [H | H];
      [exact (createToolCall_description _ _ _ H)
      |exact (createToolResult_description _ _ _ H)]. }
  split; [|split; [|split]].
  - intros t parsed step H. exact (description_shape _ _ (Hd _ _ _ H)).
  - intros t parsed step c H Hc Hf. apply Hd in H.
    rewrite Hc, descriptionOf_string, (strip_fences_none c Hf) in H.
    injection H as <-. reflexivity.
  - intros t parsed step H Hn. apply Hd in H.
    destruct (trajectory_content t); try discriminate Hn;
      cbn in H; injection H as <-; reflexivity.
  - intros t parsed step blocks tail H Hc HF Htail. apply Hd in H.
    rewrite Hc, descriptionOf_string in H.
    rewrite (blank_trim _ (strip_fences_blocks blocks tail HF Htail)) in H.
    injection H as <-. reflexivity.
Qed.

Lemma fileUrl_cases (f : A2AFile) :
  exists u,
    fileUrl f = JStr u /\ u <> "" /\
    (forall x, uri f = Some x -> x <> "" -> u = x) /\
    (uri f = None \/ uri f = Some "" ->
     u = "data:" +:+ mimeType f +:+ ";base64," +:+ default "" (bytes f)).
Proof.
  unfold fileUrl, js_or, base64ToDataUrl.
  destruct (uri f) as [x|]; cbn [of_option_string truthy].
  - destruct (String.eqb_spec x "") as [->|Hx]; cbn [negb].
    + eexists. split; [reflexivity|]. split; [discriminate|].
      split; [intros x [= <-] H; contradiction|reflexivity].
    + exists x. split; [reflexivity|]. split; [exact Hx|].
      split; [intros y [= <-] _; reflexivity|].
      intros [H | [= H]]; [discriminate H|contradiction].
  - eexists. split; [reflexivity|]. split; [discriminate|].
    split; [discriminate|reflexivity].
Qed.

(** X11. An image or chart message always has an address: the [uri] of the
    file when it is given and not empty, otherwise a data URL made of the
    MIME type and the base64 payload (the empty payload when there is
    none). The address is never the empty string. *)
Theorem file_message_url (part : A2APart) (artifact : option A2AArtifact)
  (f : A2AFile) (m : CarbonMessage) (payload : JSObject) :
  part_file part = Some f ->
  translateFilePart part artifact = Some m ->
  user_defined m = Some payload ->
  lookup_key "type" payload = JStr "image" \/
  lookup_key "type" payload = JStr "chart" ->
  exists u,
    (if strict_eq_str (lookup_key "type" payload) "image"
     then lookup_key "url" payload else lookup_key "imageUrl" payload) = JStr u /\
    u <> "" /\
    (forall x, uri f = Some x -> x <> "" -> u = x) /\
    (uri f = None \/ uri f = Some "" ->
     u = "data:" +:+ mimeType f +:+ ";base64," +:+ default "" (bytes f)).
Proof.
  intros Hf. unfold translateFilePart. rewrite Hf.
  destruct (fileUrl_cases f) as (u & Hu & Hrest).
  destruct (startsWith (mimeType f) "image/");
    [|destruct (nameIncludes f "chart" || nameIncludes f "graph")%bool];
    intros [= <-] [= <-]; cbn; intros [H | H];
    try discriminate H; exists u; (split; [exact Hu|exact Hrest]).
Qed.

(** X12. A data part and the static factories. For a data part that has
    no title of its own and a non-empty string as tool name, a tool call is
    translated to the message that the factory builds from the name, the
    arguments and the description, and so is a successful tool result whose
    result is truthy. Otherwise they differ: with a falsy result the data
    part has no response where the factory wraps the result; a data part
    with a title keeps it; and a failed tool result is titled
    [<name> completed] by the data part, in error status, where the factory
    says [<name> failed]. *)
Theorem data_part_and_factories :
  (forall part n d,
     js_get (part_data part) "type" = JStr "tool_call" ->
     truthy (js_get (part_data part) "title") = false ->
     js_get (part_data part) "tool_name" = JStr n -> n <> "" ->
     js_get (part_data part) "description" = of_option_string d ->
     translateDataPart part =
     Ok (Some (createToolCallMessage n (js_get (part_data part) "args") d))) /\
  (forall part n d,
     js_get (part_data part) "type" = JStr "tool_result" ->
     truthy (js_get (part_data part) "title") = false ->
     js_get (part_data part) "tool_name" = JStr n -> n <> "" ->
     js_get (part_data part) "description" = of_option_string d ->
     truthy (js_get (part_data part) "result") = true ->
     truthy (js_get (part_data part) "error") = false ->
     translateDataPart part =
     Ok (Some (createToolResultMessage n (js_get (part_data part) "result")
                 (js_get (part_data part) "args") (Some false) d))) /\
  (forall part n error d,
     js_get (part_data part) "type" = JStr "tool_result" ->
     truthy (js_get (part_data part) "title") = false ->
     js_get (part_data part) "tool_name" = JStr n -> n <> "" ->
     truthy (js_get (part_data part) "result") = false ->
     exists step step',
       translateDataPart part = Ok (Some (chainOfThoughtMessage step)) /\
       response step = None /\
       createToolResultMessage n (js_get (part_data part) "result")
         (js_get (part_data part) "args") error d =
       chainOfThoughtMessage step' /\
       response step' = Some (js_get (part_data part) "result")) /\
  (forall part,
     data_kind_recognized (js_get (part_data part) "type") = true ->
     truthy (js_get (part_data part) "title") = true ->
     exists step,
       translateDataPart part = Ok (Some (chainOfThoughtMessage step)) /\
       title step = js_get (part_data part) "title") /\
  (forall part n,
     js_get (part_data part) "type" = JStr "tool_result" ->
     truthy (js_get (part_data part) "title") = false ->
     js_get (part_data part) "tool_name" = JStr n -> n <> "" ->
     truthy (js_get (part_data part) "error") = true ->
     exists step,
       translateDataPart part = Ok (Some (chainOfThoughtMessage step)) /\
       title step = JStr (n +:+ " completed") /\ status step = ERROR) /\
  (forall n result args d,
     exists step,
       createToolResultMessage n result args (Some true) d =
       chainOfThoughtMessage step /\
       title step = JStr (n +:+ " failed") /\ status step = ERROR).
Proof.
  split; [|split; [|split; [|split; [|split]]]].
  - intros part n d Hty Htitle Hn Hnz Hd.
    unfold translateDataPart, js_or_else, js_or.
    rewrite Hty, Htitle, Hn, Hd, (truthy_JStr n Hnz). reflexivity.
  - intros part n d Hty Htitle Hn Hnz Hd Hr He.
    unfold translateDataPart, js_or_else, js_or.
    rewrite Hty, Htitle, Hn, Hd, Hr, He, (truthy_JStr n Hnz). reflexivity.
  - intros part n error d Hty Htitle Hn Hnz Hr.
    unfold translateDataPart, js_or_else, js_or.
    rewrite Hty, Htitle, Hn, Hr, (truthy_JStr n Hnz).
    do 2 eexists. repeat split.
  - intros part Hk Htitle. unfold translateDataPart, js_or_else.
    unfold data_kind_recognized in Hk. rewrite Htitle.
    destruct (strict_eq_str _ "tool_call");
      [|destruct (strict_eq_str _ "tool_result"); [|discriminate Hk]];
      eexists; split; reflexivity.
  - intros part n Hty Htitle Hn Hnz He.
    unfold translateDataPart, js_or_else, js_or.
    rewrite Hty, Htitle, Hn, He, (truthy_JStr n Hnz).
    eexists. split; [reflexivity|]. split; reflexivity.
  - intros n result args d. eexists. split; [reflexivity|]. split; reflexivity.
Qed.

(** X13. The citations read from an array under the citation URI are
    objects among its items, no more than it holds, and reading is
    idempotent: the list found, put back under the citation URI, is read as
    itself. *)
Theorem extractCitations_idempotent :
  (forall md,
     extractCitations
       (Some [(AGENTSTACK_EXTENSION_URIS.CITATION, JArr (extractCitations md))]) =
     extractCitations md) /\
  (forall md items c,
     lookup_key AGENTSTACK_EXTENSION_URIS.CITATION md = JArr items ->
     In c (extractCitations (Some md)) -> In c items /\ is_object_item c = true) /\
  (forall md items,
     lookup_key AGENTSTACK_EXTENSION_URIS.CITATION md = JArr items ->
     length (extractCitations (Some md)) <= length items).
Proof.
  assert (Hobj : forall md, Forall (fun c => is_object_item c = true)
                              (extractCitations md)).
  { intros [md|]; [|constructor]. unfold extractCitations.
    destruct (lookup_key AGENTSTACK_EXTENSION_URIS.CITATION md)
      as [| | | | |items|o]; cbn [truthy negb]; try case_if; try constructor.
    - apply filter_object_items_Forall.
    - destruct (lookup_key "citations" o);
        try (constructor; [reflexivity|constructor]).
      apply filter_object_items_Forall. }
  split; [|split].
  - intros md.
    change (extractCitations
              (Some [(AGENTSTACK_EXTENSION_URIS.CITATION,
                      JArr (extractCitations md))]))
      with (List.filter is_object_item (extractCitations md)).
    apply filter_object_items, Hobj.
  - intros md items c Hl. unfold extractCitations. rewrite Hl. cbn [truthy negb].
    intros Hin. apply filter_In in Hin. exact Hin.
  - intros md items Hl. unfold extractCitations. rewrite Hl. cbn [truthy negb].
    apply List.filter_length_le.
Qed.

Lemma nonspace_run_app (name rest : string) :
  no_space name = true ->
  nonspace_run (name +:+ String " " rest) = name.
Proof.
  induction name as [|c name IH]; intros H.
  - reflexivity.
  - cbn [no_space] in H. apply andb_prop in H. destruct H as [Hc Hn].
    rewrite app_String. cbn [nonspace_run].
    apply negb_true_iff in Hc. rewrite Hc, (IH Hn). reflexivity.
Qed.

Lemma drop_app_length (s t : string) : drop (String.length s) (s +:+ t) = t.
Proof.
  induction s as [|c s IH]; [reflexivity|]. rewrite app_String. exact IH.
Qed.

Lemma take_app_length (s t : string) : take (String.length s) (s +:+ t) = s.
Proof.
  induction s as [|c s IH]; [reflexivity|]. rewrite app_String.
  cbn [String.length take]. rewrite IH. reflexivity.
Qed.

Lemma match_result_title_name (name : string) :
  name <> "" -> no_space name = true ->
  match_result_title (name +:+ " Result") = Some name.
Proof.
  intros Hnz Hns. unfold match_result_title.
  change (name +:+ " Result") with (name +:+ String " " "Result").
  rewrite (nonspace_run_app name "Result" Hns).
  destruct name as [|c name]; [contradiction|].
  set (full := String c name) in *.
  change (String.length full) with (S (String.length name)).
  cbn [match_result_prefix].
  change (S (String.length name)) with (String.length full).
  rewrite drop_app_length, take_app_length. reflexivity.
Qed.

(** X14. A tool result with no parsed name takes its tool name from a
    title of the form [<name> Result]: the whole run of characters before
    the space, even when the name itself ends with [Result]. *)
Theorem tool_result_name_from_title (name : string) (t : TrajectoryData)
  (parsed : ParsedContent) :
  name <> "" -> no_space name = true ->
  well_typed_trajectory t = true ->
  trajectory_title t = JStr (name +:+ " Result") ->
  truthy (pc_toolName parsed) = false ->
  exists step,
    createToolResultFromTrajectory t parsed = Ok (chainOfThoughtMessage step) /\
    tool_name step = JStr name /\
    title step = JStr (name +:+ " Result").
Proof.
  intros Hnz Hns Hwt Ht Hp.
  pose proof (well_typed_content _ Hwt) as Hc.
  unfold createToolResultFromTrajectory, isErrorOf, descriptionOf, js_or,
    js_or_else.
  rewrite Ht, Hp. cbn [as_string_opt bind mbind option_bind].
  rewrite (match_result_title_name name Hnz Hns).
  cbn [of_option_string]. rewrite (truthy_JStr name Hnz).
  assert (Htt : truthy (JStr (name +:+ " Result")) = true).
  { apply truthy_JStr. destruct name; [contradiction|discriminate]. }
  rewrite Htt.
  destruct_typed (trajectory_content t) Hc; cbn [as_string_opt bind];
    destruct (strict_eq_str (pc_status parsed) "error"); cbn [bind];
    repeat (case_if; cbn [bind]); eexists; repeat split.
Qed.

End TranslatorExtras.

(** * The stream reader *)

Section SseProperties.

Import Sse.

Variable JSON_parse : string -> option JSValue.

Lemma split_lines_nonempty (s : string) : split_lines s <> [].
Proof.
  induction s as [|c s IH]; cbn [split_lines]; [discriminate|].
  destruct (is_newline c); [discriminate|].
  destruct (split_lines s); discriminate.
Qed.

Lemma split_lines_app (a b : string) :
  split_lines (a +:+ b) =
  List.removelast (split_lines a) ++
  split_lines (List.last (split_lines a) "" +:+ b).
Proof.
  induction a as [|c a IH].
  - reflexivity.
  - rewrite app_String. cbn [split_lines].
    pose proof (split_lines_nonempty a) as Hne.
    destruct (is_newline c) eqn:Ec.
    + rewrite IH. destruct (split_lines a) as [|l ls]; [congruence|].
      reflexivity.
    + rewrite IH. destruct (split_lines a) as [|l [|l2 ls]]; [congruence| |].
      * cbn [List.removelast List.last app]. rewrite app_String.
        cbn [split_lines]. rewrite Ec. reflexivity.
      * reflexivity.
Qed.

Lemma split_lines_newline (s : string) :
  split_lines (s +:+ newline) = split_lines s ++ [""].
Proof.
  induction s as [|c s IH]; [reflexivity|].
  rewrite app_String. cbn [split_lines]. rewrite IH.
  pose proof (split_lines_nonempty s) as Hne.
  destruct (is_newline c); [reflexivity|].
  destruct (split_lines s) as [|l ls]; [congruence|]. reflexivity.
Qed.

Lemma split_lines_no_newline (s : string) :
  no_newline s = true -> split_lines s = [s].
Proof.
  induction s as [|c s IH]; [reflexivity|]. cbn [no_newline split_lines].
  destruct (is_newline c); [discriminate|]. intros H. rewrite (IH H).
  reflexivity.
Qed.

Lemma split_lines_last (s : string) :
  no_newline (List.last (split_lines s) "") = true.
Proof.
  induction s as [|c s IH]; [reflexivity|]. cbn [split_lines].
  pose proof (split_lines_nonempty s) as Hne.
  destruct (is_newline c) eqn:Ec.
  - destruct (split_lines s) as [|l ls]; [congruence|]. exact IH.
  - destruct (split_lines s) as [|l [|l2 ls]]; [congruence| |exact IH].
    cbn [List.last] in *. cbn [no_newline]. rewrite Ec, IH. reflexivity.
Qed.

Lemma somes_map_app {A B : Type} (f : A -> option B) (l1 l2 : list A) :
  somes (map f (l1 ++ l2)) = somes (map f l1) ++ somes (map f l2).
Proof.
  induction l1 as [|x l1 IH]; [reflexivity|]. cbn [map app somes].
  rewrite IH. destruct (f x); reflexivity.
Qed.

Lemma last_app_nonempty {A : Type} (l1 l2 : list A) (d : A) :
  l2 <> [] -> List.last (l1 ++ l2) d = List.last l2 d.
Proof.
  intros H. induction l1 as [|x l1 IH]; [reflexivity|].
  cbn [app]. destruct (l1 ++ l2) eqn:E.
  - apply app_eq_nil in E. tauto.
  - cbn [List.last]. exact IH.
Qed.

(** One turn of the loop takes the state for the text received so far to
    the state for the longer text. *)
Lemma readChunk_text (text chunk : string) :
  readChunk JSON_parse (read_text JSON_parse text) chunk =
  read_text JSON_parse (text +:+ chunk).
Proof.
  unfold readChunk, read_text. cbn [buffer results].
  rewrite (split_lines_app text chunk).
  pose proof (split_lines_nonempty
                (List.last (split_lines text) "" +:+ chunk)) as Hne.
  rewrite (last_app_nonempty _ _ _ Hne), (List.removelast_app _ Hne).
  rewrite somes_map_app. reflexivity.
Qed.

Lemma fold_readChunk_text (chunks : list string) (text : string) :
  fold_left (readChunk JSON_parse) chunks (read_text JSON_parse text) =
  read_text JSON_parse (text +:+ text_of chunks).
Proof.
  revert text. induction chunks as [|c chunks IH]; intros text.
  - cbn [fold_left text_of fold_right]. rewrite app_empty_r. reflexivity.
  - cbn [fold_left text_of fold_right]. rewrite readChunk_text, IH.
    rewrite app_string_assoc. reflexivity.
Qed.

Lemma readAll_text (chunks : list string) :
  readAll JSON_parse chunks = read_text JSON_parse (text_of chunks).
Proof.
  unfold readAll. change start with (read_text JSON_parse "").
  rewrite fold_readChunk_text. reflexivity.
Qed.

(** X15. The stream reader does not depend on where the transport cuts the
    body: two sequences of chunks with the same text leave the same pending
    buffer and hand on the same results in the same order, and the hook
    returns the same value. The pending buffer never holds a line break. *)
Theorem readAll_chunking (chunks1 chunks2 : list string) :
  text_of chunks1 = text_of chunks2 ->
  readAll JSON_parse chunks1 = readAll JSON_parse chunks2 /\
  hookResult JSON_parse chunks1 = hookResult JSON_parse chunks2 /\
  no_newline (buffer (readAll JSON_parse chunks1)) = true.
Proof.
  intros H. unfold hookResult. rewrite !readAll_text, H.
  repeat split. cbn [read_text buffer]. apply split_lines_last.
Qed.

(** X16. A line is handled only once its line break has arrived: the text
    after the last line break stays in the buffer and is dropped when the
    stream ends, so a final data line without a line break hands on
    nothing. *)
Theorem unterminated_line_dropped (text tail : string) :
  no_newline tail = true ->
  let st := readAll JSON_parse [text +:+ newline +:+ tail] in
  buffer st = tail /\
  results st = somes (map (lineResult JSON_parse) (split_lines text)) /\
  results st = results (readAll JSON_parse [text +:+ newline]).
Proof.
  intros Htail. cbn zeta. rewrite !readAll_text.
  cbn [text_of fold_right]. rewrite !app_empty_r.
  assert (Hcut : split_lines (text +:+ newline +:+ tail)
                 = split_lines text ++ [tail]).
  { rewrite <- app_string_assoc, split_lines_app, split_lines_newline.
    rewrite List.removelast_last, List.last_last, app_empty_l.
    rewrite (split_lines_no_newline _ Htail). reflexivity. }
  unfold read_text. cbn [buffer results].
  rewrite Hcut, split_lines_newline.
  rewrite !List.removelast_last, List.last_last. repeat split.
Qed.

End SseProperties.

Lemma startsWith_drop (s p : string) :
  startsWith s p = true -> s = p +:+ drop (String.length p) s.
Proof.
  revert s. induction p as [|a p IH]; intros s; [reflexivity|].
  destruct s as [|b s]; cbn [startsWith]; [discriminate|].
  intros H. apply andb_prop in H as [Hab Hp]. apply Ascii.eqb_eq in Hab.
  subst b. cbn [String.length drop]. rewrite app_String, <- (IH s Hp).
  reflexivity.
Qed.

Lemma startsWith_app (p d : string) : startsWith (p +:+ d) p = true.
Proof.
  induction p as [|a p IH]; [rewrite app_empty_l; destruct d; reflexivity|].
  rewrite app_String. cbn [startsWith]. rewrite Ascii.eqb_refl. exact IH.
Qed.

(** The test [!dataStr] of the loop never fires: a trimmed line does not
    end with the blank of ["data: "]. *)
Lemma data_prefix_not_alone (line : string) : trim line <> "data: ".
Proof.
  intros H. pose proof (proj2 (trim_ends line)) as Hends.
  rewrite H in Hends. vm_compute in Hends. discriminate.
Qed.

Lemma skip_spaces_snoc_space (s : string) (c : ascii) :
  is_space c = true ->
  skip_spaces (s +:+ String c "") =
  match skip_spaces s with
  | EmptyString => EmptyString
  | String _ _ => skip_spaces s +:+ String c ""
  end.
Proof.
  intros Hc. induction s as [|b s IH].
  - rewrite app_empty_l. cbn [skip_spaces]. rewrite Hc. reflexivity.
  - rewrite app_String. cbn [skip_spaces].
    destruct (is_space b); [exact IH|]. reflexivity.
Qed.

Lemma trim_space_r (s : string) (c : ascii) :
  is_space c = true -> trim (s +:+ String c "") = trim s.
Proof.
  intros Hc. unfold trim. rewrite (skip_spaces_snoc_space _ _ Hc).
  destruct (skip_spaces s) as [|b t]; [reflexivity|].
  rewrite rev_string_app. cbn [rev_string]. rewrite app_empty_l, app_String.
  rewrite app_empty_l.
  change (skip_spaces (String c ?x)) with
    (if is_space c then skip_spaces x else String c x).
  cbn [skip_spaces]. rewrite Hc. reflexivity.
Qed.

Lemma trim_space_l (s : string) (c : ascii) :
  is_space c = true -> trim (String c s) = trim s.
Proof. intros Hc. unfold trim. cbn [skip_spaces]. rewrite Hc. reflexivity. Qed.

(** X17. Which lines carry data. A line is skipped exactly when, trimmed,
    it does not start with the six characters of the data prefix (blank
    included) or is the end marker; otherwise its payload is the trimmed
    line without the prefix, which is never empty. White space before or
    after the line, such as a carriage return, changes nothing. *)
Theorem dataOf_cases (line : string) :
  (Sse.dataOf line = None <->
   startsWith (trim line) "data: " = false \/ trim line = "data: [DONE]") /\
  (forall d, Sse.dataOf line = Some d <->
             trim line = "data: " +:+ d /\ d <> "[DONE]") /\
  (forall d, Sse.dataOf line = Some d -> d <> "") /\
  (forall c, is_space c = true ->
             Sse.dataOf (String c line) = Sse.dataOf line /\
             Sse.dataOf (line +:+ String c "") = Sse.dataOf line).
Proof.
  assert (Hsome : forall d, Sse.dataOf line = Some d ->
                            trim line = "data: " +:+ d /\ d <> "[DONE]" /\
                            d <> "").
  { intros d. unfold Sse.dataOf.
    destruct (startsWith (trim line) "data: ") eqn:Ep; [|discriminate].
    pose proof (startsWith_drop _ _ Ep) as Hd.
    change (String.length "data: ") with 6 in Hd.
    destruct (String.eqb (drop 6 (trim line)) "") eqn:E1; [discriminate|].
    destruct (String.eqb (drop 6 (trim line)) "[DONE]") eqn:E2;
      [discriminate|].
    cbn [orb]. intros [= <-]. apply String.eqb_neq in E1, E2. auto. }
  assert (Hmk : forall d, trim line = "data: " +:+ d -> d <> "[DONE]" ->
                          Sse.dataOf line = Some d).
  { intros d Ht Hd. unfold Sse.dataOf. rewrite Ht, startsWith_app.
    change (drop 6 ("data: " +:+ d)) with d.
    destruct (String.eqb d "") eqn:E1.
    - apply String.eqb_eq in E1. subst d.
      exfalso. exact (data_prefix_not_alone line Ht).
    - apply String.eqb_neq in Hd. rewrite Hd. reflexivity. }
  split; [|split; [|split]].
  - split.
    + intros Hn. destruct (startsWith (trim line) "data: ") eqn:Ep; [|auto].
      right. pose proof (startsWith_drop _ _ Ep) as Hd.
      change (String.length "data: ") with 6 in Hd.
      destruct (String.eqb (drop 6 (trim line)) "[DONE]") eqn:E2.
      * apply String.eqb_eq in E2. rewrite E2 in Hd. exact Hd.
      * apply String.eqb_neq in E2. rewrite (Hmk _ Hd E2) in Hn.
        discriminate.
    + unfold Sse.dataOf. intros [-> | ->]; reflexivity.
  - intros d. split; [intros H; destruct (Hsome d H); tauto|].
    intros [Ht Hd]. exact (Hmk d Ht Hd).
  - intros d H. destruct (Hsome d H); tauto.
  - intros c Hc. unfold Sse.dataOf.
    rewrite (trim_space_l _ _ Hc), (trim_space_r _ _ Hc). split; reflexivity.
Qed.

(** * The sources list *)

Lemma findIndex_prefix {A : Type} (f : A -> bool) (pre rest : list A) :
  findIndex f (pre ++ rest) = Some (length pre) ->
  forall x, In x pre -> f x = false.
Proof.
  induction pre as [|a pre IH]; intros H x Hx; [destruct Hx|].
  cbn [app findIndex length] in H. destruct (f a) eqn:Ea; [discriminate|].
  destruct (findIndex f (pre ++ rest)) as [n|] eqn:E; [|discriminate].
  cbn in H. injection H as ->. destruct Hx as [<- | Hx]; [exact Ea|].
  exact (IH eq_refl x Hx).
Qed.

Lemma findIndex_first {A : Type} (f : A -> bool) (pre : list A) (c : A)
    (rest : list A) :
  (forall x, In x pre -> f x = false) -> f c = true ->
  findIndex f (pre ++ c :: rest) = Some (length pre).
Proof.
  intros Hpre Hc. induction pre as [|a pre IH]; cbn [app findIndex length].
  - rewrite Hc. reflexivity.
  - rewrite (Hpre a (or_introl eq_refl)), IH; [reflexivity|].
    intros x Hx. apply Hpre. right. exact Hx.
Qed.

(** An element is kept when it has an address that no earlier element has. *)
Lemma first_with_url_spec (pre : list Citation) (c : Citation)
    (rest : list Citation) :
  first_with_url (pre ++ c :: rest) c (length pre) = true <->
  truthy_string (cit_url c) = true /\
  forall p, In p pre -> cit_url p <> cit_url c.
Proof.
  unfold first_with_url. rewrite andb_true_iff, bool_decide_eq_true.
  split; intros [Ht H]; (split; [exact Ht|]).
  - intros p Hp Heq. pose proof (findIndex_prefix _ _ _ H p Hp) as Hf.
    apply bool_decide_eq_false in Hf. exact (Hf Heq).
  - apply findIndex_first.
    + intros x Hx. apply bool_decide_eq_false. exact (H x Hx).
    + apply bool_decide_eq_true. reflexivity.
Qed.

Lemma filter_from_sublist {A : Type} (f : A -> nat -> bool) (i : nat)
    (l : list A) :
  sublist (filter_from f i l) l.
Proof.
  revert i. induction l as [|c l IH]; intros i; cbn [filter_from].
  - constructor.
  - destruct (f c i); [apply sublist_skip|apply sublist_cons]; apply IH.
Qed.

Lemma uniqueCitations_from (l pre arr : list Citation) :
  arr = pre ++ l ->
  let res := filter_from (first_with_url arr) (length pre) l in
  List.NoDup (map cit_url res) /\
  (forall x, In x res ->
     In x l /\ truthy_string (cit_url x) = true /\
     forall p, In p pre -> cit_url p <> cit_url x) /\
  (forall x, In x l -> truthy_string (cit_url x) = true ->
     (exists p, In p pre /\ cit_url p = cit_url x) \/
     (exists y, In y res /\ cit_url y = cit_url x)).
Proof.
  revert pre. induction l as [|c l IH]; intros pre Harr; cbn zeta.
  - cbn [filter_from map]. split; [constructor|]. split; intros x [].
  - cbn [filter_from].
    assert (Harr' : arr = (pre ++ [c]) ++ l)
      by (rewrite <- app_assoc; exact Harr).
    specialize (IH (pre ++ [c]) Harr'). cbn zeta in IH.
    rewrite length_app, Nat.add_1_r in IH. cbn [length] in IH.
    destruct IH as (Hnd & Hin & Hcov).
    set (res := filter_from (first_with_url arr) (S (length pre)) l) in *.
    assert (Hstep : forall x, In x l -> truthy_string (cit_url x) = true ->
              cit_url c = cit_url x \/
              (exists p, In p pre /\ cit_url p = cit_url x) \/
              (exists y, In y res /\ cit_url y = cit_url x)).
    { intros x Hx Ht. destruct (Hcov x Hx Ht) as [(p & Hp & Hpx) | Hy];
        [|auto].
      apply in_app_or in Hp as [Hp | [<- | []]]; eauto. }
    destruct (first_with_url arr c (length pre)) eqn:Ek.
    + rewrite Harr in Ek. apply first_with_url_spec in Ek as [Ht Hfirst].
      split; [|split].
      * cbn [map]. constructor; [|exact Hnd].
        rewrite in_map_iff. intros (y & Hy & Hyin).
        destruct (Hin y Hyin) as (_ & _ & Hne).
        apply (Hne c); [apply in_or_app; right; left; reflexivity|].
        symmetry. exact Hy.
      * intros x [<- | Hx].
        -- split; [left; reflexivity|]. split; [exact Ht|exact Hfirst].
        -- destruct (Hin x Hx) as (Hl & Htx & Hne).
           split; [right; exact Hl|]. split; [exact Htx|].
           intros p Hp. apply Hne. apply in_or_app. left. exact Hp.
      * intros x [<- | Hx] Htx.
        -- right. exists c. split; [left|]; reflexivity.
        -- destruct (Hstep x Hx Htx) as [Hc | [Hp | (y & Hy & Hyx)]].
           ++ right. exists c. split; [left; reflexivity|exact Hc].
           ++ left. exact Hp.
           ++ right. exists y. split; [right; exact Hy|exact Hyx].
    + split; [exact Hnd|]. split.
      * intros x Hx. destruct (Hin x Hx) as (Hl & Htx & Hne).
        split; [right; exact Hl|]. split; [exact Htx|].
        intros p Hp. apply Hne. apply in_or_app. left. exact Hp.
      * assert (Hc : truthy_string (cit_url c) = true ->
                     exists p, In p pre /\ cit_url p = cit_url c).
        { intros Ht. rewrite Harr in Ek.
          destruct (List.existsb
                      (fun p => bool_decide (cit_url p = cit_url c)) pre)
            eqn:Eex.
          - apply List.existsb_exists in Eex as (p & Hp & Hpc).
            apply bool_decide_eq_true in Hpc. eauto.
          - exfalso. apply not_true_iff_false in Ek. apply Ek.
            apply first_with_url_spec. split; [exact Ht|].
            intros p Hp Hpc. apply not_true_iff_false in Eex. apply Eex.
            apply List.existsb_exists. exists p.
            split; [exact Hp|apply bool_decide_eq_true; exact Hpc]. }
        intros x [<- | Hx] Htx.
        -- left. exact (Hc Htx).
        -- destruct (Hstep x Hx Htx) as [Hcx | [Hp | Hy]]; [|auto|auto].
           left. assert (Htc : truthy_string (cit_url c) = true)
             by (rewrite Hcx; exact Htx).
           destruct (Hc Htc) as (p & Hp & Hpc). exists p.
           split; [exact Hp|]. rewrite Hpc. exact Hcx.
Qed.

(** X18. The sources list shows every cited address exactly once: the
    citations kept have pairwise different addresses, each is a citation of
    the list with a non-empty address, every non-empty address of the list
    is kept, and the citations kept stand in the order of the list.
    Citations without an address are not shown. *)
Theorem uniqueCitations_spec (citations : list Citation) :
  List.NoDup (map cit_url (uniqueCitations citations)) /\
  sublist (uniqueCitations citations) citations /\
  (forall c, In c (uniqueCitations citations) ->
             In c citations /\ truthy_string (cit_url c) = true) /\
  (forall c, In c citations -> truthy_string (cit_url c) = true ->
             exists c', In c' (uniqueCitations citations) /\
                        cit_url c' = cit_url c).
Proof.
  destruct (uniqueCitations_from citations [] citations eq_refl)
    as (Hnd & Hin & Hcov).
  cbn [length] in *. fold (uniqueCitations citations) in *.
  split; [exact Hnd|]. split; [apply filter_from_sublist|]. split.
  - intros c Hc. destruct (Hin c Hc) as (H1 & H2 & _). auto.
  - intros c Hc Ht. destruct (Hcov c Hc Ht) as [(p & [] & _) | Hy].
    exact Hy.
Qed.

(** * The agent provider and the resolution of the agent *)

Section ProviderProperties.

Import AgentProvider.

Variable props : Props.

Lemma hasAgent_getAgent (id : string) :
  hasAgent props id = true <->
  exists a, getAgent props id = Some a /\ agent_id a = id /\
            In a (agents props).
Proof.
  unfold hasAgent, getAgent. split.
  - intros H. apply existsb_exists in H as (a & Ha & Hid).
    destruct (List.find (fun a => String.eqb (agent_id a) id) (agents props))
      as [b|] eqn:E.
    + apply find_some in E as [Hb Hbid]. apply String.eqb_eq in Hbid. eauto.
    + pose proof (find_none _ _ E a Ha) as Hn. cbn beta in Hn. congruence.
  - intros (a & Hf & _ & _). apply find_some in Hf as [Ha Hid].
    apply existsb_exists. eauto.
Qed.

Lemma known_Some (o : option string) :
  known props o = true ->
  exists id, o = Some id /\ hasAgent props id = true /\ id <> "".
Proof.
  destruct o as [[|c s]|]; cbn [known]; try discriminate.
  intros H. exists (String c s). repeat split; [exact H|discriminate].
Qed.

Lemma hasAgent_nil (id : string) : agents props = [] -> hasAgent props id = false.
Proof. unfold hasAgent. intros ->. reflexivity. Qed.

Lemma getInitialAgentId_ok (env : Browser) :
  (forall id, getInitialAgentId props env = Some id ->
              hasAgent props id = true) /\
  (getInitialAgentId props env = None <-> agents props = []).
Proof.
  unfold getInitialAgentId.
  set (saved := if (persistSelection props && has_window env)%bool
                then localStorage env !! storageKey props else None).
  destruct (known props saved) eqn:E1;
    [|destruct (known props (defaultAgentId props)) eqn:E2;
      [|destruct (known props (registry props ≫= reg_defaultAgentId)) eqn:E3]].
  1-3: match goal with
       | H : known props ?o = true |- _ =>
           destruct (known_Some _ H) as (id & Ho & Hhas & _); rewrite Ho
       end;
       (split; [intros ? [= <-]; exact Hhas|]);
       (split; [discriminate|]); intros Hnil;
       rewrite (hasAgent_nil id Hnil) in Hhas; discriminate.
  unfold hasAgent. destruct (agents props) as [|a l]; cbn [head option_map].
  - split; [discriminate|]. split; reflexivity.
  - split; [|split; discriminate]. intros id [= <-]. cbn [existsb].
    rewrite String.eqb_refl. reflexivity.
Qed.

Lemma persist_window (id : option string) (env : Browser) :
  has_window (persist props id env) = has_window env.
Proof.
  unfold persist. destruct id as [[|c s]|]; try reflexivity.
  destruct (persistSelection props && has_window env)%bool; reflexivity.
Qed.

Lemma persist_off (id : option string) (env : Browser) :
  persistSelection props = false -> persist props id env = env.
Proof.
  unfold persist. intros ->. destruct id as [[|c s]|]; reflexivity.
Qed.

Lemma persist_stored (id : string) (env : Browser) :
  persistSelection props = true -> has_window env = true -> id <> "" ->
  localStorage (persist props (Some id) env) !! storageKey props = Some id.
Proof.
  unfold persist. intros -> -> Hid. destruct id as [|c s]; [congruence|].
  cbn [andb localStorage]. apply lookup_insert_eq.
Qed.

Lemma mount_ok (env : Browser) : provider_ok props env (mount props env).
Proof.
  destruct (getInitialAgentId_ok env) as [Hhas Hnil].
  unfold provider_ok, mount. cbn [currentAgentId browser].
  split; [exact Hhas|]. split; [exact Hnil|].
  split; [apply persist_window|]. split; [apply persist_off|].
  intros Hp Hw id -> Hid. exact (persist_stored id env Hp Hw Hid).
Qed.

Lemma select_ok (env : Browser) (st : State) (agentId : string) :
  provider_ok props env st -> provider_ok props env (select props st agentId).
Proof.
  intros (Hhas & Hnil & Hw & Hoff & Hsto). unfold provider_ok, select.
  cbn [currentAgentId browser]. unfold selectAgent.
  destruct (hasAgent props agentId) eqn:E.
  - split; [intros id [= <-]; exact E|].
    split; [split; [discriminate|intros Hn;
                    rewrite (hasAgent_nil agentId Hn) in E; discriminate]|].
    destruct (decide (Some agentId = currentAgentId st)) as [Heq | Hne].
    + split; [exact Hw|]. split; [exact Hoff|].
      intros Hp Hwin id [= <-]. apply (Hsto Hp Hwin). symmetry. exact Heq.
    + split; [rewrite persist_window; exact Hw|].
      split; [intros Hp; rewrite (persist_off _ _ Hp); exact (Hoff Hp)|].
      intros Hp Hwin id [= <-] Hid. apply persist_stored; congruence.
  - destruct (decide (currentAgentId st = currentAgentId st)); [|congruence].
    repeat split; try tauto; auto. all: apply Hnil.
Qed.

Lemma provider_after_ok (env : Browser) (ids : list string) :
  provider_ok props env (provider_after props env ids).
Proof.
  unfold provider_after. generalize (mount_ok env).
  generalize (mount props env). induction ids as [|id ids IH]; intros st Hst.
  - exact Hst.
  - cbn [fold_left]. apply IH. apply select_ok. exact Hst.
Qed.

(** X20. With [persistSelection] in a browser, the selection survives a
    new mounting: a provider mounted on the storage left by an earlier one
    starts with the agent that was selected last (if its id is not the
    empty string). Without [persistSelection] the storage is left as it
    was. *)
Theorem provider_selection_restored (env : Browser) (ids : list string) :
  let st := provider_after props env ids in
  (persistSelection props = true -> has_window env = true ->
   forall id, currentAgentId st = Some id -> id <> "" ->
              currentAgentId (mount props (browser st)) = Some id) /\
  (persistSelection props = false -> browser st = env).
Proof.
  cbn zeta. destruct (provider_after_ok env ids)
    as (Hhas & _ & Hw & Hoff & Hsto).
  split; [|exact Hoff]. intros Hp Hwin id Hid Hne.
  unfold mount. cbn [currentAgentId]. unfold getInitialAgentId.
  rewrite Hp, Hw, Hwin. cbn [andb].
  rewrite (Hsto Hp Hwin id Hid Hne).
  destruct id as [|c s]; [congruence|]. cbn [known].
  rewrite (Hhas _ Hid). reflexivity.
Qed.

End ProviderProperties.

Lemma hasAgent_agents (p q : AgentProvider.Props) (id : string) :
  AgentProvider.agents p = AgentProvider.agents q ->
  AgentProvider.hasAgent p id = AgentProvider.hasAgent q id.
Proof. unfold AgentProvider.hasAgent. intros ->. reflexivity. Qed.

(** While the list of agents stays the one of the mounting, the selection
    is empty only if the list is, and names an agent of the list. *)
Lemma selection_after_ok (props0 props : AgentProvider.Props)
    (env : AgentProvider.Browser) (calls : list (AgentProvider.Props * string)) :
  AgentProvider.agents props0 = AgentProvider.agents props ->
  Forall (fun call => AgentProvider.agents (fst call) = AgentProvider.agents props)
         calls ->
  (selection_after props0 env calls = None <-> AgentProvider.agents props = []) /\
  (forall id, selection_after props0 env calls = Some id ->
              AgentProvider.hasAgent props id = true).
Proof.
  intros H0 Hcalls. unfold selection_after.
  assert (Hinit :
    (AgentProvider.getInitialAgentId props0 env = None <->
     AgentProvider.agents props = []) /\
    (forall id, AgentProvider.getInitialAgentId props0 env = Some id ->
                AgentProvider.hasAgent props id = true)).
  { destruct (getInitialAgentId_ok props0 env) as [Hhas Hnil].
    rewrite <- H0. split; [exact Hnil|].
    intros id Hid. rewrite <- (hasAgent_agents props0 props id H0).
    exact (Hhas id Hid). }
  revert Hinit. generalize (AgentProvider.getInitialAgentId props0 env).
  induction Hcalls as [|[q i] calls Hq _ IH]; intros cur Hcur; [exact Hcur|].
  cbn [fold_left fst snd]. apply IH. cbn [fst] in Hq.
  unfold AgentProvider.selectAgent.
  rewrite (hasAgent_agents q props i Hq).
  destruct (AgentProvider.hasAgent props i) eqn:E; [|exact Hcur].
  split.
  - split; [discriminate|]. intros Hn.
    rewrite (hasAgent_nil props i Hn) in E. discriminate.
  - intros id [= <-]. exact E.
Qed.

Lemma getInitialAgentId_no_agents (props0 : AgentProvider.Props)
    (env : AgentProvider.Browser) :
  AgentProvider.agents props0 = [] ->
  AgentProvider.getInitialAgentId props0 env = None.
Proof. intros H. apply (getInitialAgentId_ok props0 env). exact H. Qed.

(** X19. The provider has a valid selection as long as its list of agents
    is the one it was mounted with: after the mounting and whatever
    [selectAgent] was called with, no agent is selected exactly when the
    list is empty, and a selected id is the id of the current agent, which
    is an agent of the list; a persisted, a default or a requested id that
    names no agent never becomes the selection. The selection is made once,
    at the mounting: a provider mounted without agents has no current agent
    whatever agents it is given later, until [selectAgent] is called. *)
Theorem provider_selection_valid (props0 props : AgentProvider.Props)
    (env : AgentProvider.Browser) (calls : list (AgentProvider.Props * string)) :
  (AgentProvider.agents props0 = AgentProvider.agents props ->
   Forall (fun call => AgentProvider.agents (fst call) = AgentProvider.agents props)
          calls ->
   (selection_after props0 env calls = None <->
    AgentProvider.agents props = []) /\
   (forall id, selection_after props0 env calls = Some id ->
      exists a,
        AgentProvider.currentAgent props (selection_after props0 env calls)
        = Some a /\
        agent_id a = id /\ In a (AgentProvider.agents props))) /\
  (AgentProvider.agents props0 = [] ->
   selection_after props0 env [] = None /\
   AgentProvider.currentAgent props (selection_after props0 env []) = None).
Proof.
  split.
  - intros H0 Hcalls.
    destruct (selection_after_ok props0 props env calls H0 Hcalls)
      as [Hnil Hhas].
    split; [exact Hnil|]. intros id Hid. rewrite Hid.
    cbn [AgentProvider.currentAgent].
    apply hasAgent_getAgent. exact (Hhas id Hid).
  - intros H0. unfold selection_after. cbn [fold_left].
    rewrite (getInitialAgentId_no_agents props0 env H0). split; reflexivity.
Qed.

(** X21. Inside a provider whose list of agents is not empty and is the one
    it was mounted with, a chat component that is given neither an agent
    nor an agent id talks to the provider's current agent, whatever
    [agentUrl] says; so does the hook. In a provider that was mounted
    without agents there is no current agent, whatever agents it has now:
    the hook has no agent, and the chat component resolves its agent as it
    does outside of a provider, from [agentUrl]. *)
Theorem chat_in_provider (props0 props : AgentProvider.Props)
    (env : AgentProvider.Browser) (calls : list (AgentProvider.Props * string))
    (p : ChatAgentProps) :
  chat_agent p = None -> truthy_string (chat_agentId p) = false ->
  (AgentProvider.agents props0 = AgentProvider.agents props ->
   Forall (fun call => AgentProvider.agents (fst call) = AgentProvider.agents props)
          calls ->
   AgentProvider.agents props <> [] ->
   let ctx := contextAt props (selection_after props0 env calls) in
   exists a, resolveChatAgent p (Some ctx) = Some a /\
             resolveHookAgent None (chat_agentId p) (Some ctx) = Some a /\
             In a (AgentProvider.agents props) /\
             Some (agent_id a) = selection_after props0 env calls) /\
  (AgentProvider.agents props0 = [] ->
   let ctx := contextAt props (selection_after props0 env []) in
   resolveHookAgent None (chat_agentId p) (Some ctx) = None /\
   resolveChatAgent p (Some ctx) = resolveChatAgent p None).
Proof.
  intros Hagent Hid. split.
  - intros H0 Hcalls Hne. cbn zeta.
    destruct (selection_after_ok props0 props env calls H0 Hcalls)
      as [Hnil Hhas].
    destruct (selection_after props0 env calls) as [id|] eqn:Ecur;
      [|exfalso; apply Hne; apply Hnil; reflexivity].
    destruct (proj1 (hasAgent_getAgent props id) (Hhas id eq_refl))
      as (a & Hget & Haid & Hin).
    exists a. unfold resolveChatAgent, resolveHookAgent, contextAt.
    rewrite Hagent, Hid.
    cbn [AgentProvider.currentAgent mbind option_bind ctx_currentAgent].
    rewrite Hget. repeat split; [exact Hin|congruence].
  - intros H0. cbn zeta. unfold selection_after. cbn [fold_left].
    rewrite (getInitialAgentId_no_agents props0 env H0).
    unfold resolveChatAgent, resolveHookAgent, contextAt.
    rewrite Hagent, Hid.
    cbn [AgentProvider.currentAgent mbind option_bind ctx_currentAgent].
    split; reflexivity.
Qed.

(** X22. The chat component and the hook resolve the agent alike when no
    [agentUrl] is given. An [agentId] that the provider does not know gives
    no agent, also when [agentUrl] is given: the chat component does not fall
    back on the address. *)
Theorem resolve_agent (p : ChatAgentProps)
    (agentContext : option AgentContextValue) :
  (truthy_string (chat_agentUrl p) = false ->
   resolveChatAgent p agentContext =
   resolveHookAgent (chat_agent p) (chat_agentId p) agentContext) /\
  (forall ctx id,
     chat_agent p = None -> chat_agentId p = Some id -> id <> "" ->
     agentContext = Some ctx -> ctx_getAgent ctx id = None ->
     resolveChatAgent p agentContext = None).
Proof.
  unfold resolveChatAgent, resolveHookAgent. split.
  - intros ->. destruct (chat_agent p); [reflexivity|].
    destruct (truthy_string (chat_agentId p)), agentContext as [ctx|];
      cbn [mbind option_bind]; try reflexivity.
    destruct (ctx_currentAgent ctx); reflexivity.
  - intros ctx id -> -> Hid -> Hget. destruct id as [|c s]; [congruence|].
    cbn [truthy_string default]. exact Hget.
Qed.

(** * The form renderer *)

Section FormProperties.

Import FormRenderer.

Variable RegExp_test : string -> string -> option bool.
Variable Array_prototype_has : string -> bool.

Lemma app_nonempty_r (s t : string) : t <> "" -> s +:+ t <> "".
Proof.
  intros Ht. destruct s as [|c s]; [rewrite app_empty_l; exact Ht|].
  rewrite app_String. discriminate.
Qed.

(** A message is never the empty string, so that [if (error)] holds of
    every message. *)
Lemma validateField_message (field : FormField) (value : JSValue)
    (message : string) :
  validateField RegExp_test field value = Ok (Some message) -> message <> "".
Proof.
  unfold validateField.
  destruct (default false (field_required field) &&
            (strict_eq_str value "" || nullish value))%bool.
  { intros [= <-]. apply app_nonempty_r. discriminate. }
  destruct (field_validation field) as [v|]; [|discriminate].
  destruct value as [| |b|n|s|items|fields]; try discriminate.
  - destruct (v_min v) as [m|]; [destruct (n <? m)%Z|];
      try (intros [= <-]; apply app_nonempty_r; discriminate);
      (destruct (v_max v) as [M|]; [destruct (M <? n)%Z|]); try discriminate;
      intros [= <-]; apply app_nonempty_r; discriminate.
  - assert (Hp : match v_pattern v with
                 | Some (String _ _ as pattern) =>
                     let* ok := regexp_test RegExp_test pattern s in
                     if ok then Ok None
                     else Ok (Some match v_patternMessage v with
                                   | Some (String _ _ as message) => message
                                   | _ => field_label field
                                          +:+ " has an invalid format"
                                   end)
                 | _ => Ok None
                 end = Ok (Some message) -> message <> "").
    { destruct (v_pattern v) as [[|c p]|]; try discriminate.
      destruct (regexp_test RegExp_test (String c p) s) as [[|]|e];
        cbn [bind]; try discriminate.
      destruct (v_patternMessage v) as [[|c' m]|]; intros [= <-];
        try discriminate; apply app_nonempty_r; discriminate. }
    destruct (v_minLength v) as [m|];
      [destruct (Z.of_nat (String.length s) <? m)%Z|];
      try (intros [= <-]; apply app_nonempty_r; discriminate);
      (destruct (v_maxLength v) as [M|];
       [destruct (M <? Z.of_nat (String.length s))%Z|]); try exact Hp;
      intros [= <-]; apply app_nonempty_r; discriminate.
Qed.

Lemma validateRead_message (field : FormField) (value : PlainObject.Read)
    (message : string) :
  validateRead RegExp_test field value = Ok (Some message) -> message <> "".
Proof.
  destruct value as [v|]; cbn [validateRead]; [|discriminate].
  apply validateField_message.
Qed.

Lemma set_error_cases (errs : gmap string string) (name message : string) :
  (name = "__proto__" /\ set_error errs name message = errs) \/
  (name <> "__proto__" /\ set_error errs name message = <[name := message]> errs).
Proof.
  unfold set_error. destruct (String.eqb_spec name "__proto__"); auto.
Qed.

Lemma collectError_cases (values : PlainObject.t)
    (acc errs : gmap string string) (field : FormField) :
  collectError RegExp_test Array_prototype_has values acc field = Ok errs ->
  (exists o,
     validateRead RegExp_test field
       (valueOf Array_prototype_has values (field_name field)) = Ok o /\
     (o = None \/ field_name field = "__proto__") /\ errs = acc) \/
  (exists message,
     validateRead RegExp_test field
       (valueOf Array_prototype_has values (field_name field))
     = Ok (Some message) /\
     field_name field <> "__proto__" /\
     errs = <[field_name field := message]> acc).
Proof.
  unfold collectError.
  destruct (validateRead RegExp_test field
              (valueOf Array_prototype_has values (field_name field)))
    as [[m|]|e] eqn:E; cbn [bind]; [| |discriminate].
  - pose proof (validateRead_message _ _ _ E) as Hm.
    destruct m as [|c m]; [congruence|]. intros [= <-].
    destruct (set_error_cases acc (field_name field) (String c m))
      as [[Hn ->] | [Hn ->]].
    + left. exists (Some (String c m)). auto.
    + right. exists (String c m). auto.
  - intros [= <-]. left. exists None. auto.
Qed.

Lemma collectErrors_empty (values : PlainObject.t)
    (fields : list FormField) (acc : gmap string string) :
  collectErrors RegExp_test Array_prototype_has values fields acc = Ok ∅ ->
  acc = ∅ /\ forall f, In f fields -> field_passes RegExp_test Array_prototype_has values f.
Proof.
  revert acc. induction fields as [|g rest IH]; intros acc; cbn [collectErrors].
  - intros [= ->]. split; [reflexivity|]. intros f [].
  - destruct (collectError RegExp_test Array_prototype_has values acc g)
      as [acc'|e] eqn:E; cbn [bind]; [|discriminate].
    intros H. destruct (IH _ H) as [-> Hrest].
    destruct (collectError_cases _ _ _ _ E)
      as [(o & Ho & Hpass & <-) | (m & _ & _ & Hins)].
    + split; [reflexivity|]. intros f [<- | Hf]; [exists o|]; auto.
    + exfalso. symmetry in Hins. exact (insert_non_empty _ _ _ Hins).
Qed.

Lemma collectErrors_valid (values : PlainObject.t)
    (fields : list FormField) (acc : gmap string string) :
  (forall f, In f fields -> field_passes RegExp_test Array_prototype_has values f) ->
  collectErrors RegExp_test Array_prototype_has values fields acc = Ok acc.
Proof.
  induction fields as [|g rest IH]; intros H; cbn [collectErrors];
    [reflexivity|].
  destruct (H g (or_introl eq_refl)) as (o & Ho & Hpass).
  unfold collectError. rewrite Ho. cbn [bind].
  assert (Hsame : match o with
                  | Some (String _ _ as message) =>
                      set_error acc (field_name g) message
                  | _ => acc
                  end = acc).
  { destruct Hpass as [-> | Hn]; [reflexivity|].
    destruct o as [[|c m]|]; try reflexivity.
    unfold set_error. rewrite Hn. reflexivity. }
  rewrite Hsame. apply IH. intros f Hf. apply H. right. exact Hf.
Qed.

Lemma collectErrors_lookup (values : PlainObject.t)
    (fields : list FormField) (acc errs : gmap string string)
    (name message : string) :
  collectErrors RegExp_test Array_prototype_has values fields acc = Ok errs ->
  errs !! name = Some message ->
  acc !! name = Some message \/
  (name <> "__proto__" /\
   exists f, In f fields /\ field_name f = name /\
             validateRead RegExp_test f (valueOf Array_prototype_has values name)
             = Ok (Some message)).
Proof.
  revert acc. induction fields as [|g rest IH]; intros acc; cbn [collectErrors].
  - intros [= ->] H. left. exact H.
  - destruct (collectError RegExp_test Array_prototype_has values acc g)
      as [acc'|e] eqn:E; cbn [bind]; [|discriminate].
    intros H Hl. destruct (IH _ H Hl) as [Hacc | (Hn & f & Hf & Hname & Hv)].
    + destruct (collectError_cases _ _ _ _ E)
        as [(o & _ & _ & ->) | (m & Hm & Hg & ->)]; [left; exact Hacc|].
      apply lookup_insert_Some in Hacc as [[Hname ->] | [_ Hacc]];
        [|left; exact Hacc].
      right. split; [congruence|].
      exists g. split; [left; reflexivity|]. split; [exact Hname|].
      rewrite <- Hname. exact Hm.
    + right. split; [exact Hn|]. exists f. split; [right; exact Hf|]. auto.
Qed.

Lemma size_positive (errs : gmap string string) :
  Nat.ltb 0 (size errs) = false <-> errs = ∅.
Proof.
  rewrite Nat.ltb_ge, <- map_size_empty_iff. lia.
Qed.

(** X23. The check of a required field: an empty string, [null] or
    [undefined] gives the message that the field is required, whatever the
    other rules are and without the pattern being compiled; a truth value,
    also [false], passes every check, so that a required check box is
    accepted unchecked. *)
Theorem validateField_required (field : FormField) (value : JSValue) :
  field_required field = Some true ->
  ((strict_eq_str value "" || nullish value)%bool = true ->
   validateField RegExp_test field value
   = Ok (Some (field_label field +:+ " is required"))) /\
  (forall b, validateField RegExp_test field (JBool b) = Ok None).
Proof.
  intros Hreq. unfold validateField. rewrite Hreq. cbn [default andb]. split.
  - intros ->. reflexivity.
  - intros b. cbn [strict_eq_str nullish orb].
    destruct (field_validation field); reflexivity.
Qed.

(** X24. The bounds [min] and [max] are checked on numbers only: a number
    passes exactly when it lies within the bounds that are given, and the
    check of a number never throws; for a string the bounds are not looked
    at. *)
Theorem validateField_bounds (field : FormField) (v : FormFieldValidation)
    (n : Z) :
  field_validation field = Some v ->
  (validateField RegExp_test field (JNum n) = Ok None <->
   (forall min, v_min v = Some min -> (min <= n)%Z) /\
   (forall max, v_max v = Some max -> (n <= max)%Z)) /\
  (exists o, validateField RegExp_test field (JNum n) = Ok o) /\
  (forall s, validateField RegExp_test field (JStr s) =
             validateField RegExp_test
               (with_validation field (Some (without_bounds v))) (JStr s)).
Proof.
  intros Hv. unfold validateField. rewrite Hv.
  cbn [strict_eq_str nullish orb andb]. rewrite andb_false_r.
  split; [|split].
  - destruct (v_min v) as [m|], (v_max v) as [M|];
      repeat match goal with
             | |- context [(?a <? ?b)%Z] =>
                 destruct (Z.ltb_spec a b)
             end;
      split; try discriminate; try reflexivity;
      try (intros _; split; intros ? [= <-]; lia);
      try (intros _; split; intros ? [=]; lia);
      intros [H1 H2];
      try (specialize (H1 _ eq_refl)); try (specialize (H2 _ eq_refl)); lia.
  - destruct (v_min v) as [m|]; [destruct (n <? m)%Z|]; eauto.
  - intros s. reflexivity.
Qed.

(** X25. [handleSubmit] calls [onSubmit], with the values as they are,
    exactly when every field passes: its check gives no message, or the
    field is named [__proto__], under which name no message can be stored
    in the object of errors, so that a failing field of this name does not
    hold the form back. When [handleSubmit] shows errors instead, there is
    at least one, none is under [__proto__], and every error shown is the
    message that the check gives for a field of that name. *)
Theorem handleSubmit_spec (fields : list FormField)
    (values : PlainObject.t) :
  (handleSubmit RegExp_test Array_prototype_has fields values
   = Ok (Submitted values) <->
   forall f, In f fields ->
     exists o,
       validateRead RegExp_test f
         (valueOf Array_prototype_has values (field_name f)) = Ok o /\
       (o = None \/ field_name f = "__proto__")) /\
  (forall submitted,
     handleSubmit RegExp_test Array_prototype_has fields values
     = Ok (Submitted submitted) ->
     submitted = values) /\
  (forall errors,
     handleSubmit RegExp_test Array_prototype_has fields values
     = Ok (ShowErrors errors) ->
     errors <> ∅ /\
     forall name message, errors !! name = Some message ->
       name <> "__proto__" /\
       exists f, In f fields /\ field_name f = name /\
                 validateRead RegExp_test f
                   (valueOf Array_prototype_has values name)
                 = Ok (Some message)).
Proof.
  unfold handleSubmit. split; [|split].
  - split.
    + destruct (collectErrors RegExp_test Array_prototype_has values fields ∅)
        as [errs|e] eqn:E; cbn [bind]; [|discriminate].
      destruct (Nat.ltb 0 (size errs)) eqn:Es; [discriminate|]. intros _.
      apply size_positive in Es. subst errs.
      exact (proj2 (collectErrors_empty _ _ _ E)).
    + intros H. rewrite (collectErrors_valid values fields ∅ H). reflexivity.
  - intros submitted.
    destruct (collectErrors RegExp_test Array_prototype_has values fields ∅)
      as [errs|e]; cbn [bind]; [|discriminate].
    destruct (Nat.ltb 0 (size errs)); [discriminate|]. intros [= <-].
    reflexivity.
  - intros errors.
    destruct (collectErrors RegExp_test Array_prototype_has values fields ∅)
      as [errs|e] eqn:E; cbn [bind]; [|discriminate].
    destruct (Nat.ltb 0 (size errs)) eqn:Es; [|discriminate]. intros [= <-].
    split.
    + intros Hempty. apply size_positive in Hempty. congruence.
    + intros name message Hl.
      destruct (collectErrors_lookup _ _ _ _ _ _ E Hl) as [Habs | H];
        [|exact H].
      rewrite lookup_empty in Habs. discriminate.
Qed.

Lemma assign_own_other (o : PlainObject.t) (name k : string) (v : JSValue) :
  k <> name ->
  PlainObject.own (PlainObject.assign o name v) !! k = PlainObject.own o !! k.
Proof.
  intros Hk. unfold PlainObject.assign, PlainObject.set_own,
    PlainObject.set_prototype.
  destruct (negb (String.eqb name "__proto__"));
    [cbn [PlainObject.own]; apply lookup_insert_ne; congruence|].
  destruct (PlainObject.own o !! name);
    [cbn [PlainObject.own]; apply lookup_insert_ne; congruence|].
  destruct (PlainObject.proto o) as [| |fields|items];
    try destruct (assoc name fields);
    try (cbn [PlainObject.own]; apply lookup_insert_ne; congruence);
    destruct v; reflexivity.
Qed.

Lemma assign_own_same (o : PlainObject.t) (name : string) (v : JSValue) :
  name <> "__proto__" ->
  PlainObject.own (PlainObject.assign o name v) !! name = Some v.
Proof.
  intros Hn. unfold PlainObject.assign. apply String.eqb_neq in Hn.
  rewrite Hn. cbn [negb PlainObject.set_own PlainObject.own].
  apply lookup_insert_eq.
Qed.

Lemma initialValues_other (fields : list FormField) (acc : PlainObject.t)
    (name : string) :
  ~ In name (map field_name fields) ->
  PlainObject.own
    (fold_left (fun initial field =>
                  PlainObject.assign initial (field_name field)
                    (initialValue field))
               fields acc) !! name
  = PlainObject.own acc !! name.
Proof.
  revert acc. induction fields as [|g rest IH]; intros acc Hn;
    cbn [fold_left]; [reflexivity|].
  cbn [map In] in Hn. rewrite IH by tauto.
  apply assign_own_other. intros ->. tauto.
Qed.

Lemma initialValues_lookup (fields : list FormField) (f : FormField) :
  List.NoDup (map field_name fields) -> In f fields ->
  field_name f <> "__proto__" ->
  valueOf Array_prototype_has (initialValues fields) (field_name f)
  = PlainObject.Data (initialValue f).
Proof.
  intros Hnd Hin Hname.
  assert (Hown : PlainObject.own (initialValues fields) !! field_name f
                 = Some (initialValue f)).
  { unfold initialValues. generalize PlainObject.empty.
    induction fields as [|g rest IH]; intros acc; [destruct Hin|].
    cbn [map] in Hnd. inversion Hnd as [|? ? Hg Hrest]; subst.
    cbn [fold_left]. destruct Hin as [<- | Hin].
    - rewrite (initialValues_other rest _ _ Hg).
      exact (assign_own_same acc _ _ Hname).
    - exact (IH Hrest Hin _). }
  unfold valueOf, PlainObject.get. rewrite Hown. reflexivity.
Qed.

(** X26. A form that was not touched, with the fields it was mounted
    with, cannot be sent while one of its fields is required, has no
    default value, is not a check box and is not named [__proto__] (the
    names of the fields being pairwise different):
    its initial value is the empty string, which the check of a required
    field refuses. A field named [__proto__] gets no initial value, what is
    read under its name is the prototype of the object, and a form made of
    this field alone is sent untouched. *)
Theorem untouched_form_not_submitted (fields : list FormField)
    (f : FormField) :
  field_required f = Some true ->
  nullish (field_defaultValue f) = true ->
  (List.NoDup (map field_name fields) -> In f fields ->
   field_type f <> "checkbox" ->
   field_name f <> "__proto__" ->
   valueOf Array_prototype_has (initialValues fields) (field_name f)
   = PlainObject.Data (JStr "") /\
   forall submitted,
     handleSubmit RegExp_test Array_prototype_has fields (initialValues fields)
     <> Ok (Submitted submitted)) /\
  (field_name f = "__proto__" ->
   initialValues [f] = PlainObject.empty /\
   valueOf Array_prototype_has (initialValues [f]) (field_name f)
   = PlainObject.Host /\
   handleSubmit RegExp_test Array_prototype_has [f] (initialValues [f])
   = Ok (Submitted PlainObject.empty)).
Proof.
  intros Hreq Hdef. split.
  - intros Hnd Hin Htype Hname.
    assert (Hval : valueOf Array_prototype_has (initialValues fields)
                     (field_name f) = PlainObject.Data (JStr "")).
    { rewrite (initialValues_lookup _ _ Hnd Hin Hname). unfold initialValue.
      rewrite Hdef. apply String.eqb_neq in Htype. rewrite Htype.
      reflexivity. }
    split; [exact Hval|]. intros submitted H. unfold handleSubmit in H.
    destruct (collectErrors RegExp_test Array_prototype_has
                (initialValues fields) fields ∅)
      as [errs|e] eqn:E; cbn [bind] in H; [|discriminate].
    destruct (Nat.ltb 0 (size errs)) eqn:Es; [discriminate|].
    apply size_positive in Es. subst errs.
    destruct (proj2 (collectErrors_empty _ _ _ E) f Hin) as (o & Ho & Hpass).
    rewrite Hval in Ho. cbn [validateRead] in Ho.
    unfold validateField in Ho. rewrite Hreq in Ho. cbn in Ho.
    injection Ho as <-. destruct Hpass as [Hp | Hp]; [discriminate|].
    contradiction.
  - intros Hname.
    assert (Hinit : initialValues [f] = PlainObject.empty).
    { unfold initialValues. cbn [fold_left]. unfold PlainObject.assign.
      rewrite Hname. cbn. unfold initialValue. rewrite Hdef.
      destruct (String.eqb (field_type f) "checkbox"); reflexivity. }
    split; [exact Hinit|]. rewrite Hinit, Hname. split; [reflexivity|].
    unfold handleSubmit. cbn [collectErrors]. unfold collectError.
    rewrite Hname.
    change (valueOf Array_prototype_has PlainObject.empty "__proto__")
      with PlainObject.Host.
    reflexivity.
Qed.

End FormProperties.

(** * Form requests *)

Lemma js_prop_truthy (v : JSValue) (k : string) :
  truthy v = true -> js_prop v k = Ok (js_get v k).
Proof. destruct v; try discriminate; reflexivity. Qed.

Lemma js_get_falsy (v : JSValue) (k : string) :
  truthy v = false -> js_get v k = JUndefined.
Proof. destruct v; try discriminate; reflexivity. Qed.

Lemma extractFormRequest_spec (chunk : JSValue) :
  truthy chunk = true ->
  ChatForm.extractFormRequest chunk =
  Ok (if truthy (form_request_of chunk) then Some (form_request_of chunk)
      else None).
Proof.
  intros Ht. unfold ChatForm.extractFormRequest, form_request_of.
  rewrite (js_prop_truthy _ _ Ht). cbn [bind].
  destruct (truthy (js_get (js_get (js_get chunk "status") "message")
                      "metadata")) eqn:Em; cbn [negb].
  - destruct (truthy (js_get _ ChatForm.FORM_REQUEST_URI)); reflexivity.
  - rewrite (js_get_falsy _ ChatForm.FORM_REQUEST_URI Em). reflexivity.
Qed.


(** X27. A result of the stream opens a form exactly when its status state
    is [input-required] and the metadata of its status message hold a
    truthy value under the form-request address; the form is then that
    value and the pending task is the result's [taskId]. Every other
    result, also one that holds a form request elsewhere or in another
    state, leaves the form state as it is. *)
Theorem form_request_detection (result : JSValue) (st : ChatForm.FormState) :
  truthy result = true ->
  ChatForm.onResult result st =
  if asks_for_input result
  then {| ChatForm.currentFormRequest := Some (form_request_of result);
          ChatForm.pendingTaskId := js_get result "taskId" |}
  else st.
Proof.
  intros Ht. unfold ChatForm.onResult, asks_for_input.
  rewrite (js_prop_truthy _ "status" Ht), (extractFormRequest_spec _ Ht),
    (js_prop_truthy _ "taskId" Ht).
  cbn [bind].
  destruct (strict_eq_str (js_get (js_get result "status") "state")
              "input-required"); [|reflexivity].
  cbn [andb bind]. destruct (truthy (form_request_of result)); reflexivity.
Qed.

(** X28. A form is answered at most once, and only for a known task: with
    a truthy pending task id, [handleFormSubmit] hands on one message with
    that id and the values and closes the form, after which a further
    submission changes nothing and sends nothing; with no
    pending task id the submission sends nothing and leaves the form open.
    So a form opened by a result that has no [taskId] cannot be sent. *)
Theorem form_answered_once (st : ChatForm.FormState) (values : JSValue) :
  (truthy (ChatForm.pendingTaskId st) = true ->
   ChatForm.handleFormSubmit st values =
   (ChatForm.closed,
    Some (ChatForm.formResponseMessage (ChatForm.pendingTaskId st) values)) /\
   forall values',
     ChatForm.handleFormSubmit
       (fst (ChatForm.handleFormSubmit st values)) values'
     = (ChatForm.closed, None)) /\
  (truthy (ChatForm.pendingTaskId st) = false ->
   ChatForm.handleFormSubmit st values = (st, None)) /\
  (forall result st0,
     truthy result = true -> asks_for_input result = true ->
     truthy (js_get result "taskId") = false ->
     st = ChatForm.onResult result st0 ->
     ChatForm.handleFormSubmit st values = (st, None) /\
     ChatForm.currentFormRequest st = Some (form_request_of result)).
Proof.
  unfold ChatForm.handleFormSubmit. split; [|split].
  - intros ->. cbn [negb fst]. split; reflexivity.
  - intros ->. reflexivity.
  - intros result st0 Ht Hask Htask ->.
    apply andb_prop in Hask as [Hstate Hform]. unfold ChatForm.onResult.
    rewrite (js_prop_truthy _ "status" Ht), (extractFormRequest_spec _ Ht),
      (js_prop_truthy _ "taskId" Ht).
    cbn [bind]. rewrite Hstate, Hform.
    cbn [bind try_catch ChatForm.pendingTaskId ChatForm.currentFormRequest].
    rewrite Htask. split; reflexivity.
Qed.





Lemma translateTask_plain_text_witness :
  translateTask JSON_parse_fragment
    (task_of [ artifact_of "a" [hello_part; textless_part] (Some citation_metadata);
               artifact_of "b" [hello_part] None ]) =
  Ok [ textMessage (Some "Hello") (Some citation_metadata);
       textMessage None (Some citation_metadata);
       textMessage (Some "Hello") None ].
Proof.
  exact (translateTask_plain_text JSON_parse_fragment
           (task_of [ artifact_of "a" [hello_part; textless_part]
                        (Some citation_metadata);
                      artifact_of "b" [hello_part] None ]) eq_refl).
Defined.

Lemma translatePart_metadata_witness :
  translatePart JSON_parse_fragment photo_part
    (Some (artifact_of "a" [photo_part] (Some citation_metadata))) =
  Ok (Some (set_metadata photo_message citation_metadata)) /\
  metadata (set_metadata photo_message citation_metadata) = Some citation_metadata.
Proof.
  split; [reflexivity|].
  exact (translatePart_metadata JSON_parse_fragment photo_part
           (Some (artifact_of "a" [photo_part] (Some citation_metadata)))
           (set_metadata photo_message citation_metadata) eq_refl).
Defined.

Lemma streaming_and_batch_witness :
  extractTrajectoryFromMetadata (Some bare_metadata) = Some thinking_record /\
  translateStreamingPart JSON_parse_fragment hello_part (Some bare_metadata) =
  Ok (Some thinking_message) /\
  translateTask JSON_parse_fragment
    (task_of [artifact_of "first" [hello_part] (Some bare_metadata)]) =
  Ok [thinking_message; textMessage (Some "Hello") (Some bare_metadata)].
Proof.
  split; [reflexivity|].
  exact (proj2 (proj2 (streaming_and_batch JSON_parse_fragment hello_part
                         (Some bare_metadata) "first"))
           thinking_record thinking_message
           (textMessage (Some "Hello") (Some bare_metadata))
           eq_refl eq_refl eq_refl).
Defined.

Lemma translateTask_length_witness :
  translateTask JSON_parse_fragment two_artifact_task =
  Ok [ thinking_message; textMessage (Some "Hello") (Some bare_metadata);
       photo_message ] /\
  length [ thinking_message; textMessage (Some "Hello") (Some bare_metadata);
           photo_message ] <= 2 + 2.
Proof.
  split; [reflexivity|].
  exact (translateTask_length JSON_parse_fragment two_artifact_task _ eq_refl).
Defined.

Lemma translateTrajectory_errors_witness :
  translateTask JSON_parse_fragment
    (task_of [ artifact_of "first" [hello_part] None;
               artifact_of "second" [hello_part] (Some numbered_metadata) ]) =
  Throw (TypeError "title.toLowerCase is not a function") /\
  translateTrajectory JSON_parse_fragment unprintable_name_trajectory =
  Throw (TypeError "Cannot convert object to primitive value").
Proof.
  split.
  - exact (proj2 (proj2 (proj2 (translateTrajectory_errors JSON_parse_fragment)))
             [artifact_of "first" [hello_part] None]
             (artifact_of "second" [hello_part] (Some numbered_metadata)) []
             [textMessage (Some "Hello") None]
             (TypeError "title.toLowerCase is not a function")
             "task" "completed" [] eq_refl eq_refl).
  - exact (proj1 (proj2 (translateTrajectory_errors JSON_parse_fragment))
             unprintable_name_trajectory unprintable_name_content
             (json_text "{'type':'tool_call','tool_name':{'toString':1}} ")
             (JObj [("type", JStr "tool_call");
                    ("tool_name", JObj [("toString", JNum 1)])])
             (TypeError "Cannot convert object to primitive value")
             eq_refl eq_refl eq_refl eq_refl eq_refl eq_refl eq_refl eq_refl
             eq_refl).
Defined.

Lemma inferContentTypeFromTitle_case_witness :
  inferContentTypeFromTitle (JStr "CALLING the Result") =
  Ok (Some CONTENT_TYPES.TOOL_CALL) /\
  inferContentTypeFromTitle (JStr "SEARCH completed") =
  inferContentTypeFromTitle (JStr "search COMPLETED").
Proof.
  split.
  - exact (proj2 (proj2 inferContentTypeFromTitle_case) "CALLING the Result"
             eq_refl).
  - exact (proj1 inferContentTypeFromTitle_case "SEARCH completed"
             "search COMPLETED" eq_refl).
Defined.

Lemma parseJsonBlock_tool_result_witness :
  exists r,
    parseJsonBlock JSON_parse_fragment legacy_result_json = Ok (Some r) /\
    pc_status r = JStr "error" /\ pc_toolName r = JStr "fetch".
Proof.
  destruct (parseJsonBlock_tool_result JSON_parse_fragment legacy_result_json
              (JObj [ ("type", JStr "tool_result");
                      ("tool_data", JObj [ ("tool_name", JStr "fetch");
                                           ("status", JStr "error") ]) ])
              eq_refl eq_refl eq_refl eq_refl eq_refl)
    as (r & Hr & _ & _ & _ & Hnested & _ & _ & Hname & _).
  exists r. split; [exact Hr|]. split.
  - exact (Hnested eq_refl eq_refl).
  - exact (Hname eq_refl).
Defined.

Lemma step_description_witness :
  createToolCallFromTrajectory
    (JObj [("title", JStr "Calling fetch"); ("content", JStr "  get the page  ")])
    (parsedOfType "text") =
  Ok (chainOfThoughtMessage {|
        title := JStr "Calling fetch"; tool_name := JStr "fetch";
        description := JStr "get the page"; request := None; response := None;
        status := PROCESSING |}) /\
  description {|
        title := JStr "Calling fetch"; tool_name := JStr "fetch";
        description := JStr "get the page"; request := None; response := None;
        status := PROCESSING |} = JStr "get the page" /\
  forall step,
    createToolCallFromTrajectory
      (JObj [("title", JStr "Calling fetch");
             ("content", JStr (fenced_blocks [(" ", "json {}")] " "))])
      (parsedOfType "text") = Ok (chainOfThoughtMessage step) ->
    description step = JUndefined.
Proof.
  split; [reflexivity|]. split.
  - exact (proj1 (proj2 step_description)
             (JObj [("title", JStr "Calling fetch");
                    ("content", JStr "  get the page  ")])
             (parsedOfType "text") _ "  get the page  "
             (or_introl eq_refl) eq_refl eq_refl).
  - intros step H.
    apply (proj2 (proj2 (proj2 step_description))
             (JObj [("title", JStr "Calling fetch");
                    ("content", JStr (fenced_blocks [(" ", "json {}")] " "))])
             (parsedOfType "text") step [(" ", "json {}")] " "
             (or_introl H) eq_refl).
    + repeat constructor.
    + reflexivity.
Defined.

Lemma parseTrajectoryContent_robust_witness :
  exists r,
    parseTrajectoryContent JSON_parse_fragment
      (JStr "**Result:** done ```json {oops ```") = Ok r /\
    r = keywordFallback "**Result:** done ```json {oops ```".
Proof.
  destruct (parseTrajectoryContent_robust JSON_parse_fragment
              "**Result:** done ```json {oops ```") as (r & Hr & _ & _ & Hbad).
  exists r. split; [exact Hr|].
  exact (Hbad "{oops " eq_refl (or_introl eq_refl)).
Defined.

Lemma file_message_url_witness :
  translateFilePart photo_part None = Some photo_message /\
  lookup_key "url" [ ("type", JStr "image"); ("url", fileUrl photo_file);
                     ("alt", JStr "chart.png"); ("caption", JUndefined) ] =
  JStr "data:image/png;base64,iVBORw0KGgo=".
Proof.
  split; [reflexivity|].
  destruct (file_message_url photo_part None photo_file photo_message
              [ ("type", JStr "image"); ("url", fileUrl photo_file);
                ("alt", JStr "chart.png"); ("caption", JUndefined) ]
              eq_refl eq_refl eq_refl (or_introl eq_refl))
    as (u & Hu & _ & _ & Hdata).
  change (lookup_key "url" [ ("type", JStr "image"); ("url", fileUrl photo_file);
                             ("alt", JStr "chart.png"); ("caption", JUndefined) ]
          = JStr u) in Hu.
  rewrite Hu, (Hdata (or_introl eq_refl)). reflexivity.
Defined.

Lemma data_part_and_factories_witness :
  translateDataPart
    {| part_kind := "data"; part_text := None; part_file := None;
       part_data := JObj [ ("type", JStr "tool_call"); ("tool_name", JStr "fetch");
                           ("args", JObj [("url", JStr "x")]) ];
       part_metadata := None |} =
  Ok (Some (createToolCallMessage "fetch" (JObj [("url", JStr "x")]) None)).
Proof.
  exact (proj1 data_part_and_factories
           {| part_kind := "data"; part_text := None; part_file := None;
              part_data := JObj [ ("type", JStr "tool_call");
                                  ("tool_name", JStr "fetch");
                                  ("args", JObj [("url", JStr "x")]) ];
              part_metadata := None |}
           "fetch" None eq_refl eq_refl eq_refl ltac:(discriminate) eq_refl).
Defined.

Lemma extractCitations_idempotent_witness :
  In citation_record (extractCitations (Some citation_metadata)) /\
  is_object_item citation_record = true.
Proof.
  split; [left; reflexivity|].
  exact (proj2 (proj1 (proj2 extractCitations_idempotent)
                  citation_metadata [citation_record] citation_record
                  eq_refl (or_introl eq_refl))).
Defined.

Lemma tool_result_name_from_title_witness :
  exists step,
    createToolResultFromTrajectory
      (JObj [("title", JStr "fetchResult Result")]) (parsedOfType "text") =
    Ok (chainOfThoughtMessage step) /\
    tool_name step = JStr "fetchResult" /\
    title step = JStr "fetchResult Result".
Proof.
  exact (tool_result_name_from_title "fetchResult"
           (JObj [("title", JStr "fetchResult Result")]) (parsedOfType "text")
           ltac:(discriminate) eq_refl eq_refl eq_refl eq_refl).
Defined.


Lemma readAll_chunking_witness :
  text_of ["da"; json_text "ta: {'result': 1}" +:+ newline; "dat"] =
  text_of [json_text "data: {'result': 1}" +:+ newline +:+ "dat"] /\
  Sse.hookResult JSON_parse_fragment
    ["da"; json_text "ta: {'result': 1}" +:+ newline; "dat"] = Some (JNum 1).
Proof.
  split; [reflexivity|].
  rewrite (proj1 (proj2 (readAll_chunking JSON_parse_fragment
    ["da"; json_text "ta: {'result': 1}" +:+ newline; "dat"]
    [json_text "data: {'result': 1}" +:+ newline +:+ "dat"] eq_refl))).
  vm_compute. reflexivity.
Defined.

Lemma unterminated_line_dropped_witness :
  no_newline (json_text "data: {'result': 2}") = true /\
  Sse.results (Sse.readAll JSON_parse_fragment
    [json_text "data: {'result': 1}" +:+ newline +:+
     json_text "data: {'result': 2}"]) = [JNum 1].
Proof.
  split; [reflexivity|].
  rewrite (proj1 (proj2 (unterminated_line_dropped JSON_parse_fragment
    (json_text "data: {'result': 1}") (json_text "data: {'result': 2}")
    eq_refl))).
  vm_compute. reflexivity.
Defined.


Lemma dataOf_cases_witness :
  Sse.dataOf ("  data: [1]" +:+ String (ascii_of_nat 13) "") = Some "[1]" /\
  Sse.dataOf "data:[1]" = None.
Proof.
  pose proof (dataOf_cases "data:[1]") as [Hnone _]. split.
  - reflexivity.
  - apply Hnone. left. reflexivity.
Defined.

Lemma uniqueCitations_spec_witness :
  map cit_title (uniqueCitations sample_citations) = [Some "A"] /\
  exists c', In c' (uniqueCitations sample_citations) /\
             cit_url c' = Some "https://a.example".
Proof.
  split; [reflexivity|].
  destruct (uniqueCitations_spec sample_citations) as (_ & _ & _ & Hcov).
  destruct (Hcov (List.nth 2 sample_citations
                    (List.nth 0 sample_citations
                       {| cit_title := None; cit_url := None;
                          cit_snippet := None; cit_source := None;
                          cit_relevance := None |})))
    as (c' & Hc' & Hurl).
  - right. right. left. reflexivity.
  - reflexivity.
  - exists c'. split; [exact Hc'|exact Hurl].
Defined.

Lemma provider_selection_valid_witness :
  selection_after sample_provider sample_browser
    [(sample_provider, "code"); (sample_provider, "nobody")] = Some "code" /\
  (exists a,
     AgentProvider.currentAgent sample_provider
       (selection_after sample_provider sample_browser
          [(sample_provider, "code"); (sample_provider, "nobody")])
     = Some a /\ agent_id a = "code" /\
     In a (AgentProvider.agents sample_provider)) /\
  AgentProvider.currentAgent sample_provider
    (selection_after empty_provider sample_browser []) = None.
Proof.
  split; [reflexivity|]. split.
  - apply (proj2 (proj1 (provider_selection_valid sample_provider
                           sample_provider sample_browser
                           [(sample_provider, "code");
                            (sample_provider, "nobody")])
                    eq_refl ltac:(repeat constructor)) "code" eq_refl).
  - exact (proj2 (proj2 (provider_selection_valid empty_provider
                           sample_provider sample_browser []) eq_refl)).
Defined.

Lemma provider_selection_restored_witness :
  AgentProvider.persistSelection sample_provider = true /\
  AgentProvider.has_window sample_browser = true /\
  AgentProvider.currentAgentId
    (AgentProvider.mount sample_provider
       (AgentProvider.browser
          (provider_after sample_provider sample_browser ["code"])))
  = Some "code".
Proof.
  split; [reflexivity|]. split; [reflexivity|].
  apply (proj1 (provider_selection_restored sample_provider sample_browser
                  ["code"]) eq_refl eq_refl "code" eq_refl).
  discriminate.
Defined.

Lemma chat_in_provider_witness :
  AgentProvider.agents sample_provider <> [] /\
  (exists a,
     resolveChatAgent url_only_chat
       (Some (contextAt sample_provider
                (selection_after sample_provider sample_browser
                   [(sample_provider, "code")])))
     = Some a /\
     In a (AgentProvider.agents sample_provider)) /\
  resolveChatAgent url_only_chat
    (Some (contextAt sample_provider
             (selection_after empty_provider sample_browser [])))
  = resolveChatAgent url_only_chat None.
Proof.
  split; [discriminate|]. split.
  - destruct (proj1 (chat_in_provider sample_provider sample_provider
                       sample_browser [(sample_provider, "code")]
                       url_only_chat eq_refl eq_refl)
                eq_refl ltac:(repeat constructor) ltac:(discriminate))
      as (a & Hr & _ & Hin & _).
    exists a. split; [exact Hr|exact Hin].
  - exact (proj2 (proj2 (chat_in_provider empty_provider sample_provider
                           sample_browser [] url_only_chat eq_refl eq_refl)
                    eq_refl)).
Defined.

Lemma resolve_agent_witness :
  resolveChatAgent
    {| chat_agent := None; chat_agentId := Some "writer";
       chat_agentUrl := Some "https://other.example"; chat_apiKey := None;
       chat_agentName := None; chat_agentIconUrl := None |}
    (Some {| ctx_currentAgent := Some research_agent;
             ctx_agents := [research_agent; code_agent] |}) = None.
Proof.
  apply (proj2 (resolve_agent _ _)
           {| ctx_currentAgent := Some research_agent;
              ctx_agents := [research_agent; code_agent] |} "writer");
    try reflexivity.
  discriminate.
Defined.


Lemma validateField_required_witness :
  FormRenderer.field_required terms_field = Some true /\
  FormRenderer.validateField sample_RegExp_test terms_field JUndefined
  = Ok (Some "Accept the terms is required") /\
  FormRenderer.validateField sample_RegExp_test terms_field (JBool false)
  = Ok None.
Proof.
  split; [reflexivity|].
  destruct (validateField_required sample_RegExp_test terms_field JUndefined
              eq_refl) as [Hempty Hbool].
  split; [exact (Hempty eq_refl)|exact (Hbool false)].
Defined.

Lemma validateField_bounds_witness :
  FormRenderer.validateField sample_RegExp_test age_field (JNum 21) = Ok None /\
  FormRenderer.validateField sample_RegExp_test age_field (JNum 17)
  = Ok (Some "Age must be at least 18") /\
  FormRenderer.validateField sample_RegExp_test age_field (JStr "17") = Ok None.
Proof.
  split; [|split; reflexivity].
  apply (proj1 (validateField_bounds sample_RegExp_test age_field _ 21
                  eq_refl)).
  split; intros ? [= <-]. lia.
Defined.

Lemma handleSubmit_spec_witness :
  FormRenderer.handleSubmit sample_RegExp_test sample_Array_prototype_has
    [age_field; terms_field]
    (FormRenderer.handleChange "age" (JNum 21)
       (FormRenderer.initialValues [age_field; terms_field]))
  = Ok (FormRenderer.Submitted
          (FormRenderer.handleChange "age" (JNum 21)
             (FormRenderer.initialValues [age_field; terms_field]))) /\
  FormRenderer.handleSubmit sample_RegExp_test sample_Array_prototype_has
    [proto_field]
    (FormRenderer.handleChange "__proto__" (JStr "")
       (FormRenderer.initialValues [proto_field]))
  = Ok (FormRenderer.Submitted
          (FormRenderer.handleChange "__proto__" (JStr "")
             (FormRenderer.initialValues [proto_field]))).
Proof.
  split.
  - apply (proj1 (handleSubmit_spec sample_RegExp_test
                    sample_Array_prototype_has [age_field; terms_field] _)).
    intros f [<- | [<- | []]]; exists None; split;
      [vm_compute; reflexivity|left; reflexivity
      |vm_compute; reflexivity|left; reflexivity].
  - apply (proj1 (handleSubmit_spec sample_RegExp_test
                    sample_Array_prototype_has [proto_field] _)).
    intros f [<- | []]. exists (Some "Prototype is required").
    split; [vm_compute; reflexivity|right; reflexivity].
Defined.

Lemma untouched_form_not_submitted_witness :
  List.NoDup (map FormRenderer.field_name [age_field; terms_field]) /\
  FormRenderer.field_type age_field <> "checkbox" /\
  (forall submitted,
     FormRenderer.handleSubmit sample_RegExp_test sample_Array_prototype_has
       [age_field; terms_field]
       (FormRenderer.initialValues [age_field; terms_field])
     <> Ok (FormRenderer.Submitted submitted)) /\
  FormRenderer.handleSubmit sample_RegExp_test sample_Array_prototype_has
    [proto_field] (FormRenderer.initialValues [proto_field])
  = Ok (FormRenderer.Submitted PlainObject.empty).
Proof.
  assert (Hnd : List.NoDup
                  (map FormRenderer.field_name [age_field; terms_field])).
  { repeat constructor; cbn; intros H; repeat destruct H as [H | H];
      try discriminate H; exact H. }
  split; [exact Hnd|]. split; [discriminate|]. split.
  - apply (proj1 (untouched_form_not_submitted sample_RegExp_test
                    sample_Array_prototype_has [age_field; terms_field]
                    age_field eq_refl eq_refl) Hnd);
      [left; reflexivity|discriminate|discriminate].
  - exact (proj2 (proj2 (proj2 (untouched_form_not_submitted
             sample_RegExp_test sample_Array_prototype_has [proto_field]
             proto_field eq_refl eq_refl) eq_refl))).
Defined.

Lemma form_request_detection_witness :
  truthy (sample_form_status "taskId") = true /\
  ChatForm.onResult (sample_form_status "taskId") ChatForm.closed =
  {| ChatForm.currentFormRequest := Some (JObj [("id", JStr "form-1")]);
     ChatForm.pendingTaskId := JStr "task-1" |}.
Proof.
  split; [reflexivity|].
  rewrite (form_request_detection (sample_form_status "taskId")
             ChatForm.closed eq_refl).
  reflexivity.
Defined.

Lemma form_answered_once_witness :
  truthy (sample_form_status "id") = true /\
  asks_for_input (sample_form_status "id") = true /\
  truthy (js_get (sample_form_status "id") "taskId") = false /\
  ChatForm.handleFormSubmit
    (ChatForm.onResult (sample_form_status "id") ChatForm.closed)
    (JObj [("age", JNum 21)])
  = (ChatForm.onResult (sample_form_status "id") ChatForm.closed, None).
Proof.
  split; [reflexivity|]. split; [reflexivity|]. split; [reflexivity|].
  exact (proj1 (proj2 (proj2 (form_answered_once
           (ChatForm.onResult (sample_form_status "id") ChatForm.closed)
           (JObj [("age", JNum 21)])))
         (sample_form_status "id") ChatForm.closed
         eq_refl eq_refl eq_refl eq_refl)).
Defined.
